(** * Role and moderation handlers of the group-manager bot (src/bot.py)

    A shallow embedding of [get_role_priority] and of the moderation
    command handlers of [GroupManager] (ban, unban, mute, unmute, warn,
    promote, demote, lockdown), with the [users] table of the SQLite
    database as a finite map and the Telegram Bot API as an oracle.

    Conventions.
    - A Python [str] is a [string] holding its UTF-8 bytes; an [int] is a [Z].
    - A handler is a computation in the monad [M]: it threads the [World]
      (database, platform calls made, replies sent, error log) and either
      returns or raises a Python exception.
    - An update comes from a user in a chat, so that [effective_chat] and
      [effective_user] are there.
    - [update.message.reply_text] and [logger.error] are taken not to fail:
      they append to [replies] and [errors].  A SQL statement fails only
      on a parameter that SQLite cannot hold; every statement is committed
      as soon as it has run, as in the source. *)

From Stdlib Require Import ZArith Ascii String List Lia.
From stdpp Require Import base gmap strings pretty list fin_maps.

Local Open Scope string_scope.
Local Open Scope Z_scope.

(** ** Python values *)

Module Py.

(** [str.lower] on the ASCII range.  Bytes above 127 (the UTF-8 encoding of
    a non-ASCII character) are kept: no key of [role_map] and no entry of
    [valid_roles] contains a character that a non-ASCII character lowers
    to, so membership in them is decided as Python decides it. *)
Definition lower_ascii (c : ascii) : ascii :=
  let n := N_of_ascii c in
  if ((65 <=? n) && (n <=? 90))%N then ascii_of_N (n + 32) else c.

Fixpoint lower (s : string) : string :=
  match s with
  | EmptyString => EmptyString
  | String c r => String (lower_ascii c) (lower r)
  end.

(** [sep.join(l)] *)
Fixpoint join (sep : string) (l : list string) : string :=
  match l with
  | [] => EmptyString
  | [x] => x
  | x :: r => x ++ sep ++ join sep r
  end.

Definition digit_of (c : ascii) : option Z :=
  let n := N_of_ascii c in
  if ((48 <=? n) && (n <=? 57))%N then Some (Z.of_N n - 48) else None.

(** Digits of an integer literal after the first one: single underscores
    may separate digits, and the literal ends on a digit. *)
Fixpoint int_digits (acc : Z) (after_underscore : bool) (s : string) : option Z :=
  match s with
  | EmptyString => if after_underscore then None else Some acc
  | String c r =>
      match digit_of c with
      | Some d => int_digits (10 * acc + d) false r
      | None =>
          if (Ascii.eqb c "_" && negb after_underscore)%bool
          then int_digits acc true r
          else None
      end
  end.

Definition int_unsigned (s : string) : option Z :=
  match s with
  | String c r =>
      match digit_of c with
      | Some d => int_digits d false r
      | None => None
      end
  | EmptyString => None
  end.

(** [int(s)] for a command argument: an optional sign and a decimal
    literal; [None] stands for [ValueError].  Command arguments come from
    splitting the message on whitespace, so the stripping of surrounding
    whitespace that [int] also does has nothing to strip; digits outside
    ASCII are not recognised here. *)
Definition int (s : string) : option Z :=
  match s with
  | String "-" r => Z.opp <$> int_unsigned r
  | String "+" r => int_unsigned r
  | _ => int_unsigned s
  end.

Definition dquote : ascii := ascii_of_N 34.

Definition hex_digit (n : N) : ascii :=
  if (n <? 10)%N then ascii_of_N (48 + n) else ascii_of_N (87 + n).

Fixpoint contains (c : ascii) (s : string) : bool :=
  match s with
  | EmptyString => false
  | String d r => Ascii.eqb c d || contains c r
  end.

Fixpoint repr_body (quote : ascii) (s : string) : string :=
  match s with
  | EmptyString => EmptyString
  | String c r =>
      let n := N_of_ascii c in
      let rest := repr_body quote r in
      if Ascii.eqb c "\" || Ascii.eqb c quote then String "\" (String c rest)
      else if (n =? 9)%N then String "\" (String "t" rest)
      else if (n =? 10)%N then String "\" (String "n" rest)
      else if (n =? 13)%N then String "\" (String "r" rest)
      else if ((n <? 32) || (n =? 127))%N
      then String "\" (String "x" (String (hex_digit (n / 16)) (String (hex_digit (n mod 16)) rest)))
      else String c rest
  end.

(** [repr(s)] for a [str]: single quotes, unless the text holds a single
    quote and no double quote; control characters are escaped.  Bytes of
    non-ASCII characters are kept as they are. *)
Definition repr (s : string) : string :=
  let quote : ascii :=
    if contains "'" s && negb (contains dquote s) then dquote else "'"%char in
  String quote (repr_body quote s ++ String quote EmptyString).

(** [str(n)] for an [int]. *)
Definition str (n : Z) : string := pretty n.

(** A [datetime] is the number of microseconds since
    0001-01-01T00:00:00 ([datetime.min]); [datetime.max] is the last
    microsecond of year 9999 (day ordinal 3652059). *)
Definition datetime_end : Z := 3652059 * 86400 * 1000000.

Definition datetime_ok (t : Z) : bool := (0 <=? t) && (t <? datetime_end).

(** [timedelta(minutes=m)] raises [OverflowError] when the number of days
    exceeds 999999999 in magnitude; [now + timedelta] raises it when the
    sum leaves the range of [datetime]. *)
Definition timedelta_minutes (m : Z) : option Z :=
  if Z.abs (m `div` 1440) <=? 999999999 then Some (m * 60 * 1000000) else None.

Definition datetime_add (t d : Z) : option Z :=
  if datetime_ok (t + d) then Some (t + d) else None.

End Py.

(** ** Role hierarchy *)

Definition role_map : gmap string Z :=
  list_to_map
    [ ("owner", 4); ("creator", 4); ("superadmin", 3); ("administrator", 3);
      ("admin", 3); ("moderator", 2); ("member", 1); ("restricted", 0) ].

Definition get_role_priority (role : string) : Z :=
  default 1 (role_map !! Py.lower role).

(** ** The database

    Of the eight tables that [Database.create_tables] declares, the
    moderation handlers read and write [users] only.  Its primary key is
    [(user_id, group_id)]; the columns hold values of their declared type. *)

Record user_row := mk_user_row {
  username : string;
  role : string;
  joined_at : Z;
  warnings : Z;
  points : Z
}.

Record Database := mk_Database {
  users : gmap (Z * Z) user_row
}.

(** A row as [INSERT OR IGNORE INTO users (user_id, group_id, username,
    joined_at)] creates it: the other columns take their defaults. *)
Definition new_user_row (name : string) (joined : Z) : user_row :=
  {| username := name; role := "member"; joined_at := joined;
     warnings := 0; points := 0 |}.

Definition set_role (new_role : string) (r : user_row) : user_row :=
  {| username := username r; role := new_role; joined_at := joined_at r;
     warnings := warnings r; points := points r |}.

Definition set_warnings (n : Z) (r : user_row) : user_row :=
  {| username := username r; role := role r; joined_at := joined_at r;
     warnings := n; points := points r |}.

(** SQLite integers are 64-bit signed. *)
Definition sqlite_int (z : Z) : bool := (- 2 ^ 63 <=? z) && (z <? 2 ^ 63).

(** ** The Telegram Bot API *)

Record ChatPermissions := mk_ChatPermissions {
  can_send_messages : option bool;
  can_send_media_messages : option bool;
  can_send_polls : option bool;
  can_send_other_messages : option bool;
  can_add_web_page_previews : option bool;
  can_change_info : option bool;
  can_invite_users : option bool;
  can_pin_messages : option bool
}.

(** The calls of [context.bot] that the handlers make. *)
Inductive request :=
  | get_chat_member (chat_id user_id : Z)
  | ban_chat_member (chat_id user_id : Z)
  | unban_chat_member (chat_id user_id : Z)
  | restrict_chat_member (chat_id user_id : Z)
      (permissions : ChatPermissions) (until_date : option Z)
  | set_chat_permissions (chat_id : Z) (permissions : ChatPermissions).

(** The platform answers a call knowing the calls made before it, so that
    its answers may change from one call to the next.  [member_status]
    gives the [status] of the chat member, or the text of the exception
    that [get_chat_member] raises; [enforce] gives [None] when an
    enforcement call returns and the text of the exception when it raises. *)
Record Bot := mk_Bot {
  member_status : list request -> Z -> Z -> string + string;
  enforce : list request -> request -> option string
}.

Record Update := mk_Update {
  effective_chat_id : Z;
  effective_user_id : Z
}.

(** [context.bot], [context.args], and the reading of [datetime.now()]
    during the handler. *)
Record Context := mk_Context {
  bot : Bot;
  args : list string;
  now : Z
}.

(** ** Handler computations *)

Inductive exc_class := ValueError | OverflowError | TelegramError.

Inductive exception := Exception (cls : exc_class) (msg : string).

(** [str(e)] *)
Definition exc_str (e : exception) : string :=
  match e with Exception _ msg => msg end.

Record World := mk_World {
  db : Database;
  requests : list request;
  replies : list string;
  errors : list string
}.

(** A handler returns, raises, or reaches a value that the embedding does
    not represent ([OutOfModel]: an integer column that SQLite turns into a
    REAL). *)
Inductive result (A : Type) :=
  | Ret (a : A)
  | Raise (e : exception)
  | OutOfModel.
Arguments Ret {A} a.
Arguments Raise {A} e.
Arguments OutOfModel {A}.

Definition M (A : Type) : Type := World -> World * result A.

#[global] Instance M_ret : MRet M := fun A a w => (w, Ret a).

#[global] Instance M_bind : MBind M := fun A B f m w =>
  match m w with
  | (w', Ret a) => f a w'
  | (w', Raise e) => (w', Raise e)
  | (w', OutOfModel) => (w', OutOfModel)
  end.

Definition raise {A} (e : exception) : M A := fun w => (w, Raise e).

(** [try: body except Exception as e: handler e] *)
Definition try_except {A} (body : M A) (handler : exception -> M A) : M A :=
  fun w =>
    match body w with
    | (w', Raise e) => handler e w'
    | r => r
    end.

(** The world a handler leaves behind. *)
Definition exec {A} (m : M A) (w : World) : World := fst (m w).

Definition with_db (d : Database) (w : World) : World :=
  {| db := d; requests := requests w; replies := replies w; errors := errors w |}.

Definition reply_text (text : string) : M unit := fun w =>
  ({| db := db w; requests := requests w;
      replies := replies w ++ [text]; errors := errors w |}, Ret tt).

Definition logger_error (text : string) : M unit := fun w =>
  ({| db := db w; requests := requests w;
      replies := replies w; errors := errors w ++ [text] |}, Ret tt).

Definition sent (rq : request) (w : World) : World :=
  {| db := db w; requests := requests w ++ [rq];
     replies := replies w; errors := errors w |}.

Definition bot_get_chat_member (b : Bot) (chat_id user_id : Z) : M string :=
  fun w =>
    match member_status b (requests w) chat_id user_id with
    | inl status => (sent (get_chat_member chat_id user_id) w, Ret status)
    | inr msg =>
        (sent (get_chat_member chat_id user_id) w,
         Raise (Exception TelegramError msg))
    end.

Definition bot_call (b : Bot) (rq : request) : M unit := fun w =>
  match enforce b (requests w) rq with
  | None => (sent rq w, Ret tt)
  | Some msg => (sent rq w, Raise (Exception TelegramError msg))
  end.

Definition get_db : M Database := fun w => (w, Ret (db w)).

Definition put_db (d : Database) : M unit := fun w => (with_db d w, Ret tt).

Definition out_of_model {A} : M A := fun w => (w, OutOfModel).

(** Binding a Python [int] to a statement parameter. *)
Definition sql_bind (z : Z) : M unit :=
  if sqlite_int z then mret tt
  else raise (Exception OverflowError
                "Python int too large to convert to SQLite INTEGER").

(** [SELECT ... FROM users WHERE user_id=? AND group_id=?] and
    [cursor.fetchone()] *)
Definition select_user (user_id chat_id : Z) : M (option user_row) :=
  sql_bind user_id;;
  sql_bind chat_id;;
  d ← get_db;
  mret (users d !! (user_id, chat_id)).

(** [UPDATE users SET role=? WHERE user_id=? AND group_id=?], committed. *)
Definition update_role (new_role : string) (user_id chat_id : Z) : M unit :=
  sql_bind user_id;;
  sql_bind chat_id;;
  d ← get_db;
  put_db {| users := alter (set_role new_role) (user_id, chat_id) (users d) |}.

(** [UPDATE users SET warnings = warnings + 1 WHERE user_id = ? AND
    group_id = ?], committed.  At the largest 64-bit integer the sum is a
    REAL. *)
Definition update_warnings (user_id chat_id : Z) : M unit :=
  sql_bind user_id;;
  sql_bind chat_id;;
  d ← get_db;
  match users d !! (user_id, chat_id) with
  | None => mret tt
  | Some r =>
      if sqlite_int (warnings r + 1)
      then put_db {| users := <[(user_id, chat_id) := set_warnings (warnings r + 1) r]>
                                (users d) |}
      else out_of_model
  end.

Definition py_int (s : string) : M Z :=
  match Py.int s with
  | Some n => mret n
  | None =>
      raise (Exception ValueError
               ("invalid literal for int() with base 10: " ++ Py.repr s))
  end.

Definition nl : string := String (ascii_of_N 10) EmptyString.

(** ** GroupManager *)

Definition check_admin (update : Update) (context : Context) : M bool :=
  let chat_id := effective_chat_id update in
  let user_id := effective_user_id update in
  try_except
    (status ← bot_get_chat_member (bot context) chat_id user_id;
     mret (bool_decide (status ∈ ["administrator"; "creator"])))
    (fun e =>
       logger_error ("Admin check error: " +:+ exc_str e);;
       mret false).

Definition get_user_role (update : Update) (context : Context) : M string :=
  let chat_id := effective_chat_id update in
  let user_id := effective_user_id update in
  row ← select_user user_id chat_id;
  match row with
  | Some r => mret (role r)
  | None =>
      try_except
        (bot_get_chat_member (bot context) chat_id user_id)
        (fun _ => mret "member")
  end.

Definition cmd_ban (update : Update) (context : Context) : M unit :=
  admin ← check_admin update context;
  if negb admin then reply_text "❌ Admin privileges required."
  else
    try_except
      (match args context with
       | [] => reply_text "Usage: /ban <user_id> [reason]"
       | arg0 :: rest =>
           user_id ← py_int arg0;
           let reason :=
             match rest with
             | [] => "No reason given"
             | _ => Py.join " " rest
             end in
           bot_call (bot context)
             (ban_chat_member (effective_chat_id update) user_id);;
           reply_text ("User " +:+ Py.str user_id +:+ " banned. Reason: " +:+ reason)
       end)
      (fun e =>
         reply_text ("Failed to ban user: " +:+ exc_str e);;
         logger_error ("Ban error: " +:+ exc_str e)).

Definition cmd_unban (update : Update) (context : Context) : M unit :=
  admin ← check_admin update context;
  if negb admin then reply_text "❌ Admin privileges required."
  else
    match args context with
    | [] => reply_text "Usage: /unban <user_id>"
    | arg0 :: _ =>
        user_id ← py_int arg0;
        try_except
          (bot_call (bot context)
             (unban_chat_member (effective_chat_id update) user_id);;
           reply_text ("User " +:+ Py.str user_id +:+ " has been unbanned."))
          (fun e =>
             reply_text ("Error unbanning user: " +:+ exc_str e);;
             logger_error ("Unban error: " +:+ exc_str e))
    end.

(** [ChatPermissions(can_send_messages=False)] *)
Definition mute_permissions : ChatPermissions :=
  {| can_send_messages := Some false; can_send_media_messages := None;
     can_send_polls := None; can_send_other_messages := None;
     can_add_web_page_previews := None; can_change_info := None;
     can_invite_users := None; can_pin_messages := None |}.

Definition unmute_permissions : ChatPermissions :=
  {| can_send_messages := Some true; can_send_media_messages := Some true;
     can_send_polls := Some true; can_send_other_messages := Some true;
     can_add_web_page_previews := Some true; can_change_info := Some false;
     can_invite_users := Some true; can_pin_messages := Some false |}.

Definition lockdown_permissions (allow : bool) : ChatPermissions :=
  {| can_send_messages := Some allow; can_send_media_messages := Some allow;
     can_send_polls := Some allow; can_send_other_messages := Some allow;
     can_add_web_page_previews := Some allow; can_change_info := None;
     can_invite_users := None; can_pin_messages := None |}.

(** [datetime.now() + timedelta(minutes=mute_minutes)] *)
Definition mute_until (now mute_minutes : Z) : M Z :=
  match Py.timedelta_minutes mute_minutes ≫= Py.datetime_add now with
  | Some t => mret t
  | None => raise (Exception OverflowError "date value out of range")
  end.

Definition cmd_mute (update : Update) (context : Context) : M unit :=
  admin ← check_admin update context;
  if negb admin then reply_text "❌ Admin privileges required."
  else
    match args context with
    | [] => reply_text "Usage: /mute <user_id> [minutes]"
    | arg0 :: rest =>
        user_id ← py_int arg0;
        mute_minutes ← match rest with
                        | arg1 :: _ => py_int arg1
                        | [] => mret 10
                        end;
        until_date ← mute_until (now context) mute_minutes;
        try_except
          (bot_call (bot context)
             (restrict_chat_member (effective_chat_id update) user_id
                mute_permissions (Some until_date));;
           reply_text ("Muted user " +:+ Py.str user_id +:+ " for "
                       +:+ Py.str mute_minutes +:+ " minutes."))
          (fun e =>
             reply_text ("Failed to mute user: " +:+ exc_str e);;
             logger_error ("Mute error: " +:+ exc_str e))
    end.

Definition cmd_unmute (update : Update) (context : Context) : M unit :=
  admin ← check_admin update context;
  if negb admin then reply_text "❌ Admin privileges required."
  else
    match args context with
    | [] => reply_text "Usage: /unmute <user_id>"
    | arg0 :: _ =>
        user_id ← py_int arg0;
        try_except
          (bot_call (bot context)
             (restrict_chat_member (effective_chat_id update) user_id
                unmute_permissions None);;
           reply_text ("User " +:+ Py.str user_id +:+ " has been unmuted."))
          (fun e =>
             reply_text ("Failed to unmute user: " +:+ exc_str e);;
             logger_error ("Unmute error: " +:+ exc_str e))
    end.

Definition cmd_warn (update : Update) (context : Context) : M unit :=
  admin ← check_admin update context;
  if negb admin then reply_text "❌ Admin privileges required."
  else
    match args context with
    | [] => reply_text "Usage: /warn <user_id> [reason]"
    | arg0 :: rest =>
        user_id ← py_int arg0;
        let reason :=
          match rest with
          | [] => "No reason provided"
          | _ => Py.join " " rest
          end in
        let chat_id := effective_chat_id update in
        update_warnings user_id chat_id;;
        row ← select_user user_id chat_id;
        match row with
        | Some r =>
            let warning_count := warnings r in
            reply_text ("User " +:+ Py.str user_id +:+ " warned. Reason: " +:+ reason
                        +:+ nl +:+ "Total warnings: " +:+ Py.str warning_count);;
            if 3 <=? warning_count then
              try_except
                (bot_call (bot context) (ban_chat_member chat_id user_id);;
                 reply_text ("User " +:+ Py.str user_id
                             +:+ " has been auto-banned for exceeding warning limit."))
                (fun e =>
                   logger_error ("Auto-ban after warnings failed: " +:+ exc_str e))
            else mret tt
        | None => reply_text "Cannot warn user who is not in the database."
        end
    end.

Definition valid_roles : list string :=
  ["owner"; "administrator"; "admin"; "moderator"; "member"].

Definition cmd_promote (update : Update) (context : Context) : M unit :=
  admin ← check_admin update context;
  if negb admin then reply_text "❌ Admin privileges required."
  else
    match args context with
    | arg0 :: arg1 :: _ =>
        user_id ← py_int arg0;
        let new_role := Py.lower arg1 in
        if negb (bool_decide (new_role ∈ valid_roles)) then
          reply_text "Invalid role. Valid roles: owner, administrator, moderator, member."
        else
          let chat_id := effective_chat_id update in
          current_user_role ← get_user_role update context;
          if get_role_priority current_user_role <=? get_role_priority new_role then
            reply_text "Cannot promote to a role >= your own role."
          else
            update_role new_role user_id chat_id;;
            reply_text ("User " +:+ Py.str user_id +:+ " promoted to " +:+ new_role +:+ ".")
    | _ => reply_text "Usage: /promote <user_id> <role>"
    end.

(** The [for ... else] of [cmd_demote]: the first role of the table whose
    priority is [new_priority], and ['member'] when the loop finds none. *)
Definition demoted_role (new_priority : Z) : string :=
  match List.find (fun rp => snd rp =? new_priority)
          [("owner", 4); ("administrator", 3); ("moderator", 2); ("member", 1)] with
  | Some (r, _) => r
  | None => "member"
  end.

Definition cmd_demote (update : Update) (context : Context) : M unit :=
  admin ← check_admin update context;
  if negb admin then reply_text "❌ Admin privileges required."
  else
    match args context with
    | [] => reply_text "Usage: /demote <user_id>"
    | arg0 :: _ =>
        user_id ← py_int arg0;
        let chat_id := effective_chat_id update in
        current_user_role ← get_user_role update context;
        row ← select_user user_id chat_id;
        match row with
        | None => reply_text "User not found in the database."
        | Some r =>
            let target_role := role r in
            if get_role_priority current_user_role <=? get_role_priority target_role then
              reply_text "You cannot demote a user with a role >= your own."
            else
              let old_priority := get_role_priority target_role in
              let new_priority := old_priority - 1 in
              let new_role := demoted_role new_priority in
              update_role new_role user_id chat_id;;
              reply_text ("User " +:+ Py.str user_id +:+ " has been demoted to "
                          +:+ new_role +:+ ".")
        end
    end.

Definition cmd_lockdown (update : Update) (context : Context) : M unit :=
  admin ← check_admin update context;
  if negb admin then reply_text "❌ Admin privileges required."
  else
    match args context with
    | [] => reply_text "Usage: /lockdown <on/off>"
    | arg0 :: _ =>
        let mode := Py.lower arg0 in
        let chat_id := effective_chat_id update in
        try_except
          (if String.eqb mode "on" then
             bot_call (bot context)
               (set_chat_permissions chat_id (lockdown_permissions false));;
             reply_text "Lockdown mode enabled. Non-admins cannot send messages."
           else if String.eqb mode "off" then
             bot_call (bot context)
               (set_chat_permissions chat_id (lockdown_permissions true));;
             reply_text "Lockdown mode disabled. Everyone can send messages now."
           else reply_text "Use /lockdown <on/off>")
          (fun e =>
             logger_error ("Lockdown error: " +:+ exc_str e);;
             reply_text "Failed to change lockdown mode.")
    end.

(** ** Running a handler *)

(** What [check_admin] decides: the platform's status of the actor, read at
    the time of the call. *)
Definition platform_admin (update : Update) (context : Context) (w : World) : bool :=
  match member_status (bot context) (requests w)
          (effective_chat_id update) (effective_user_id update) with
  | inl status => bool_decide (status ∈ ["administrator"; "creator"])
  | inr _ => false
  end.

(** The world after the privilege check: the lookup has been sent, and a
    failed lookup has been logged. *)
Definition checked (update : Update) (context : Context) (w : World) : World :=
  exec (check_admin update context) w.
Arguments checked : simpl never.

Definition privilege_denial : string := "❌ Admin privileges required.".

(** The escalation step of [cmd_warn], after the count has been reported. *)
Definition auto_ban (context : Context) (chat_id user_id warning_count : Z) : M unit :=
  if 3 <=? warning_count then
    try_except
      (bot_call (bot context) (ban_chat_member chat_id user_id);;
       reply_text ("User " +:+ Py.str user_id
                   +:+ " has been auto-banned for exceeding warning limit."))
      (fun e => logger_error ("Auto-ban after warnings failed: " +:+ exc_str e))
  else mret tt.

Definition warn_reason (rest : list string) : string :=
  match rest with
  | [] => "No reason provided"
  | _ => Py.join " " rest
  end.

Definition warned_text (user_id : Z) (reason : string) (warning_count : Z) : string :=
  "User " +:+ Py.str user_id +:+ " warned. Reason: " +:+ reason
  +:+ nl +:+ "Total warnings: " +:+ Py.str warning_count.

(** The database is left as it was. *)
Definition same_db (w w' : World) : Prop := db w' = db w.

(** Replies were added, none of them the privilege denial. *)
Definition not_denied (w w' : World) : Prop :=
  exists new, replies w' = (replies w ++ new)%list /\ privilege_denial ∉ new.

(** What [get_user_role] answers at [w]: the stored role when the actor has
    a row, else the platform status, else ['member']. *)
Definition resolved_role (update : Update) (context : Context) (w : World) : string :=
  match users (db w) !! (effective_user_id update, effective_chat_id update) with
  | Some r => role r
  | None =>
      match member_status (bot context) (requests w)
              (effective_chat_id update) (effective_user_id update) with
      | inl status => status
      | inr _ => "member"
      end
  end.

(** ** Role hierarchy: priorities *)

Definition role_names : list string :=
  ["owner"; "creator"; "superadmin"; "administrator"; "admin"; "moderator";
   "member"; "restricted"].

Definition five_roles : list string :=
  ["owner"; "administrator"; "moderator"; "member"; "restricted"].

(** ** Concrete platforms and worlds *)

(** A platform on which every member lookup answers [status] and every
    enforcement call has the outcome [outcome]. *)
Definition constant_bot (status : string) (outcome : option string) : Bot :=
  {| member_status := fun _ _ _ => inl status;
     enforce := fun _ _ => outcome |}.

Definition world_of (rows : list (Z * Z * user_row)) : World :=
  {| db := {| users := list_to_map rows |};
     requests := []; replies := []; errors := [] |}.

Definition row_with (name role : string) (warnings : Z) : user_row :=
  {| username := name; role := role; joined_at := 0;
     warnings := warnings; points := 0 |}.

(** Group 100 with the actor 1 and the target 2. *)
Definition actor_update : Update :=
  {| effective_chat_id := 100; effective_user_id := 1 |}.

Definition two_members (actor_role target_role : string) (target_warnings : Z) : World :=
  world_of [ ((1, 100), row_with "alice" actor_role 0);
             ((2, 100), row_with "bob" target_role target_warnings) ].

(** The same group when the target has just been registered. *)
Definition fresh_target : World :=
  world_of [ ((1, 100), row_with "alice" "owner" 0);
             ((2, 100), new_user_row "bob" 0) ].

(** 2025-01-01T00:00:00 (day ordinal 739252). *)
Definition new_year_2025 : Z := (739252 - 1) * 86400 * 1000000.

(** A command of the actor, read at [new_year_2025], on a platform that
    gives every member the status [status] and whose enforcement calls have
    the outcome [outcome]. *)
Definition status_context (status : string) (outcome : option string)
    (args : list string) : Context :=
  {| bot := constant_bot status outcome; args := args; now := new_year_2025 |}.

Definition admin_context (outcome : option string) (args : list string) : Context :=
  status_context "administrator" outcome args.

(** ** Escalation *)

(** [n] /warn commands in a row, each with the same update and context. *)
Fixpoint warn_times (n : nat) (update : Update) (context : Context) : M unit :=
  match n with
  | O => mret tt
  | S k => warn_times k update context;; cmd_warn update context
  end.

(** ** The privilege gate *)

Inductive operation :=
  | Ban | Unban | Mute | Unmute | Warn | Promote | Demote | Lockdown.

(** The command handler registered for each moderation operation. *)
Definition handler (op : operation) : Update -> Context -> M unit :=
  match op with
  | Ban => cmd_ban
  | Unban => cmd_unban
  | Mute => cmd_mute
  | Unmute => cmd_unmute
  | Warn => cmd_warn
  | Promote => cmd_promote
  | Demote => cmd_demote
  | Lockdown => cmd_lockdown
  end.

(** [keeps R m]: running [m] leaves the world related by [R] to the one it
    started from. *)
Definition keeps (R : World -> World -> Prop) {A} (m : M A) : Prop :=
  forall w, R w (fst (m w)).

(** ** What the handlers may do to a row *)

(** The roles that a handler can write into a row. *)
Definition assignable_roles : list string :=
  ["administrator"; "admin"; "moderator"; "member"].

(** [row_kept r r']: [r'] is [r] but for warnings added and for a role
    replaced by an assignable one. *)
Definition row_kept (r r' : user_row) : Prop :=
  username r' = username r /\
  joined_at r' = joined_at r /\
  points r' = points r /\
  warnings r <= warnings r' /\
  (role r' = role r \/ role r' ∈ assignable_roles).

(** The same keys hold rows, and each row is kept. *)
Definition rows_kept (w w' : World) : Prop :=
  forall key, option_Forall2 row_kept (users (db w) !! key) (users (db w') !! key).

(** [column_kept col]: no row appears or disappears, and every row keeps
    its value in the column [col]. *)
Definition column_kept {A} (col : user_row -> A) (w w' : World) : Prop :=
  forall key, col <$> users (db w') !! key = col <$> users (db w) !! key.

(** The usage line that each handler sends when arguments are missing. *)
Definition usage (op : operation) : string :=
  match op with
  | Ban => "Usage: /ban <user_id> [reason]"
  | Unban => "Usage: /unban <user_id>"
  | Mute => "Usage: /mute <user_id> [minutes]"
  | Unmute => "Usage: /unmute <user_id>"
  | Warn => "Usage: /warn <user_id> [reason]"
  | Promote => "Usage: /promote <user_id> <role>"
  | Demote => "Usage: /demote <user_id>"
  | Lockdown => "Usage: /lockdown <on/off>"
  end.


(** [oblivious m]: [m] neither reads nor writes the database: run on
    another database, it does the same and leaves that database in place. *)
Definition oblivious {A} (m : M A) : Prop :=
  forall d w, m (with_db d w) = (with_db d (fst (m w)), snd (m w)).

(** The reason that /ban reports. *)
Definition ban_reason (rest : list string) : string :=
  match rest with
  | [] => "No reason given"
  | _ => Py.join " " rest
  end.

(** ** Points *)

Definition cmd_points (update : Update) (context : Context) : M unit :=
  let chat_id := effective_chat_id update in
  user_id ← match args context with
             | arg0 :: _ => py_int arg0
             | [] => mret (effective_user_id update)
             end;
  row ← select_user user_id chat_id;
  match row with
  | Some r =>
      reply_text ("User " +:+ Py.str user_id +:+ " has " +:+ Py.str (points r)
                  +:+ " points.")
  | None => reply_text "User not found in the database."
  end.

(** ** Groups

    The [groups] table, keyed by [group_id]; a column that may be NULL is
    an option.  A [Store] is the world of the moderation handlers together
    with this table and the two tables of the polls, and [MS] is the monad
    of the handlers that use them.

    Polls are inserted by [cmd_poll] only and never deleted, so that the
    AUTOINCREMENT key [poll_id] of the n-th poll is n: [polls] is the list
    of the rows in the order of their ids, and [poll_responses] the list of
    the votes in the order in which they were cast.  The [options] column
    holds [json.dumps] of a list of strings and is read back with
    [json.loads], which gives that list again: the row holds the list. *)

Record group_row := mk_group_row {
  title : option string;
  settings : option string;
  created_at : option Z;
  welcome_message : option string;
  rules : option string
}.

Record poll_row := mk_poll_row {
  poll_group_id : Z;
  question : string;
  options : list string;
  poll_created_at : Z;
  is_active : Z
}.

Record poll_response := mk_poll_response {
  response_poll_id : Z;
  response_user_id : Z;
  selected_option : string
}.

Record Store := mk_Store {
  world : World;
  groups : gmap Z group_row;
  polls : list poll_row;
  poll_responses : list poll_response
}.

Definition with_world (w : World) (s : Store) : Store :=
  {| world := w; groups := groups s; polls := polls s;
     poll_responses := poll_responses s |}.

Definition with_groups (g : gmap Z group_row) (s : Store) : Store :=
  {| world := world s; groups := g; polls := polls s;
     poll_responses := poll_responses s |}.

Definition with_polls (p : list poll_row) (s : Store) : Store :=
  {| world := world s; groups := groups s; polls := p;
     poll_responses := poll_responses s |}.

Definition with_poll_responses (r : list poll_response) (s : Store) : Store :=
  {| world := world s; groups := groups s; polls := polls s;
     poll_responses := r |}.

(** A store without polls. *)
Definition store_of (w : World) (g : gmap Z group_row) : Store :=
  {| world := w; groups := g; polls := []; poll_responses := [] |}.

Definition MS (A : Type) : Type := Store -> Store * result A.

#[global] Instance MS_ret : MRet MS := fun A a s => (s, Ret a).

#[global] Instance MS_bind : MBind MS := fun A B f m s =>
  match m s with
  | (s', Ret a) => f a s'
  | (s', Raise e) => (s', Raise e)
  | (s', OutOfModel) => (s', OutOfModel)
  end.

(** A computation on the world, run inside the store. *)
Definition lift {A} (m : M A) : MS A := fun s =>
  (with_world (fst (m (world s))) s, snd (m (world s))).

Definition get_groups : MS (gmap Z group_row) := fun s => (s, Ret (groups s)).

Definition put_groups (g : gmap Z group_row) : MS unit := fun s =>
  (with_groups g s, Ret tt).

Definition exec_store {A} (m : MS A) (s : Store) : Store := fst (m s).

(** What the update tells of the chat and of the sender besides their ids:
    [effective_chat.title] and [effective_user.username]. *)
Record Sender := mk_Sender {
  chat_title : option string;
  user_username : option string
}.

(** [x or default] for an optional [str]: [None] and the empty string are
    false. *)
Definition py_or (x : option string) (default : string) : string :=
  match x with
  | Some (String c s) => String c s
  | _ => default
  end.

Definition set_rules (new_rules : option string) (g : group_row) : group_row :=
  {| title := title g; settings := settings g; created_at := created_at g;
     welcome_message := welcome_message g; rules := new_rules |}.

Definition set_welcome_message (new_welcome : option string) (g : group_row) : group_row :=
  {| title := title g; settings := settings g; created_at := created_at g;
     welcome_message := new_welcome; rules := rules g |}.

(** The group row that /start creates: the columns that the INSERT does
    not name are NULL. *)
Definition new_group_row (name : string) (created : Z) : group_row :=
  {| title := Some name; settings := None; created_at := Some created;
     welcome_message := None; rules := None |}.

(** [INSERT OR IGNORE INTO groups (group_id, title, created_at)] *)
Definition insert_or_ignore_group (chat_id : Z) (name : string) (created : Z) : MS unit :=
  lift (sql_bind chat_id);;
  g ← get_groups;
  match g !! chat_id with
  | Some _ => mret tt
  | None => put_groups (<[chat_id := new_group_row name created]> g)
  end.

(** [INSERT OR IGNORE INTO users (user_id, group_id, username, joined_at)].
    In [cmd_start] the group row is there by the statement before, so the
    foreign key on [group_id] holds. *)
Definition insert_or_ignore_user (user_id chat_id : Z) (name : string) (joined : Z) : M unit :=
  sql_bind user_id;;
  sql_bind chat_id;;
  d ← get_db;
  match users d !! (user_id, chat_id) with
  | Some _ => mret tt
  | None => put_db {| users := <[(user_id, chat_id) := new_user_row name joined]> (users d) |}
  end.

Definition welcome_text : string :=
  "Hello! I'm your expanded GroupManager Bot." +:+ nl
  +:+ "• Use /help to see what I can do." +:+ nl
  +:+ "• Use /setwelcome <message> to customize an automatic welcome." +:+ nl
  +:+ "• Use /setrules <rules> to set or update the group rules." +:+ nl +:+ nl
  +:+ "Happy managing!".

(** [now context] is the reading of [datetime.now()] for the group row and
    [joined] the later one for the user row. *)
Definition cmd_start (update : Update) (sender : Sender) (context : Context)
    (joined : Z) : MS unit :=
  let chat_id := effective_chat_id update in
  let user_id := effective_user_id update in
  let username := py_or (user_username sender) "NoUsername" in
  insert_or_ignore_group chat_id (py_or (chat_title sender) "Unnamed Group") (now context);;
  lift (insert_or_ignore_user user_id chat_id username joined);;
  lift (reply_text welcome_text).

Definition cmd_rules (update : Update) (context : Context) : MS unit :=
  let chat_id := effective_chat_id update in
  lift (sql_bind chat_id);;
  g ← get_groups;
  match g !! chat_id ≫= rules with
  | Some (String c s) => lift (reply_text ("**Group Rules:**" +:+ nl +:+ String c s))
  | _ => lift (reply_text "No rules set. Use /setrules <rules> to add some.")
  end.

Definition cmd_setrules (update : Update) (context : Context) : MS unit :=
  admin ← lift (check_admin update context);
  if negb admin then lift (reply_text "❌ You must be an admin to use this command.")
  else
    match args context with
    | [] => lift (reply_text "Usage: /setrules <rules text>")
    | _ =>
        let new_rules := Py.join " " (args context) in
        let chat_id := effective_chat_id update in
        lift (sql_bind chat_id);;
        g ← get_groups;
        put_groups (alter (set_rules (Some new_rules)) chat_id g);;
        lift (reply_text "✅ Rules updated successfully.")
    end.

Definition cmd_setwelcome (update : Update) (context : Context) : MS unit :=
  admin ← lift (check_admin update context);
  if negb admin then lift (reply_text "❌ Admin privileges required.")
  else
    match args context with
    | [] => lift (reply_text "Usage: /setwelcome <message>")
    | _ =>
        let chat_id := effective_chat_id update in
        let new_welcome := Py.join " " (args context) in
        lift (sql_bind chat_id);;
        g ← get_groups;
        put_groups (alter (set_welcome_message (Some new_welcome)) chat_id g);;
        lift (reply_text "✅ Welcome message updated.")
    end.

(** ** Polls *)

(** [s.split(sep)] for a separator of one character. *)
Fixpoint py_split (sep : ascii) (s : string) : list string :=
  match s with
  | EmptyString => [EmptyString]
  | String c r =>
      if Ascii.eqb c sep then EmptyString :: py_split sep r
      else
        match py_split sep r with
        | head :: tail => String c head :: tail
        | [] => [String c EmptyString]
        end
  end.

(** [SELECT ... FROM polls WHERE poll_id=?] and [cursor.fetchone()] *)
Definition find_poll (poll_id : Z) (l : list poll_row) : option poll_row :=
  if 1 <=? poll_id then l !! Z.to_nat (poll_id - 1) else None.

Definition get_polls : MS (list poll_row) := fun s => (s, Ret (polls s)).

Definition put_polls (rows : list poll_row) : MS unit := fun s =>
  (with_polls rows s, Ret tt).

Definition get_poll_responses : MS (list poll_response) :=
  fun s => (s, Ret (poll_responses s)).

Definition put_poll_responses (responses : list poll_response) : MS unit := fun s =>
  (with_poll_responses responses s, Ret tt).

Definition select_poll (poll_id : Z) : MS (option poll_row) :=
  lift (sql_bind poll_id);;
  rows ← get_polls;
  mret (find_poll poll_id rows).

Definition set_inactive (p : poll_row) : poll_row :=
  {| poll_group_id := poll_group_id p; question := question p; options := options p;
     poll_created_at := poll_created_at p; is_active := 0 |}.

(** [INSERT INTO polls (group_id, question, options, created_at)] and
    [cursor.lastrowid]: the new row is active by the default of the
    column. *)
Definition insert_poll (chat_id : Z) (text : string) (opts : list string)
    (created : Z) : MS Z :=
  lift (sql_bind chat_id);;
  rows ← get_polls;
  put_polls (rows ++ [{| poll_group_id := chat_id; question := text; options := opts;
                         poll_created_at := created; is_active := 1 |}]);;
  mret (Z.of_nat (length rows) + 1).

Definition cmd_poll (update : Update) (context : Context) : MS unit :=
  match args context with
  | [] => lift (reply_text "Usage: /poll question|option1|option2|...")
  | _ =>
      let text := Py.join " " (args context) in
      match py_split "|" text with
      | question :: option1 :: more =>
          let options := option1 :: more in
          let chat_id := effective_chat_id update in
          poll_id ← insert_poll chat_id question options (now context);
          lift (reply_text
                  ("Poll created (ID: " +:+ Py.str poll_id +:+ "): " +:+ question +:+ nl
                   +:+ "Options:" +:+ nl
                   +:+ Py.join nl (List.map (fun opt => "- " +:+ opt) options)
                   +:+ nl +:+ "Use /vote <poll_id> <option> to vote."))
      | _ => lift (reply_text "Provide a question and at least one option.")
      end
  end.

(** [INSERT INTO poll_responses (poll_id, user_id, selected_option)] *)
Definition insert_response (poll_id user_id : Z) (selected : string) : MS unit :=
  lift (sql_bind poll_id);;
  lift (sql_bind user_id);;
  responses ← get_poll_responses;
  put_poll_responses
    (responses ++ [{| response_poll_id := poll_id; response_user_id := user_id;
                      selected_option := selected |}]).

Definition cmd_vote (update : Update) (context : Context) : MS unit :=
  match args context with
  | arg0 :: arg1 :: more =>
      poll_id ← lift (py_int arg0);
      let selected_option := Py.join " " (arg1 :: more) in
      let user_id := effective_user_id update in
      row ← select_poll poll_id;
      match row with
      | None => lift (reply_text "No such poll found.")
      | Some p =>
          if is_active p =? 0 then lift (reply_text "Poll is not active.")
          else
            let options_list := options p in
            if negb (bool_decide (selected_option ∈ options_list)) then
              lift (reply_text "Invalid option. Check poll options.")
            else
              insert_response poll_id user_id selected_option;;
              lift (reply_text ("Vote recorded for poll " +:+ Py.str poll_id +:+ "."))
      end
  | _ => lift (reply_text "Usage: /vote <poll_id> <option>")
  end.

(** A [dict] from strings to integers, in the order of insertion. *)
Fixpoint dict_set (key : string) (value : Z) (d : list (string * Z)) : list (string * Z) :=
  match d with
  | [] => [(key, value)]
  | (k, v) :: rest =>
      if String.eqb key k then (k, value) :: rest else (k, v) :: dict_set key value rest
  end.

Fixpoint dict_get (key : string) (d : list (string * Z)) : option Z :=
  match d with
  | [] => None
  | (k, v) :: rest => if String.eqb key k then Some v else dict_get key rest
  end.

(** [{opt: 0 for opt in options_list}] *)
Definition zero_results (options_list : list string) : list (string * Z) :=
  foldl (fun d opt => dict_set opt 0 d) [] options_list.

(** The loop over the votes: [if selected in results: results[selected] += 1]. *)
Definition tally (results : list (string * Z)) (votes : list string) : list (string * Z) :=
  foldl (fun d selected =>
           match dict_get selected d with
           | Some n => dict_set selected (n + 1) d
           | None => d
           end) results votes.

(** [SELECT selected_option FROM poll_responses WHERE poll_id=?] and
    [cursor.fetchall()] *)
Definition votes_of (poll_id : Z) (l : list poll_response) : list string :=
  selected_option <$> List.filter (fun r => response_poll_id r =? poll_id) l.

Definition results_text (poll_id : Z) (results : list (string * Z)) : string :=
  foldl (fun text entry =>
           text +:+ fst entry +:+ ": " +:+ Py.str (snd entry) +:+ " votes" +:+ nl)
    ("**Poll " +:+ Py.str poll_id +:+ " Results:**" +:+ nl) results.

(** [UPDATE polls SET is_active=0 WHERE poll_id=?] *)
Definition deactivate_poll (poll_id : Z) : MS unit :=
  lift (sql_bind poll_id);;
  rows ← get_polls;
  put_polls (if 1 <=? poll_id
             then alter set_inactive (Z.to_nat (poll_id - 1)) rows
             else rows).

(** [update.message.reply_markdown(text)]: the platform parses the text as
    Markdown and refuses a text whose markup it cannot parse, which raises
    in the handler.  [refusal text] is the error of the platform then, and
    [None] when it sends the text. *)
Definition reply_markdown (refusal : string -> option string) (text : string) : M unit :=
  match refusal text with
  | None => reply_text text
  | Some msg => raise (Exception TelegramError msg)
  end.

Definition cmd_stoppoll (update : Update) (context : Context)
    (refusal : string -> option string) : MS unit :=
  admin ← lift (check_admin update context);
  if negb admin then lift (reply_text "❌ Admin privileges required.")
  else
    match args context with
    | [] => lift (reply_text "Usage: /stoppoll <poll_id>")
    | arg0 :: _ =>
        poll_id ← lift (py_int arg0);
        row ← select_poll poll_id;
        match row with
        | None => lift (reply_text "No poll found with that ID.")
        | Some p =>
            deactivate_poll poll_id;;
            let options_list := options p in
            let results := zero_results options_list in
            lift (sql_bind poll_id);;
            responses ← get_poll_responses;
            let votes := votes_of poll_id responses in
            lift (reply_markdown refusal (results_text poll_id (tally results votes)))
        end
    end.

(** How many of the votes are for [opt]. *)
Definition count_votes (opt : string) (votes : list string) : Z :=
  Z.of_nat (length (List.filter (String.eqb opt) votes)).

(** Every recorded response names a poll that exists and one of its
    options. *)
Definition responses_valid (s : Store) : Prop :=
  forall r, r ∈ poll_responses s ->
    exists p, find_poll (response_poll_id r) (polls s) = Some p /\
              selected_option r ∈ options p.

(** A poll of group 100 with two options, and a store that holds it with
    the given responses. *)
Definition lunch_poll : poll_row :=
  {| poll_group_id := 100; question := "Lunch?"; options := ["pizza"; "rice bowl"];
     poll_created_at := new_year_2025; is_active := 1 |}.

Definition lunch_store (responses : list poll_response) : Store :=
  {| world := two_members "owner" "member" 0; groups := ∅;
     polls := [lunch_poll]; poll_responses := responses |}.

(** The same user in another group. *)
Definition outsider_update : Update :=
  {| effective_chat_id := 200; effective_user_id := 1 |}.

(** From [s] to [s']: every poll is still there with its options, and
    every response is an old one or is for a poll that was there and for
    one of its options. *)
Definition polls_grow (s s' : Store) : Prop :=
  (forall poll_id p, find_poll poll_id (polls s) = Some p ->
     exists p', find_poll poll_id (polls s') = Some p' /\ options p' = options p) /\
  (forall r, r ∈ poll_responses s' ->
     r ∈ poll_responses s \/
     exists p, find_poll (response_poll_id r) (polls s) = Some p /\
               selected_option r ∈ options p).

(** Only replies were added: the database, the calls made and the error
    log are as they were. *)
Definition only_replies (w w' : World) : Prop :=
  db w' = db w /\ requests w' = requests w /\ errors w' = errors w.

(** [keeps_store R m]: running [m] leaves the store related by [R] to the
    one it started from. *)
Definition keeps_store (R : Store -> Store -> Prop) {A} (m : MS A) : Prop :=
  forall s, R s (fst (m s)).

(** The users are as they were, no group has appeared or disappeared, and
    every group keeps its value in the column [col]. *)
Definition groups_column_kept {A} (col : group_row -> A) (s s' : Store) : Prop :=
  db (world s') = db (world s) /\
  forall chat, col <$> groups s' !! chat = col <$> groups s !! chat.

(** * Properties *)

(** ** Running a handler step by step *)

Lemma bind_run {A B} (m : M A) (f : A -> M B) (w : World) :
  (m ≫= f) w =
  match m w with
  | (w', Ret a) => f a w'
  | (w', Raise e) => (w', Raise e)
  | (w', OutOfModel) => (w', OutOfModel)
  end.
Proof. reflexivity. Qed.

Lemma check_admin_run update context w :
  check_admin update context w =
  (checked update context w, Ret (platform_admin update context w)).
Proof.
  unfold checked, exec, check_admin, platform_admin, try_except.
  rewrite bind_run. unfold bot_get_chat_member.
  destruct (member_status _ _ _ _); reflexivity.
Qed.

Lemma checked_db update context w : db (checked update context w) = db w.
Proof.
  unfold checked, exec, check_admin, try_except. rewrite bind_run.
  unfold bot_get_chat_member. destruct (member_status _ _ _ _); reflexivity.
Qed.

Lemma checked_replies update context w :
  replies (checked update context w) = replies w.
Proof.
  unfold checked, exec, check_admin, try_except. rewrite bind_run.
  unfold bot_get_chat_member. destruct (member_status _ _ _ _); reflexivity.
Qed.

Lemma checked_requests update context w :
  requests (checked update context w) =
  (requests w ++
     [get_chat_member (effective_chat_id update) (effective_user_id update)])%list.
Proof.
  unfold checked, exec, check_admin, try_except. rewrite bind_run.
  unfold bot_get_chat_member. destruct (member_status _ _ _ _); reflexivity.
Qed.

(** Every handler opens with the same gate. *)
Lemma gate_pass update context (body : M unit) w :
  platform_admin update context w = true ->
  (check_admin update context ≫=
     fun admin => if negb admin then reply_text privilege_denial else body) w
  = body (checked update context w).
Proof. intros H. rewrite bind_run, check_admin_run, H. reflexivity. Qed.

Lemma gate_deny update context (body : M unit) w :
  platform_admin update context w = false ->
  (check_admin update context ≫=
     fun admin => if negb admin then reply_text privilege_denial else body) w
  = reply_text privilege_denial (checked update context w).
Proof. intros H. rewrite bind_run, check_admin_run, H. reflexivity. Qed.

Lemma sql_bind_run z w : sqlite_int z = true -> sql_bind z w = (w, Ret tt).
Proof. intros H. unfold sql_bind. rewrite H. reflexivity. Qed.

Lemma select_user_run user_id chat_id w :
  sqlite_int user_id = true -> sqlite_int chat_id = true ->
  select_user user_id chat_id w = (w, Ret (users (db w) !! (user_id, chat_id))).
Proof.
  intros Hu Hc. unfold select_user.
  rewrite bind_run, (sql_bind_run _ _ Hu), bind_run, (sql_bind_run _ _ Hc).
  reflexivity.
Qed.

Lemma update_role_run new_role user_id chat_id w :
  sqlite_int user_id = true -> sqlite_int chat_id = true ->
  update_role new_role user_id chat_id w =
  (with_db {| users := alter (set_role new_role) (user_id, chat_id) (users (db w)) |} w,
   Ret tt).
Proof.
  intros Hu Hc. unfold update_role.
  rewrite bind_run, (sql_bind_run _ _ Hu), bind_run, (sql_bind_run _ _ Hc).
  reflexivity.
Qed.

Lemma py_int_run s n w : Py.int s = Some n -> py_int s w = (w, Ret n).
Proof. intros H. unfold py_int. rewrite H. reflexivity. Qed.

Section WarnRun.
Variables (update : Update) (context : Context) (w : World).
Variables (arg0 : string) (rest : list string) (target : Z).
Hypothesis Hadmin : platform_admin update context w = true.
Hypothesis Hargs : args context = arg0 :: rest.
Hypothesis Hint : Py.int arg0 = Some target.
Hypothesis Htarget : sqlite_int target = true.
Hypothesis Hchat : sqlite_int (effective_chat_id update) = true.

Local Abbreviation chat := (effective_chat_id update).
Local Abbreviation w1 := (checked update context w).

Lemma cmd_warn_absent :
  users (db w) !! (target, chat) = None ->
  cmd_warn update context w =
  reply_text "Cannot warn user who is not in the database." w1.
Proof.
  intros Hrow. unfold cmd_warn.
  rewrite (gate_pass _ _ _ _ Hadmin), Hargs.
  rewrite bind_run, (py_int_run _ _ _ Hint).
  rewrite bind_run. unfold update_warnings.
  rewrite bind_run, (sql_bind_run _ _ Htarget), bind_run, (sql_bind_run _ _ Hchat).
  rewrite bind_run. unfold get_db at 1.
  rewrite checked_db, Hrow. cbn [mret M_ret].
  rewrite bind_run, select_user_run by assumption.
  rewrite checked_db, Hrow. reflexivity.
Qed.

Lemma cmd_warn_present r :
  users (db w) !! (target, chat) = Some r ->
  sqlite_int (warnings r + 1) = true ->
  cmd_warn update context w =
  (reply_text (warned_text target (warn_reason rest) (warnings r + 1));;
   auto_ban context chat target (warnings r + 1))
    (with_db {| users := <[(target, chat) := set_warnings (warnings r + 1) r]>
                           (users (db w)) |} w1).
Proof.
  intros Hrow Hw. unfold cmd_warn.
  rewrite (gate_pass _ _ _ _ Hadmin), Hargs.
  rewrite bind_run, (py_int_run _ _ _ Hint).
  rewrite bind_run. unfold update_warnings.
  rewrite bind_run, (sql_bind_run _ _ Htarget), bind_run, (sql_bind_run _ _ Hchat).
  rewrite bind_run. unfold get_db at 1.
  rewrite checked_db, Hrow, Hw. unfold put_db at 1.
  rewrite bind_run, select_user_run by assumption.
  cbn [db with_db users]. rewrite lookup_insert_eq. reflexivity.
Qed.
End WarnRun.

(** ** Frame reasoning: what a computation leaves related *)

Section Frame.
Variable R : World -> World -> Prop.
Hypothesis R_refl : forall w, R w w.
Hypothesis R_trans : forall a b c, R a b -> R b c -> R a c.

Lemma keeps_ret {A} (a : A) : keeps R (mret a).
Proof. intros w. apply R_refl. Qed.

Lemma keeps_raise {A} e : keeps R (@raise A e).
Proof. intros w. apply R_refl. Qed.

Lemma keeps_get_db : keeps R get_db.
Proof. intros w. apply R_refl. Qed.

Lemma keeps_out_of_model {A} : keeps R (@out_of_model A).
Proof. intros w. apply R_refl. Qed.

Lemma keeps_bind {A B} (m : M A) (f : A -> M B) :
  keeps R m -> (forall a, keeps R (f a)) -> keeps R (m ≫= f).
Proof.
  intros Hm Hf w. rewrite bind_run. specialize (Hm w).
  destruct (m w) as [w' [a | e |]]; simpl in *; [|assumption..].
  eapply R_trans; [exact Hm | apply Hf].
Qed.

Lemma keeps_try {A} (body : M A) (handler : exception -> M A) :
  keeps R body -> (forall e, keeps R (handler e)) -> keeps R (try_except body handler).
Proof.
  intros Hb Hh w. unfold try_except. specialize (Hb w).
  destruct (body w) as [w' [a | e |]]; simpl in *; [assumption| |assumption].
  eapply R_trans; [exact Hb | apply Hh].
Qed.

Lemma keeps_py_int s : keeps R (py_int s).
Proof. unfold py_int. destruct (Py.int s); [apply keeps_ret | apply keeps_raise]. Qed.

Lemma keeps_sql_bind z : keeps R (sql_bind z).
Proof. unfold sql_bind. destruct (sqlite_int z); [apply keeps_ret | apply keeps_raise]. Qed.

Lemma keeps_mute_until t m : keeps R (mute_until t m).
Proof. unfold mute_until. destruct (_ ≫= _); [apply keeps_ret | apply keeps_raise]. Qed.

Lemma keeps_select_user u c : keeps R (select_user u c).
Proof.
  unfold select_user.
  repeat (apply keeps_bind; [|intros]);
    auto using keeps_sql_bind, keeps_get_db, keeps_ret.
Qed.

(** The primitives that change the world are kept case by case. *)
Hypothesis R_sent : forall rq w, R w (sent rq w).
Hypothesis R_error : forall text w, R w (fst (logger_error text w)).

Lemma keeps_logger_error text : keeps R (logger_error text).
Proof. intros w. apply R_error. Qed.

Lemma keeps_bot_call b rq : keeps R (bot_call b rq).
Proof. intros w. unfold bot_call. destruct (enforce _ _ _); apply R_sent. Qed.

Lemma keeps_bot_get_chat_member b c u : keeps R (bot_get_chat_member b c u).
Proof.
  intros w. unfold bot_get_chat_member.
  destruct (member_status _ _ _ _); apply R_sent.
Qed.

Lemma keeps_check_admin update context : keeps R (check_admin update context).
Proof.
  unfold check_admin. apply keeps_try.
  - apply keeps_bind; [apply keeps_bot_get_chat_member | intros; apply keeps_ret].
  - intros e. apply keeps_bind; [apply keeps_logger_error | intros; apply keeps_ret].
Qed.

Lemma keeps_get_user_role update context : keeps R (get_user_role update context).
Proof.
  unfold get_user_role. apply keeps_bind; [apply keeps_select_user|].
  intros [r|]; [apply keeps_ret|].
  apply keeps_try; [apply keeps_bot_get_chat_member | intros; apply keeps_ret].
Qed.
End Frame.

Lemma same_db_refl w : same_db w w.
Proof. reflexivity. Qed.

Lemma same_db_trans a b c : same_db a b -> same_db b c -> same_db a c.
Proof. unfold same_db. congruence. Qed.

Lemma same_db_sent rq w : same_db w (sent rq w).
Proof. reflexivity. Qed.

Lemma same_db_error text w : same_db w (fst (logger_error text w)).
Proof. reflexivity. Qed.

Lemma same_db_reply text : keeps same_db (reply_text text).
Proof. intros w. reflexivity. Qed.

Lemma not_denied_trans a b c : not_denied a b -> not_denied b c -> not_denied a c.
Proof.
  intros (l1 & H1 & N1) (l2 & H2 & N2). exists (l1 ++ l2)%list. split.
  - rewrite H2, H1, app_assoc. reflexivity.
  - rewrite elem_of_app. tauto.
Qed.

Lemma not_denied_same_replies w w' : replies w' = replies w -> not_denied w w'.
Proof.
  intros H. exists []. rewrite app_nil_r. split; [exact H | apply not_elem_of_nil].
Qed.

Lemma not_denied_refl w : not_denied w w.
Proof. apply not_denied_same_replies. reflexivity. Qed.

Lemma not_denied_sent rq w : not_denied w (sent rq w).
Proof. apply not_denied_same_replies. reflexivity. Qed.

Lemma not_denied_error text w : not_denied w (fst (logger_error text w)).
Proof. apply not_denied_same_replies. reflexivity. Qed.

Lemma not_denied_reply text :
  text <> privilege_denial -> keeps not_denied (reply_text text).
Proof.
  intros Hne w. exists [text]. split; [reflexivity|].
  rewrite list_elem_of_singleton. congruence.
Qed.

Lemma not_denied_put_db d : keeps not_denied (put_db d).
Proof. intros w. apply not_denied_same_replies. reflexivity. Qed.

(** Structural steps shared by the frame proofs of the handlers: the side
    conditions on the relation are closed with the lemmas given. *)
Ltac frame_side refl trans snt err :=
  first [ exact refl | exact trans | exact snt | exact err ].

Ltac frame_step refl trans snt err :=
  first
    [ apply keeps_ret; frame_side refl trans snt err
    | apply keeps_raise; frame_side refl trans snt err
    | apply keeps_py_int; frame_side refl trans snt err
    | apply keeps_mute_until; frame_side refl trans snt err
    | apply keeps_select_user; frame_side refl trans snt err
    | apply keeps_get_user_role; frame_side refl trans snt err
    | apply keeps_check_admin; frame_side refl trans snt err
    | apply keeps_logger_error; frame_side refl trans snt err
    | apply keeps_bot_call; frame_side refl trans snt err
    | apply keeps_bind; [frame_side refl trans snt err | | intros ?]
    | apply keeps_try; [frame_side refl trans snt err | | intros ?]
    | match goal with
      | |- keeps _ (match ?x with _ => _ end) => destruct x
      | |- keeps _ (let _ := _ in _) => cbv zeta
      end ].

Lemma cmd_mute_same_db update context : keeps same_db (cmd_mute update context).
Proof.
  unfold cmd_mute.
  repeat first [ apply same_db_reply
               | frame_step same_db_refl same_db_trans same_db_sent same_db_error ].
Qed.

Section RoleRun.
Variables (update : Update) (context : Context) (w : World).
Hypothesis Hactor : sqlite_int (effective_user_id update) = true.
Hypothesis Hchat : sqlite_int (effective_chat_id update) = true.

Lemma get_user_role_run :
  get_user_role update context w =
  (exec (get_user_role update context) w, Ret (resolved_role update context w)).
Proof.
  unfold exec, get_user_role, resolved_role.
  rewrite bind_run, select_user_run by assumption.
  destruct (users (db w) !! _) as [r|]; [reflexivity|].
  unfold try_except, bot_get_chat_member.
  destruct (member_status _ _ _ _); reflexivity.
Qed.

Lemma get_user_role_db : db (exec (get_user_role update context) w) = db w.
Proof.
  apply (keeps_get_user_role same_db same_db_refl same_db_trans same_db_sent).
Qed.

Lemma get_user_role_replies :
  replies (exec (get_user_role update context) w) = replies w.
Proof.
  unfold exec, get_user_role.
  rewrite bind_run, select_user_run by assumption.
  destruct (users (db w) !! _) as [r|]; [reflexivity|].
  unfold try_except, bot_get_chat_member.
  destruct (member_status _ _ _ _); reflexivity.
Qed.
End RoleRun.

Section PromoteRun.
Variables (update : Update) (context : Context) (w : World).
Variables (arg0 arg1 : string) (rest : list string) (target : Z).
Hypothesis Hadmin : platform_admin update context w = true.
Hypothesis Hargs : args context = arg0 :: arg1 :: rest.
Hypothesis Hint : Py.int arg0 = Some target.
Hypothesis Htarget : sqlite_int target = true.
Hypothesis Hactor : sqlite_int (effective_user_id update) = true.
Hypothesis Hchat : sqlite_int (effective_chat_id update) = true.

Local Abbreviation chat := (effective_chat_id update).
Local Abbreviation w1 := (checked update context w).
Local Abbreviation w2 := (exec (get_user_role update context) w1).

Lemma cmd_promote_invalid :
  Py.lower arg1 ∉ valid_roles ->
  cmd_promote update context w =
  reply_text "Invalid role. Valid roles: owner, administrator, moderator, member." w1.
Proof.
  intros Hrole. unfold cmd_promote.
  rewrite (gate_pass _ _ _ _ Hadmin), Hargs.
  rewrite bind_run, (py_int_run _ _ _ Hint).
  rewrite bool_decide_eq_false_2 by assumption. reflexivity.
Qed.

Lemma cmd_promote_rank :
  Py.lower arg1 ∈ valid_roles ->
  get_role_priority (resolved_role update context w1)
    <= get_role_priority (Py.lower arg1) ->
  cmd_promote update context w =
  reply_text "Cannot promote to a role >= your own role." w2.
Proof.
  intros Hrole Hrank. unfold cmd_promote.
  rewrite (gate_pass _ _ _ _ Hadmin), Hargs.
  rewrite bind_run, (py_int_run _ _ _ Hint).
  rewrite bool_decide_eq_true_2 by assumption. cbn [negb].
  rewrite bind_run, get_user_role_run by assumption.
  apply Z.leb_le in Hrank. rewrite Hrank. reflexivity.
Qed.

Lemma cmd_promote_allowed :
  Py.lower arg1 ∈ valid_roles ->
  get_role_priority (Py.lower arg1)
    < get_role_priority (resolved_role update context w1) ->
  cmd_promote update context w =
  reply_text ("User " +:+ Py.str target +:+ " promoted to " +:+ Py.lower arg1 +:+ ".")
    (with_db {| users := alter (set_role (Py.lower arg1)) (target, chat)
                           (users (db w)) |} w2).
Proof.
  intros Hrole Hrank. unfold cmd_promote.
  rewrite (gate_pass _ _ _ _ Hadmin), Hargs.
  rewrite bind_run, (py_int_run _ _ _ Hint).
  rewrite bool_decide_eq_true_2 by assumption. cbn [negb].
  rewrite bind_run, get_user_role_run by assumption.
  apply Z.leb_gt in Hrank. rewrite Hrank.
  rewrite bind_run, update_role_run by assumption.
  rewrite get_user_role_db, checked_db by assumption. reflexivity.
Qed.
End PromoteRun.

Section DemoteRun.
Variables (update : Update) (context : Context) (w : World).
Variables (arg0 : string) (rest : list string) (target : Z) (r : user_row).
Hypothesis Hadmin : platform_admin update context w = true.
Hypothesis Hargs : args context = arg0 :: rest.
Hypothesis Hint : Py.int arg0 = Some target.
Hypothesis Htarget : sqlite_int target = true.
Hypothesis Hactor : sqlite_int (effective_user_id update) = true.
Hypothesis Hchat : sqlite_int (effective_chat_id update) = true.
Hypothesis Hrow : users (db w) !! (target, effective_chat_id update) = Some r.

Local Abbreviation chat := (effective_chat_id update).
Local Abbreviation w1 := (checked update context w).
Local Abbreviation w2 := (exec (get_user_role update context) w1).

Lemma cmd_demote_allowed :
  get_role_priority (role r)
    < get_role_priority (resolved_role update context w1) ->
  cmd_demote update context w =
  reply_text ("User " +:+ Py.str target +:+ " has been demoted to "
              +:+ demoted_role (get_role_priority (role r) - 1) +:+ ".")
    (with_db {| users := alter (set_role (demoted_role (get_role_priority (role r) - 1)))
                           (target, chat) (users (db w)) |} w2).
Proof.
  intros Hrank. unfold cmd_demote.
  rewrite (gate_pass _ _ _ _ Hadmin), Hargs.
  rewrite bind_run, (py_int_run _ _ _ Hint).
  rewrite bind_run, get_user_role_run by assumption.
  rewrite bind_run, select_user_run by assumption.
  rewrite get_user_role_db, checked_db, Hrow by assumption.
  apply Z.leb_gt in Hrank. rewrite Hrank.
  rewrite bind_run, update_role_run by assumption.
  rewrite get_user_role_db, checked_db by assumption. reflexivity.
Qed.
End DemoteRun.

Lemma get_role_priority_range role : 0 <= get_role_priority role <= 4.
Proof.
  unfold get_role_priority.
  destruct (role_map !! Py.lower role) as [p|] eqn:E; simpl; [|lia].
  unfold role_map in E. apply elem_of_list_to_map_2 in E.
  repeat (apply elem_of_cons in E as [E | E]; [inversion E; lia|]).
  apply not_elem_of_nil in E. contradiction.
Qed.

Lemma get_role_priority_other role :
  Py.lower role ∉ role_names -> get_role_priority role = 1.
Proof.
  intros H. unfold get_role_priority, role_map.
  rewrite (proj1 (not_elem_of_list_to_map _ _)); [reflexivity|].
  exact H.
Qed.

(** ** Warnings *)

Lemma reply_bind {B} text (k : unit -> M B) w :
  (reply_text text ≫= k) w = k tt (fst (reply_text text w)).
Proof. reflexivity. Qed.

Lemma auto_ban_effect context chat user count w :
  db (fst (auto_ban context chat user count w)) = db w /\
  (exists more,
     replies (fst (auto_ban context chat user count w)) = (replies w ++ more)%list) /\
  snd (auto_ban context chat user count w) = Ret tt.
Proof.
  unfold auto_ban. destruct (3 <=? count).
  - unfold try_except. rewrite bind_run. unfold bot_call.
    destruct (enforce _ _ _); cbn.
    + split; [reflexivity | split; [exists []; rewrite app_nil_r|]; reflexivity].
    + split; [reflexivity | split; [eexists|]; reflexivity].
  - cbn. split; [reflexivity | split; [exists []; rewrite app_nil_r|]; reflexivity].
Qed.

Lemma auto_ban_failed context chat user count w msg :
  3 <= count ->
  enforce (bot context) (requests w) (ban_chat_member chat user) = Some msg ->
  auto_ban context chat user count w =
  logger_error ("Auto-ban after warnings failed: " +:+ msg)
    (sent (ban_chat_member chat user) w).
Proof.
  intros Hthree Hban. unfold auto_ban.
  apply Z.leb_le in Hthree. rewrite Hthree.
  unfold try_except. rewrite bind_run. unfold bot_call. rewrite Hban. reflexivity.
Qed.

(** C6: warning a (group, user) pair without a membership row sends the
    unknown-member refusal and leaves the database unchanged, with no ban
    attempted; warning a pair with a row adds exactly one to that row's
    warning count, leaves every other row alone, and reports the new
    count. *)
Theorem warn_unknown_or_counted update context w arg0 rest target :
  platform_admin update context w = true ->
  args context = arg0 :: rest ->
  Py.int arg0 = Some target ->
  sqlite_int target = true ->
  sqlite_int (effective_chat_id update) = true ->
  let chat := effective_chat_id update in
  let w' := exec (cmd_warn update context) w in
  match users (db w) !! (target, chat) with
  | None =>
      db w' = db w /\
      replies w' = (replies w ++ ["Cannot warn user who is not in the database."])%list /\
      requests w' = requests (checked update context w) /\
      snd (cmd_warn update context w) = Ret tt
  | Some r =>
      sqlite_int (warnings r + 1) = true ->
      users (db w') = <[(target, chat) := set_warnings (warnings r + 1) r]> (users (db w)) /\
      (exists more,
         replies w' =
         (replies w ++ warned_text target (warn_reason rest) (warnings r + 1) :: more)%list) /\
      snd (cmd_warn update context w) = Ret tt
  end.
Proof.
  intros Hadmin Hargs Hint Ht Hc chat w'. subst chat w'. unfold exec.
  destruct (users (db w) !! _) as [r|] eqn:Hrow.
  - intros Hw.
    rewrite (cmd_warn_present _ _ _ _ _ _ Hadmin Hargs Hint Ht Hc r Hrow Hw).
    rewrite reply_bind.
    match goal with |- context [auto_ban ?c ?g ?u ?n ?x] =>
      destruct (auto_ban_effect c g u n x) as (Hdb & (more & Hrep) & Hret)
    end.
    rewrite Hdb, Hrep, Hret. cbn [fst reply_text with_db db replies users].
    rewrite checked_replies. split; [reflexivity | split; [|reflexivity]].
    exists more. rewrite <- app_assoc. reflexivity.
  - rewrite (cmd_warn_absent _ _ _ _ _ _ Hadmin Hargs Hint Ht Hc Hrow).
    cbn. rewrite checked_replies, checked_db. auto.
Qed.

(** C7: when the warning reaches the threshold and the ban that follows
    fails, the handler logs the failure and returns; the stored warning
    count is the incremented one. *)
Theorem warn_survives_failed_ban update context w arg0 rest target r msg :
  platform_admin update context w = true ->
  args context = arg0 :: rest ->
  Py.int arg0 = Some target ->
  sqlite_int target = true ->
  sqlite_int (effective_chat_id update) = true ->
  users (db w) !! (target, effective_chat_id update) = Some r ->
  sqlite_int (warnings r + 1) = true ->
  3 <= warnings r + 1 ->
  enforce (bot context) (requests (checked update context w))
    (ban_chat_member (effective_chat_id update) target) = Some msg ->
  let chat := effective_chat_id update in
  let w' := exec (cmd_warn update context) w in
  (warnings <$> users (db w') !! (target, chat)) = Some (warnings r + 1) /\
  users (db w') = <[(target, chat) := set_warnings (warnings r + 1) r]> (users (db w)) /\
  requests w' =
    (requests (checked update context w) ++ [ban_chat_member chat target])%list /\
  errors w' =
    (errors (checked update context w)
       ++ ["Auto-ban after warnings failed: " +:+ msg])%list /\
  snd (cmd_warn update context w) = Ret tt.
Proof.
  intros Hadmin Hargs Hint Ht Hc Hrow Hw Hthree Hban chat w'. subst chat w'.
  unfold exec.
  rewrite (cmd_warn_present _ _ _ _ _ _ Hadmin Hargs Hint Ht Hc r Hrow Hw).
  rewrite reply_bind, (auto_ban_failed _ _ _ _ _ msg Hthree) by exact Hban.
  cbn. rewrite lookup_insert_eq. auto.
Qed.

Lemma warn_unknown_or_counted_witness :
  platform_admin actor_update (admin_context None ["2"; "spam"])
    (two_members "owner" "member" 0) = true /\
  Py.int "2" = Some 2 /\
  (warnings <$> users (db (two_members "owner" "member" 0)) !! (2, 100)) = Some 0 /\
  (warnings <$>
     users (db (exec (cmd_warn actor_update (admin_context None ["2"; "spam"]))
                  (two_members "owner" "member" 0))) !! (2, 100)) = Some 1.
Proof.
  do 3 (split; [reflexivity|]).
  pose proof (warn_unknown_or_counted actor_update (admin_context None ["2"; "spam"])
                (two_members "owner" "member" 0) "2" ["spam"] 2
                eq_refl eq_refl eq_refl eq_refl eq_refl) as H.
  cbv zeta in H.
  change (users (db (two_members "owner" "member" 0)) !! (2, effective_chat_id actor_update))
    with (Some (row_with "bob" "member" 0)) in H.
  destruct (H eq_refl) as (Hu & _).
  rewrite Hu. change (effective_chat_id actor_update) with 100.
  rewrite lookup_insert_eq. reflexivity.
Defined.

Lemma warn_survives_failed_ban_witness :
  3 <= 2 + 1 /\
  enforce (bot (admin_context (Some "Forbidden") ["2"]))
    (requests (checked actor_update (admin_context (Some "Forbidden") ["2"])
                 (two_members "owner" "member" 2)))
    (ban_chat_member 100 2) = Some "Forbidden" /\
  (warnings <$>
     users (db (exec (cmd_warn actor_update (admin_context (Some "Forbidden") ["2"]))
                  (two_members "owner" "member" 2))) !! (2, 100)) = Some 3.
Proof.
  split; [lia | split; [reflexivity|]].
  apply (warn_survives_failed_ban actor_update (admin_context (Some "Forbidden") ["2"])
           (two_members "owner" "member" 2) "2" [] 2
           (row_with "bob" "member" 2) "Forbidden");
    first [reflexivity | simpl; lia].
Defined.

(** ** Promotion and demotion *)

(** A decidable proposition about closed terms, decided by evaluation. *)
Ltac decide_by_computation :=
  apply (bool_decide_unpack _); vm_compute; exact I.

Lemma five_roles_lower requested :
  requested ∈ five_roles -> Py.lower requested = requested.
Proof.
  unfold five_roles. intros H.
  repeat (apply elem_of_cons in H as [-> | H]; [reflexivity|]).
  apply not_elem_of_nil in H. contradiction.
Qed.

Lemma five_roles_valid requested :
  requested ∈ five_roles -> requested <> "restricted" -> requested ∈ valid_roles.
Proof.
  unfold five_roles. intros H Hne.
  repeat (apply elem_of_cons in H as [-> | H];
          [first [congruence | decide_by_computation]|]).
  apply not_elem_of_nil in H. contradiction.
Qed.

(** C4, as the code has it: for a requested role among the five and any
    role of the actor (the five among them), a request for ['restricted']
    is refused as an invalid role; for the other four requested roles
    promote is refused for rank exactly when the requested priority is at
    least the actor's, and otherwise sets the role of the target's row to
    the requested role, leaving every other row as it was. *)
Theorem promote_rank_table update context w arg0 rest target actor_role requested :
  platform_admin update context w = true ->
  args context = arg0 :: requested :: rest ->
  Py.int arg0 = Some target ->
  sqlite_int target = true ->
  sqlite_int (effective_user_id update) = true ->
  sqlite_int (effective_chat_id update) = true ->
  resolved_role update context (checked update context w) = actor_role ->
  requested ∈ five_roles ->
  let chat := effective_chat_id update in
  let w' := exec (cmd_promote update context) w in
  (requested = "restricted" ->
     db w' = db w /\
     replies w' =
       (replies w
          ++ ["Invalid role. Valid roles: owner, administrator, moderator, member."])%list) /\
  (requested <> "restricted" ->
   get_role_priority actor_role <= get_role_priority requested ->
     db w' = db w /\
     replies w' = (replies w ++ ["Cannot promote to a role >= your own role."])%list) /\
  (requested <> "restricted" ->
   get_role_priority requested < get_role_priority actor_role ->
     users (db w') = alter (set_role requested) (target, chat) (users (db w)) /\
     users (db w') !! (target, chat) = set_role requested <$> users (db w) !! (target, chat) /\
     replies w' =
       (replies w
          ++ ["User " +:+ Py.str target +:+ " promoted to " +:+ requested +:+ "."])%list).
Proof.
  intros Hadmin Hargs Hint Ht Ha Hc Hrole Hreq chat w'. subst chat w' actor_role.
  unfold exec. pose proof (five_roles_lower _ Hreq) as Hlow.
  split; [|split].
  - intros ->.
    rewrite (cmd_promote_invalid _ _ _ _ _ _ _ Hadmin Hargs Hint)
      by (intros Hin; revert Hin; decide_by_computation).
    cbn. rewrite checked_db, checked_replies. auto.
  - intros Hne Hrank. pose proof (five_roles_valid _ Hreq Hne) as Hvalid.
    rewrite (cmd_promote_rank _ _ _ _ _ _ _ Hadmin Hargs Hint Ha Hc)
      by (rewrite Hlow; assumption).
    cbn. rewrite get_user_role_db, get_user_role_replies, checked_db, checked_replies
      by assumption.
    auto.
  - intros Hne Hrank. pose proof (five_roles_valid _ Hreq Hne) as Hvalid.
    rewrite (cmd_promote_allowed _ _ _ _ _ _ _ Hadmin Hargs Hint Ht Ha Hc)
      by (rewrite Hlow; assumption).
    cbn. rewrite Hlow, lookup_alter_eq, get_user_role_replies, checked_replies
      by assumption.
    auto.
Qed.

Lemma promote_rank_table_witness :
  platform_admin actor_update (admin_context None ["2"; "administrator"])
    (two_members "owner" "member" 0) = true /\
  resolved_role actor_update (admin_context None ["2"; "administrator"])
    (checked actor_update (admin_context None ["2"; "administrator"])
       (two_members "owner" "member" 0)) = "owner" /\
  get_role_priority "administrator" < get_role_priority "owner" /\
  (role <$>
     users (db (exec (cmd_promote actor_update (admin_context None ["2"; "administrator"]))
                  (two_members "owner" "member" 0))) !! (2, 100)) = Some "administrator".
Proof.
  do 3 (split; [reflexivity|]).
  destruct (promote_rank_table actor_update (admin_context None ["2"; "administrator"])
              (two_members "owner" "member" 0) "2" [] 2 "owner" "administrator"
              eq_refl eq_refl eq_refl eq_refl eq_refl eq_refl eq_refl
              ltac:(decide_by_computation)) as (_ & _ & Hallowed).
  destruct Hallowed as (_ & Hrow & _); [discriminate | reflexivity |].
  change (effective_chat_id actor_update) with 100 in Hrow.
  rewrite Hrow. reflexivity.
Defined.

(** The claim of C4 fails at (owner, restricted): the requested priority 0
    is below the actor's 4, yet promote refuses, and the target keeps its
    role. *)
Lemma promote_restricted_counterexample :
  get_role_priority "restricted" < get_role_priority "owner" /\
  resolved_role actor_update (admin_context None ["2"; "restricted"])
    (checked actor_update (admin_context None ["2"; "restricted"])
       (two_members "owner" "moderator" 0)) = "owner" /\
  replies (exec (cmd_promote actor_update (admin_context None ["2"; "restricted"]))
             (two_members "owner" "moderator" 0)) =
    ["Invalid role. Valid roles: owner, administrator, moderator, member."] /\
  (role <$>
     users (db (exec (cmd_promote actor_update (admin_context None ["2"; "restricted"]))
                  (two_members "owner" "moderator" 0))) !! (2, 100)) = Some "moderator".
Proof. vm_compute. repeat split. Qed.

(** C1, as the code has it: a request to promote to ['owner'] is refused
    for rank both when the actor's resolved role is ['administrator'] and
    when it is ['owner'] (the requested priority 4 is not below the actor's
    own); the database is left as it was. *)
Theorem promote_to_owner_refused update context w arg0 rest target actor_role :
  platform_admin update context w = true ->
  args context = arg0 :: "owner" :: rest ->
  Py.int arg0 = Some target ->
  sqlite_int (effective_user_id update) = true ->
  sqlite_int (effective_chat_id update) = true ->
  resolved_role update context (checked update context w) = actor_role ->
  actor_role = "administrator" \/ actor_role = "owner" ->
  db (exec (cmd_promote update context) w) = db w /\
  replies (exec (cmd_promote update context) w) =
    (replies w ++ ["Cannot promote to a role >= your own role."])%list /\
  snd (cmd_promote update context w) = Ret tt.
Proof.
  intros Hadmin Hargs Hint Ha Hc Hrole _. unfold exec.
  rewrite (cmd_promote_rank _ _ _ _ _ _ _ Hadmin Hargs Hint Ha Hc).
  - cbn. rewrite get_user_role_db, get_user_role_replies, checked_db, checked_replies
      by assumption.
    auto.
  - decide_by_computation.
  - change (get_role_priority (Py.lower "owner")) with 4.
    apply get_role_priority_range.
Qed.

Lemma promote_to_owner_refused_witness :
  resolved_role actor_update (admin_context None ["2"; "owner"])
    (checked actor_update (admin_context None ["2"; "owner"])
       (two_members "owner" "member" 0)) = "owner" /\
  replies (exec (cmd_promote actor_update (admin_context None ["2"; "owner"]))
             (two_members "owner" "member" 0)) =
    ["Cannot promote to a role >= your own role."].
Proof.
  split; [reflexivity|].
  apply (promote_to_owner_refused actor_update (admin_context None ["2"; "owner"])
           (two_members "owner" "member" 0) "2" [] 2 "owner");
    first [reflexivity | right; reflexivity].
Defined.

(** The claim of C1 fails for an actor whose resolved role is ['owner']:
    the request is refused and the target's stored role is not ['owner']. *)
Lemma owner_promotes_owner_counterexample :
  platform_admin actor_update (admin_context None ["2"; "owner"])
    (two_members "owner" "member" 0) = true /\
  resolved_role actor_update (admin_context None ["2"; "owner"])
    (checked actor_update (admin_context None ["2"; "owner"])
       (two_members "owner" "member" 0)) = "owner" /\
  replies (exec (cmd_promote actor_update (admin_context None ["2"; "owner"]))
             (two_members "owner" "member" 0)) =
    ["Cannot promote to a role >= your own role."] /\
  (role <$>
     users (db (exec (cmd_promote actor_update (admin_context None ["2"; "owner"]))
                  (two_members "owner" "member" 0))) !! (2, 100)) <> Some "owner".
Proof. vm_compute. repeat split. discriminate. Qed.

(** C10: demoting a target whose stored role is ['restricted'] (priority 0),
    by an actor whose resolved role has a higher priority, stores ['member']
    (priority 1) in the target's row: the target's priority rises. *)
Theorem demote_restricted_gives_member update context w arg0 rest target r :
  platform_admin update context w = true ->
  args context = arg0 :: rest ->
  Py.int arg0 = Some target ->
  sqlite_int target = true ->
  sqlite_int (effective_user_id update) = true ->
  sqlite_int (effective_chat_id update) = true ->
  users (db w) !! (target, effective_chat_id update) = Some r ->
  role r = "restricted" ->
  get_role_priority (role r)
    < get_role_priority (resolved_role update context (checked update context w)) ->
  let chat := effective_chat_id update in
  let w' := exec (cmd_demote update context) w in
  users (db w') !! (target, chat) = Some (set_role "member" r) /\
  (forall key, key <> (target, chat) -> users (db w') !! key = users (db w) !! key) /\
  get_role_priority (role r) = 0 /\
  get_role_priority (role (set_role "member" r)) = 1 /\
  replies w' =
    (replies w ++ ["User " +:+ Py.str target +:+ " has been demoted to member."])%list /\
  snd (cmd_demote update context w) = Ret tt.
Proof.
  intros Hadmin Hargs Hint Ht Ha Hc Hrow Hrole Hrank chat w'. subst chat w'.
  unfold exec.
  rewrite (cmd_demote_allowed _ _ _ _ _ _ _ Hadmin Hargs Hint Ht Ha Hc Hrow Hrank).
  rewrite Hrole.
  change (demoted_role (get_role_priority "restricted" - 1)) with "member".
  cbn [reply_text fst snd db users with_db replies].
  rewrite lookup_alter_eq, Hrow, get_user_role_replies, checked_replies by assumption.
  repeat (split; [reflexivity|]).
  split; [|repeat (split; [reflexivity|]); reflexivity].
  intros key Hkey. apply lookup_alter_ne. congruence.
Qed.

Lemma demote_restricted_gives_member_witness :
  (role <$> users (db (two_members "owner" "restricted" 0)) !! (2, 100)) = Some "restricted" /\
  get_role_priority "restricted"
    < get_role_priority
        (resolved_role actor_update (admin_context None ["2"])
           (checked actor_update (admin_context None ["2"])
              (two_members "owner" "restricted" 0))) /\
  (role <$>
     users (db (exec (cmd_demote actor_update (admin_context None ["2"]))
                  (two_members "owner" "restricted" 0))) !! (2, 100)) = Some "member".
Proof.
  do 2 (split; [reflexivity|]).
  destruct (demote_restricted_gives_member actor_update (admin_context None ["2"])
              (two_members "owner" "restricted" 0) "2" [] 2
              (row_with "bob" "restricted" 0)
              eq_refl eq_refl eq_refl eq_refl eq_refl eq_refl eq_refl eq_refl eq_refl)
    as (Hrow & _).
  change (effective_chat_id actor_update) with 100 in Hrow.
  rewrite Hrow. reflexivity.
Defined.

(** ** Priorities of the roles *)

(** C9, as the code has it: the priority is a total function of the role
    string; it gives owner and creator 4, administrator, admin and
    superadmin 3, moderator 2, member 1, restricted 0, and 1 to every
    string that, once lower-cased, is none of these eight names; it is
    never negative, and the five roles are strictly ordered. *)
Theorem get_role_priority_table :
  (get_role_priority "owner" = 4 /\ get_role_priority "creator" = 4) /\
  (get_role_priority "administrator" = 3 /\ get_role_priority "admin" = 3 /\
   get_role_priority "superadmin" = 3) /\
  get_role_priority "moderator" = 2 /\
  get_role_priority "member" = 1 /\
  get_role_priority "restricted" = 0 /\
  (forall role, Py.lower role ∉ role_names -> get_role_priority role = 1) /\
  (forall role, get_role_priority role = get_role_priority (Py.lower role)) /\
  (forall role, 0 <= get_role_priority role) /\
  get_role_priority "owner" > get_role_priority "administrator" /\
  get_role_priority "administrator" > get_role_priority "moderator" /\
  get_role_priority "moderator" > get_role_priority "member" /\
  get_role_priority "member" > get_role_priority "restricted".
Proof.
  repeat match goal with |- _ /\ _ => split end; try reflexivity.
  - exact get_role_priority_other.
  - intros role. unfold get_role_priority.
    assert (Py.lower (Py.lower role) = Py.lower role) as ->; [|reflexivity].
    induction role as [|c s IH]; [reflexivity|]. cbn [Py.lower]. rewrite IH.
    f_equal. unfold Py.lower_ascii.
    destruct ((65 <=? N_of_ascii c)%N && (N_of_ascii c <=? 90)%N) eqn:E; [|rewrite E; reflexivity].
    apply andb_true_iff in E as [E1 E2]. apply N.leb_le in E1, E2.
    rewrite N_ascii_embedding by lia.
    replace ((65 <=? N_of_ascii c + 32)%N && (N_of_ascii c + 32 <=? 90)%N) with false;
      [reflexivity|].
    symmetry. apply andb_false_iff. right. apply N.leb_gt. lia.
  - intros role. apply get_role_priority_range.
Qed.

Lemma get_role_priority_table_witness :
  (Py.lower "Guest" ∉ role_names) /\ get_role_priority "Guest" = 1.
Proof.
  split; [decide_by_computation|].
  destruct get_role_priority_table as (_ & _ & _ & _ & _ & Hother & _).
  apply Hother. decide_by_computation.
Defined.

(** The claim of C9 fails on the strings it calls other: ["OWNER"] is none
    of the eight names, and its priority is 4, not 1. *)
Lemma upper_case_owner_counterexample :
  ("OWNER" ∉ role_names) /\ get_role_priority "OWNER" = 4 /\ get_role_priority "OWNER" <> 1.
Proof.
  split; [decide_by_computation|]. split; [reflexivity | discriminate].
Qed.

(** ** Escalation by repeated warnings *)

Lemma auto_ban_requests context chat user count w :
  requests (fst (auto_ban context chat user count w)) =
  (requests w ++ if 3 <=? count then [ban_chat_member chat user] else [])%list.
Proof.
  unfold auto_ban. destruct (3 <=? count).
  - unfold try_except. rewrite bind_run. unfold bot_call.
    destruct (enforce _ _ _); reflexivity.
  - cbn. rewrite app_nil_r. reflexivity.
Qed.

Section Sequential.
Variables (update : Update) (context : Context) (w : World).
Variables (arg0 : string) (rest : list string) (target : Z) (r : user_row).
Hypothesis Hadmin : forall w', platform_admin update context w' = true.
Hypothesis Hargs : args context = arg0 :: rest.
Hypothesis Hint : Py.int arg0 = Some target.
Hypothesis Htarget : sqlite_int target = true.
Hypothesis Hchat : sqlite_int (effective_chat_id update) = true.
Hypothesis Hrow : users (db w) !! (target, effective_chat_id update) = Some r.
Hypothesis Hfresh : warnings r = 0.

Lemma warn_times_run (n : nat) :
  Z.of_nat n < 2 ^ 63 ->
  snd (warn_times n update context w) = Ret tt /\
  users (db (exec (warn_times n update context) w))
    !! (target, effective_chat_id update) = Some (set_warnings (Z.of_nat n) r).
Proof.
  unfold exec. induction n as [|k IH]; intros Hn.
  - cbn. split; [reflexivity|]. rewrite Hrow. f_equal.
    destruct r; cbn in *; subst; reflexivity.
  - destruct IH as (Hret & Hk); [lia|].
    cbn [warn_times]. rewrite bind_run.
    destruct (warn_times k update context w) as [wk res]. cbn in Hret, Hk. subst res.
    assert (sqlite_int (warnings (set_warnings (Z.of_nat k) r) + 1) = true) as Hfits.
    { cbn. unfold sqlite_int. apply andb_true_iff. split; [apply Z.leb_le | apply Z.ltb_lt]; lia. }
    rewrite (cmd_warn_present _ _ _ _ _ _ (Hadmin wk) Hargs Hint Htarget Hchat _ Hk Hfits).
    rewrite reply_bind.
    match goal with |- context [auto_ban ?c ?g ?u ?m ?x] =>
      destruct (auto_ban_effect c g u m x) as (Hdb & _ & Hres)
    end.
    rewrite Hdb, Hres. cbn. rewrite lookup_insert_eq.
    split; [reflexivity|]. f_equal. unfold set_warnings. cbn. f_equal. lia.
Qed.

Lemma warn_times_next (n : nat) :
  Z.of_nat n + 1 < 2 ^ 63 ->
  requests (exec (warn_times (S n) update context) w) =
  (requests (exec (warn_times n update context) w)
     ++ get_chat_member (effective_chat_id update) (effective_user_id update)
     :: (if 3 <=? Z.of_nat n + 1
         then [ban_chat_member (effective_chat_id update) target] else []))%list.
Proof.
  intros Hn. destruct (warn_times_run n) as (Hret & Hk); [lia|].
  unfold exec in *. cbn [warn_times]. rewrite bind_run.
  destruct (warn_times n update context w) as [wk res]. cbn in Hret, Hk. subst res.
  assert (sqlite_int (warnings (set_warnings (Z.of_nat n) r) + 1) = true) as Hfits.
  { cbn. unfold sqlite_int. apply andb_true_iff. split; [apply Z.leb_le | apply Z.ltb_lt]; lia. }
  rewrite (cmd_warn_present _ _ _ _ _ _ (Hadmin wk) Hargs Hint Htarget Hchat _ Hk Hfits).
  rewrite reply_bind, auto_ban_requests. cbn [fst reply_text with_db requests warnings set_warnings].
  rewrite checked_requests, <- app_assoc. reflexivity.
Qed.
End Sequential.

(** C2, as the code has it: on a membership with no warnings, warned again
    and again, the stored count after [n] warnings is [n], and the warning
    that brings the count to [n + 1] attempts the ban exactly when
    [n + 1 >= 3]: not at counts 1 and 2, at count 3, and again at count 4
    and at every later one. *)
Theorem warn_escalates_from_three update context w arg0 rest target r (n : nat) :
  (forall w', platform_admin update context w' = true) ->
  args context = arg0 :: rest ->
  Py.int arg0 = Some target ->
  sqlite_int target = true ->
  sqlite_int (effective_chat_id update) = true ->
  users (db w) !! (target, effective_chat_id update) = Some r ->
  warnings r = 0 ->
  Z.of_nat n + 1 < 2 ^ 63 ->
  let chat := effective_chat_id update in
  let before := exec (warn_times n update context) w in
  let after := exec (warn_times (S n) update context) w in
  (warnings <$> users (db before) !! (target, chat)) = Some (Z.of_nat n) /\
  (warnings <$> users (db after) !! (target, chat)) = Some (Z.of_nat n + 1) /\
  requests after =
    (requests before
       ++ get_chat_member chat (effective_user_id update)
       :: (if 3 <=? Z.of_nat n + 1 then [ban_chat_member chat target] else []))%list.
Proof.
  intros Hadmin Hargs Hint Ht Hc Hrow Hfresh Hn chat before after.
  subst chat before after.
  destruct (warn_times_run _ _ _ _ _ _ _ Hadmin Hargs Hint Ht Hc Hrow Hfresh n)
    as (_ & Hbefore); [lia|].
  destruct (warn_times_run _ _ _ _ _ _ _ Hadmin Hargs Hint Ht Hc Hrow Hfresh (S n))
    as (_ & Hafter); [lia|].
  rewrite Hbefore, Hafter. cbn [fmap option_fmap option_map warnings set_warnings].
  split; [reflexivity|]. split; [f_equal; lia|].
  apply (warn_times_next _ _ _ _ _ _ _ Hadmin Hargs Hint Ht Hc Hrow Hfresh). exact Hn.
Qed.

Lemma warn_escalates_from_three_witness :
  (warnings <$> users (db fresh_target) !! (2, 100)) = Some 0 /\
  requests (exec (warn_times 4 actor_update (admin_context None ["2"]))
              fresh_target) =
    (requests (exec (warn_times 3 actor_update (admin_context None ["2"]))
                 fresh_target)
       ++ [get_chat_member 100 1; ban_chat_member 100 2])%list.
Proof.
  split; [reflexivity|].
  apply (warn_escalates_from_three actor_update (admin_context None ["2"])
           fresh_target "2" [] 2 (new_user_row "bob" 0) 3);
    first [reflexivity | intros; reflexivity | simpl; lia].
Defined.

(** The claim of C2 fails at count 4: four warnings on a membership with
    none attempt the ban twice, at the third and at the fourth. *)
Lemma fourth_warning_counterexample :
  (warnings <$> users (db fresh_target) !! (2, 100)) = Some 0 /\
  requests (exec (warn_times 4 actor_update (admin_context None ["2"]))
              fresh_target) =
    [ get_chat_member 100 1;
      get_chat_member 100 1;
      get_chat_member 100 1; ban_chat_member 100 2;
      get_chat_member 100 1; ban_chat_member 100 2 ] /\
  (warnings <$>
     users (db (exec (warn_times 4 actor_update (admin_context None ["2"]))
                  fresh_target)) !! (2, 100)) = Some 4.
Proof. vm_compute. repeat split. Qed.

(** ** The privilege gate of the eight operations *)

Ltac not_denied_step :=
  frame_step not_denied_refl not_denied_trans not_denied_sent not_denied_error.

Lemma not_denied_update_role new_role user_id chat_id :
  keeps not_denied (update_role new_role user_id chat_id).
Proof.
  unfold update_role.
  repeat first [ apply not_denied_put_db | apply keeps_sql_bind; exact not_denied_refl
               | apply keeps_get_db; exact not_denied_refl | not_denied_step ].
Qed.

Lemma not_denied_update_warnings user_id chat_id :
  keeps not_denied (update_warnings user_id chat_id).
Proof.
  unfold update_warnings.
  repeat first [ apply not_denied_put_db | apply keeps_sql_bind; exact not_denied_refl
               | apply keeps_get_db; exact not_denied_refl
               | apply keeps_out_of_model; exact not_denied_refl
               | match goal with |- keeps _ (if ?b then _ else _) => destruct b end
               | not_denied_step ].
Qed.

Ltac not_denied_body :=
  repeat first
    [ apply not_denied_update_role
    | apply not_denied_update_warnings
    | apply not_denied_reply; unfold privilege_denial; cbn [String.append]; discriminate
    | match goal with |- keeps _ (if ?b then _ else _) => destruct b end
    | not_denied_step ].

Lemma gate_passed update context (body : M unit) w :
  platform_admin update context w = true ->
  keeps not_denied body ->
  not_denied w
    (exec (check_admin update context ≫=
             fun admin => if negb admin then reply_text privilege_denial else body) w).
Proof.
  intros Hadmin Hbody. unfold exec. rewrite (gate_pass _ _ _ _ Hadmin).
  eapply not_denied_trans; [|apply Hbody].
  apply not_denied_same_replies, checked_replies.
Qed.

(** C3, as the code has it: for each of the eight moderation operations the
    privilege decision is made on the platform's status of the actor, read
    when the check runs, and not on the stored role.  It does not depend on
    the database; when the status is ['administrator'] or ['creator'] the
    operation is not refused for privilege; with any other status, or when
    the lookup fails, the operation is refused for privilege and does
    nothing else. *)
Theorem privilege_decided_by_platform (op : operation) update context w :
  (forall d, platform_admin update context (with_db d w)
             = platform_admin update context w) /\
  (platform_admin update context w = true ->
     not_denied w (exec (handler op update context) w)) /\
  (platform_admin update context w = false ->
     db (exec (handler op update context) w) = db w /\
     replies (exec (handler op update context) w)
       = (replies w ++ [privilege_denial])%list /\
     requests (exec (handler op update context) w)
       = (requests w ++ [get_chat_member (effective_chat_id update)
                           (effective_user_id update)])%list /\
     snd (handler op update context w) = Ret tt).
Proof.
  split; [reflexivity|]. split.
  - intros Hadmin.
    destruct op; cbn [handler];
      apply (gate_passed _ _ _ _ Hadmin); not_denied_body.
  - intros Hadmin. unfold exec.
    assert (handler op update context w
            = reply_text privilege_denial (checked update context w)) as ->.
    { destruct op; cbn [handler]; apply (gate_deny _ _ _ _ Hadmin). }
    cbn. rewrite checked_db, checked_replies, checked_requests. auto.
Qed.

Lemma privilege_decided_by_platform_witness :
  platform_admin actor_update (status_context "member" None ["2"])
    (two_members "owner" "member" 0) = false /\
  replies (exec (handler Ban actor_update (status_context "member" None ["2"]))
             (two_members "owner" "member" 0)) = [privilege_denial] /\
  platform_admin actor_update (admin_context None ["2"])
    (two_members "member" "member" 0) = true /\
  not_denied (two_members "member" "member" 0)
    (exec (handler Ban actor_update (admin_context None ["2"]))
       (two_members "member" "member" 0)).
Proof.
  split; [reflexivity|]. split.
  - apply (privilege_decided_by_platform Ban actor_update
             (status_context "member" None ["2"]) (two_members "owner" "member" 0)).
    reflexivity.
  - split; [reflexivity|].
    apply (privilege_decided_by_platform Ban actor_update
             (admin_context None ["2"]) (two_members "member" "member" 0)).
    reflexivity.
Defined.

(** The claim of C3 fails in both directions: an actor whose stored role is
    ['owner'] is refused when the platform calls the actor a member, and an
    actor whose stored role is ['member'] passes the check when the
    platform calls the actor an administrator. *)
Lemma stored_role_ignored_counterexample :
  ((role <$> users (db (two_members "owner" "member" 0)) !! (1, 100)) = Some "owner" /\
   get_role_priority "owner" >= get_role_priority "administrator" /\
   replies (exec (cmd_ban actor_update (status_context "member" None ["2"]))
              (two_members "owner" "member" 0)) = [privilege_denial] /\
   requests (exec (cmd_ban actor_update (status_context "member" None ["2"]))
               (two_members "owner" "member" 0)) = [get_chat_member 100 1]) /\
  ((role <$> users (db (two_members "member" "member" 0)) !! (1, 100)) = Some "member" /\
   get_role_priority "member" < get_role_priority "administrator" /\
   replies (exec (cmd_ban actor_update (admin_context None ["2"]))
              (two_members "member" "member" 0))
     = ["User 2 banned. Reason: No reason given"] /\
   requests (exec (cmd_ban actor_update (admin_context None ["2"]))
               (two_members "member" "member" 0))
     = [get_chat_member 100 1; ban_chat_member 100 2]).
Proof. vm_compute. repeat split; discriminate. Qed.

(** ** Mute *)

(** C5, as the code has it: a mute keeps no local record.  Whatever the
    platform answers to the restriction call, and whatever the arguments,
    the database after /mute is the database before it, so no reading of
    the local store tells a muted member from one who is not. *)
Theorem mute_keeps_no_local_record update context w :
  db (exec (cmd_mute update context) w) = db w /\
  (forall (isMuted : Database -> Z -> Z -> Z -> bool) group user time,
     isMuted (db (exec (cmd_mute update context) w)) group user time
     = isMuted (db w) group user time).
Proof.
  assert (db (exec (cmd_mute update context) w) = db w) as H
    by apply cmd_mute_same_db.
  split; [exact H|]. intros isMuted group user time. rewrite H. reflexivity.
Qed.

(** The claim of C5 fails: after a mute for 10 minutes by an administrator,
    with the platform call succeeding or failing, the database is the one
    before the command, and no reading of it turns from not muted to
    muted. *)
Lemma mute_not_recorded_counterexample :
  replies (exec (cmd_mute actor_update (admin_context None ["2"; "10"]))
             (two_members "owner" "member" 0))
    = ["Muted user 2 for 10 minutes."] /\
  replies (exec (cmd_mute actor_update (admin_context (Some "Forbidden") ["2"; "10"]))
             (two_members "owner" "member" 0))
    = ["Failed to mute user: Forbidden"] /\
  ~ (exists (isMuted : Database -> Z -> Z -> Z -> bool) outcome,
       isMuted (db (two_members "owner" "member" 0)) 100 2 new_year_2025 = false /\
       isMuted (db (exec (cmd_mute actor_update (admin_context outcome ["2"; "10"]))
                      (two_members "owner" "member" 0))) 100 2 new_year_2025 = true).
Proof.
  split; [vm_compute; reflexivity|]. split; [vm_compute; reflexivity|].
  intros (isMuted & outcome & Hbefore & Hafter).
  pose proof (cmd_mute_same_db actor_update (admin_context outcome ["2"; "10"])
                (two_members "owner" "member" 0)) as Hdb.
  unfold same_db in Hdb. unfold exec in Hafter. rewrite Hdb in Hafter.
  congruence.
Qed.

Lemma mute_until_run t minutes w :
  Py.datetime_ok t = true ->
  Py.datetime_ok (t + minutes * 60 * 1000000) = true ->
  mute_until t minutes w = (w, Ret (t + minutes * 60 * 1000000)).
Proof.
  intros Ht Hsum. unfold mute_until, Py.timedelta_minutes.
  assert ((Z.abs (minutes `div` 1440) <=? 999999999) = true) as ->.
  { unfold Py.datetime_ok, Py.datetime_end in *.
    apply andb_true_iff in Ht as [Ht1 Ht2], Hsum as [Hs1 Hs2].
    apply Z.leb_le in Ht1, Hs1. apply Z.ltb_lt in Ht2, Hs2.
    apply Z.leb_le.
    pose proof (Z.div_mod minutes 1440 ltac:(lia)) as Hdm.
    pose proof (Z.mod_pos_bound minutes 1440 ltac:(lia)) as Hmod.
    destruct (Z.abs_spec (minutes `div` 1440)) as [[_ ->] | [_ ->]]; lia. }
  cbn. unfold Py.datetime_add. rewrite Hsum. reflexivity.
Qed.

(** C8, as the code has it: /mute asks for no positive duration.  For any
    integer number of minutes, positive, zero or negative, for which now
    plus that many minutes is a date that [datetime] can hold, it requests
    the restriction from the platform until that date, tells the actor
    that the user is muted when the call returns and that the mute failed
    when the call raises, and stores nothing: the database is unchanged. *)
Theorem mute_any_duration update context w arg0 rest target minutes :
  platform_admin update context w = true ->
  args context = arg0 :: rest ->
  Py.int arg0 = Some target ->
  match rest with
  | arg1 :: _ => Py.int arg1 = Some minutes
  | [] => minutes = 10
  end ->
  Py.datetime_ok (now context) = true ->
  Py.datetime_ok (now context + minutes * 60 * 1000000) = true ->
  let chat := effective_chat_id update in
  let until_date := now context + minutes * 60 * 1000000 in
  let restriction := restrict_chat_member chat target mute_permissions (Some until_date) in
  let w' := exec (cmd_mute update context) w in
  requests w' = (requests (checked update context w) ++ [restriction])%list /\
  replies w' =
    (replies w ++
       [match enforce (bot context) (requests (checked update context w)) restriction with
        | None => "Muted user " +:+ Py.str target +:+ " for " +:+ Py.str minutes
                  +:+ " minutes."
        | Some msg => "Failed to mute user: " +:+ msg
        end])%list /\
  db w' = db w /\
  snd (cmd_mute update context w) = Ret tt.
Proof.
  intros Hadmin Hargs Hint Hminutes Hnow Huntil chat until_date restriction w'.
  subst chat until_date restriction w'. unfold exec, cmd_mute.
  rewrite (gate_pass _ _ _ _ Hadmin), Hargs.
  rewrite bind_run, (py_int_run _ _ _ Hint), bind_run.
  assert (match rest with
          | [] => mret 10
          | arg1 :: _ => py_int arg1
          end (checked update context w) = (checked update context w, Ret minutes)) as ->.
  { destruct rest as [|arg1 rest']; [subst minutes; reflexivity|].
    apply py_int_run, Hminutes. }
  rewrite bind_run, mute_until_run by assumption.
  unfold try_except. rewrite bind_run. unfold bot_call.
  destruct (enforce _ _ _); [rewrite reply_bind|];
    cbn [fst snd reply_text logger_error sent db requests replies errors];
    rewrite checked_replies, checked_db; auto.
Qed.

Lemma mute_any_duration_witness :
  Py.int "-5" = Some (-5) /\
  Py.datetime_ok (new_year_2025 + -5 * 60 * 1000000) = true /\
  requests (exec (cmd_mute actor_update (admin_context None ["2"; "-5"]))
              (two_members "owner" "member" 0)) =
    [ get_chat_member 100 1;
      restrict_chat_member 100 2 mute_permissions (Some (new_year_2025 - 300000000)) ].
Proof.
  do 2 (split; [reflexivity|]).
  apply (mute_any_duration actor_update (admin_context None ["2"; "-5"])
           (two_members "owner" "member" 0) "2" ["-5"] 2 (-5));
    reflexivity.
Defined.

(** The claim of C8 fails on both counts: a mute for 0 or for -5 minutes is
    not refused but requested from the platform and reported as done, and a
    mute for 10 minutes leaves the database as it was, with no record of a
    mute in it. *)
Lemma mute_non_positive_counterexample :
  replies (exec (cmd_mute actor_update (admin_context None ["2"; "-5"]))
             (two_members "owner" "member" 0))
    = ["Muted user 2 for -5 minutes."] /\
  replies (exec (cmd_mute actor_update (admin_context None ["2"; "0"]))
             (two_members "owner" "member" 0))
    = ["Muted user 2 for 0 minutes."] /\
  requests (exec (cmd_mute actor_update (admin_context None ["2"; "0"]))
              (two_members "owner" "member" 0))
    = [ get_chat_member 100 1;
        restrict_chat_member 100 2 mute_permissions (Some new_year_2025) ] /\
  db (exec (cmd_mute actor_update (admin_context None ["2"; "10"]))
        (two_members "owner" "member" 0))
    = db (two_members "owner" "member" 0).
Proof. vm_compute. repeat split. Qed.

(** * Further properties of the handlers *)

(** ** Rows are kept *)

Lemma row_kept_refl r : row_kept r r.
Proof.
  unfold row_kept. do 3 (split; [reflexivity|]). split; [lia | left; reflexivity].
Qed.

Lemma row_kept_trans r1 r2 r3 : row_kept r1 r2 -> row_kept r2 r3 -> row_kept r1 r3.
Proof.
  intros (Hu1 & Hj1 & Hp1 & Hw1 & Hr1) (Hu2 & Hj2 & Hp2 & Hw2 & Hr2).
  unfold row_kept. do 3 (split; [congruence|]). split; [lia|].
  destruct Hr2 as [Hr2 | Hr2]; [rewrite Hr2; exact Hr1 | right; exact Hr2].
Qed.

Lemma rows_kept_same_db w w' : db w' = db w -> rows_kept w w'.
Proof.
  intros H key. rewrite H.
  destruct (users (db w) !! key); constructor. apply row_kept_refl.
Qed.

Lemma rows_kept_refl w : rows_kept w w.
Proof. apply rows_kept_same_db. reflexivity. Qed.

Lemma rows_kept_trans a b c : rows_kept a b -> rows_kept b c -> rows_kept a c.
Proof.
  intros Hab Hbc key. specialize (Hab key). specialize (Hbc key).
  destruct Hab as [r1 r2 H12 |]; inversion Hbc as [r2' r3 H23 |]; subst; constructor.
  eapply row_kept_trans; eassumption.
Qed.

Lemma rows_kept_sent rq w : rows_kept w (sent rq w).
Proof. apply rows_kept_same_db. reflexivity. Qed.

Lemma rows_kept_error text w : rows_kept w (fst (logger_error text w)).
Proof. apply rows_kept_same_db. reflexivity. Qed.

Lemma rows_kept_reply text : keeps rows_kept (reply_text text).
Proof. intros w. apply rows_kept_same_db. reflexivity. Qed.

Lemma rows_kept_alter (f : user_row -> user_row) key w :
  (forall r, row_kept r (f r)) ->
  rows_kept w (with_db {| users := alter f key (users (db w)) |} w).
Proof.
  intros Hf key'. cbn [db with_db users].
  destruct (decide (key = key')) as [<- | Hne].
  - rewrite lookup_alter_eq. destruct (users (db w) !! key); constructor. apply Hf.
  - rewrite lookup_alter_ne by assumption.
    destruct (users (db w) !! key'); constructor. apply row_kept_refl.
Qed.

Lemma rows_kept_update_role new_role user_id chat_id :
  new_role ∈ assignable_roles -> keeps rows_kept (update_role new_role user_id chat_id).
Proof.
  intros Hrole. unfold update_role.
  apply keeps_bind; [exact rows_kept_trans | apply keeps_sql_bind, rows_kept_refl |].
  intros _. apply keeps_bind; [exact rows_kept_trans | apply keeps_sql_bind, rows_kept_refl |].
  intros _. intros w. rewrite bind_run. cbn [get_db put_db fst].
  apply rows_kept_alter. intros r. unfold row_kept, set_role. cbn.
  do 3 (split; [reflexivity|]). split; [lia | right; exact Hrole].
Qed.

Lemma rows_kept_update_warnings user_id chat_id :
  keeps rows_kept (update_warnings user_id chat_id).
Proof.
  unfold update_warnings.
  apply keeps_bind; [exact rows_kept_trans | apply keeps_sql_bind, rows_kept_refl |].
  intros _. apply keeps_bind; [exact rows_kept_trans | apply keeps_sql_bind, rows_kept_refl |].
  intros _. intros w. rewrite bind_run. cbn [get_db fst].
  destruct (users (db w) !! (user_id, chat_id)) as [r|] eqn:Hrow; [|apply rows_kept_refl].
  destruct (sqlite_int (warnings r + 1)); [|apply rows_kept_refl].
  intros key. cbn [put_db fst db with_db users].
  destruct (decide ((user_id, chat_id) = key)) as [<- | Hne].
  - rewrite lookup_insert_eq, Hrow. constructor. unfold row_kept, set_warnings. cbn.
    do 3 (split; [reflexivity|]). split; [lia | left; reflexivity].
  - rewrite lookup_insert_ne by assumption.
    destruct (users (db w) !! key); constructor. apply row_kept_refl.
Qed.

Ltac rows_kept_step :=
  first
    [ apply rows_kept_reply
    | apply rows_kept_update_warnings
    | match goal with |- keeps _ (if ?b then _ else _) => destruct b end
    | frame_step rows_kept_refl rows_kept_trans rows_kept_sent rows_kept_error ].

Lemma valid_role_below_owner new_role actor_role :
  new_role ∈ valid_roles ->
  (get_role_priority actor_role <=? get_role_priority new_role) = false ->
  new_role ∈ assignable_roles.
Proof.
  unfold valid_roles. intros Hvalid Hrank. apply Z.leb_gt in Hrank.
  apply elem_of_cons in Hvalid as [-> | Hvalid]; [|exact Hvalid].
  pose proof (get_role_priority_range actor_role) as Hrange.
  change (get_role_priority "owner") with 4 in Hrank. lia.
Qed.

Lemma demoted_role_assignable target_role :
  demoted_role (get_role_priority target_role - 1) ∈ assignable_roles.
Proof.
  pose proof (get_role_priority_range target_role) as Hrange.
  assert (get_role_priority target_role = 0 \/ get_role_priority target_role = 1 \/
          get_role_priority target_role = 2 \/ get_role_priority target_role = 3 \/
          get_role_priority target_role = 4) as H by lia.
  destruct H as [-> | [-> | [-> | [-> | ->]]]]; decide_by_computation.
Qed.

Lemma cmd_promote_rows_kept update context : keeps rows_kept (cmd_promote update context).
Proof.
  unfold cmd_promote.
  apply keeps_bind; [exact rows_kept_trans | apply keeps_check_admin;
    first [exact rows_kept_refl | exact rows_kept_trans | exact rows_kept_sent
          | exact rows_kept_error] |].
  intros admin. destruct admin; cbn [negb]; [|apply rows_kept_reply].
  destruct (args context) as [|arg0 [|arg1 rest]]; try apply rows_kept_reply.
  apply keeps_bind; [exact rows_kept_trans | apply keeps_py_int, rows_kept_refl |].
  intros user_id.
  destruct (bool_decide (Py.lower arg1 ∈ valid_roles)) eqn:Hvalid; cbn [negb];
    [|apply rows_kept_reply].
  apply bool_decide_eq_true_1 in Hvalid.
  apply keeps_bind; [exact rows_kept_trans | apply keeps_get_user_role;
    first [exact rows_kept_refl | exact rows_kept_trans | exact rows_kept_sent] |].
  intros actor_role.
  destruct (_ <=? _) eqn:Hrank; [apply rows_kept_reply|].
  apply keeps_bind; [exact rows_kept_trans | | intros; apply rows_kept_reply].
  apply rows_kept_update_role. eapply valid_role_below_owner; eassumption.
Qed.

Lemma cmd_demote_rows_kept update context : keeps rows_kept (cmd_demote update context).
Proof.
  unfold cmd_demote.
  apply keeps_bind; [exact rows_kept_trans | apply keeps_check_admin;
    first [exact rows_kept_refl | exact rows_kept_trans | exact rows_kept_sent
          | exact rows_kept_error] |].
  intros admin. destruct admin; cbn [negb]; [|apply rows_kept_reply].
  destruct (args context) as [|arg0 rest]; [apply rows_kept_reply|].
  apply keeps_bind; [exact rows_kept_trans | apply keeps_py_int, rows_kept_refl |].
  intros user_id.
  apply keeps_bind; [exact rows_kept_trans | apply keeps_get_user_role;
    first [exact rows_kept_refl | exact rows_kept_trans | exact rows_kept_sent] |].
  intros actor_role.
  apply keeps_bind; [exact rows_kept_trans | apply keeps_select_user;
    [exact rows_kept_refl | exact rows_kept_trans] |].
  intros [r|]; [|apply rows_kept_reply].
  destruct (_ <=? _); [apply rows_kept_reply|].
  apply keeps_bind; [exact rows_kept_trans | | intros; apply rows_kept_reply].
  apply rows_kept_update_role, demoted_role_assignable.
Qed.

Lemma handler_rows_kept op update context : keeps rows_kept (handler op update context).
Proof.
  destruct op; cbn [handler];
    try apply cmd_promote_rows_kept; try apply cmd_demote_rows_kept.
  all: match goal with |- keeps _ (?h _ _) => unfold h end; repeat rows_kept_step.
Qed.

(** X1: none of the eight moderation handlers adds or removes a membership
    row, and none changes the user name, the join date or the points of a
    row or lowers its warning count, whatever the arguments and whatever
    the platform answers. *)
Theorem handlers_keep_membership_rows op update context w key :
  (users (db (exec (handler op update context) w)) !! key = None <->
   users (db w) !! key = None) /\
  (forall r r',
     users (db w) !! key = Some r ->
     users (db (exec (handler op update context) w)) !! key = Some r' ->
     username r' = username r /\ joined_at r' = joined_at r /\
     points r' = points r /\ warnings r <= warnings r').
Proof.
  pose proof (handler_rows_kept op update context w key) as H. unfold exec.
  destruct H as [r r' (Hu & Hj & Hp & Hw & _) |].
  - split; [split; discriminate|].
    intros r0 r0' [= <-] [= <-]. auto.
  - split; [tauto | discriminate].
Qed.

Lemma handlers_keep_membership_rows_witness :
  users (db (two_members "owner" "member" 2)) !! (2, 100) = Some (row_with "bob" "member" 2) /\
  users (db (exec (handler Warn actor_update (admin_context None ["2"]))
               (two_members "owner" "member" 2))) !! (2, 100)
    = Some (row_with "bob" "member" 3) /\
  2 <= 3.
Proof.
  split; [reflexivity|]. split; [vm_compute; reflexivity|].
  destruct (handlers_keep_membership_rows Warn actor_update (admin_context None ["2"])
              (two_members "owner" "member" 2) (2, 100)) as (_ & H).
  destruct (H (row_with "bob" "member" 2) (row_with "bob" "member" 3)) as (_ & _ & _ & Hw);
    [reflexivity | vm_compute; reflexivity | exact Hw].
Defined.

(** X2: when a moderation handler changes the role stored in a row, the new
    role is administrator, admin, moderator or member: no command makes
    anyone an owner, and none stores ['restricted'] or an unknown role. *)
Theorem handlers_never_assign_owner op update context w key r r' :
  users (db w) !! key = Some r ->
  users (db (exec (handler op update context) w)) !! key = Some r' ->
  role r' <> role r ->
  role r' ∈ assignable_roles /\ 1 <= get_role_priority (role r') <= 3.
Proof.
  intros Hbefore Hafter Hchanged.
  pose proof (handler_rows_kept op update context w key) as H. unfold exec in Hafter.
  rewrite Hbefore, Hafter in H. inversion H as [? ? (_ & _ & _ & _ & Hrole) |]; subst.
  destruct Hrole as [Hrole | Hrole]; [contradiction|].
  split; [exact Hrole|]. unfold assignable_roles in Hrole.
  repeat (apply elem_of_cons in Hrole as [-> | Hrole]; [vm_compute; split; discriminate|]).
  apply not_elem_of_nil in Hrole. contradiction.
Qed.

Lemma handlers_never_assign_owner_witness :
  role (row_with "bob" "member" 0) <> "administrator" /\
  ("administrator" ∈ assignable_roles) /\ 1 <= get_role_priority "administrator" <= 3.
Proof.
  split; [discriminate|].
  apply (handlers_never_assign_owner Promote actor_update
           (admin_context None ["2"; "administrator"])
           (two_members "owner" "member" 0) (2, 100)
           (row_with "bob" "member" 0) (row_with "bob" "administrator" 0));
    [reflexivity | vm_compute; reflexivity | discriminate].
Defined.

(** ** Which handler writes which column *)

Lemma column_kept_same_db {A} (col : user_row -> A) w w' :
  db w' = db w -> column_kept col w w'.
Proof. intros H key. rewrite H. reflexivity. Qed.

Lemma column_kept_refl {A} (col : user_row -> A) w : column_kept col w w.
Proof. intros key. reflexivity. Qed.

Lemma column_kept_trans {A} (col : user_row -> A) a b c :
  column_kept col a b -> column_kept col b c -> column_kept col a c.
Proof. intros Hab Hbc key. rewrite Hbc. apply Hab. Qed.

Lemma column_kept_sent {A} (col : user_row -> A) rq w : column_kept col w (sent rq w).
Proof. intros key. reflexivity. Qed.

Lemma column_kept_error {A} (col : user_row -> A) text w :
  column_kept col w (fst (logger_error text w)).
Proof. intros key. reflexivity. Qed.

Lemma column_kept_reply {A} (col : user_row -> A) text :
  keeps (column_kept col) (reply_text text).
Proof. intros w key. reflexivity. Qed.

Lemma warnings_kept_update_role new_role user_id chat_id :
  keeps (column_kept warnings) (update_role new_role user_id chat_id).
Proof.
  unfold update_role.
  apply keeps_bind; [exact (column_kept_trans _) | apply keeps_sql_bind, column_kept_refl |].
  intros _. apply keeps_bind;
    [exact (column_kept_trans _) | apply keeps_sql_bind, column_kept_refl |].
  intros _ w key. rewrite bind_run. cbn [get_db put_db fst db with_db users].
  destruct (decide ((user_id, chat_id) = key)) as [<- | Hne].
  - rewrite lookup_alter_eq. destruct (users (db w) !! _); reflexivity.
  - rewrite lookup_alter_ne by assumption. reflexivity.
Qed.

Lemma role_kept_update_warnings user_id chat_id :
  keeps (column_kept role) (update_warnings user_id chat_id).
Proof.
  unfold update_warnings.
  apply keeps_bind; [exact (column_kept_trans _) | apply keeps_sql_bind, column_kept_refl |].
  intros _. apply keeps_bind;
    [exact (column_kept_trans _) | apply keeps_sql_bind, column_kept_refl |].
  intros _ w key. rewrite bind_run. cbn [get_db fst].
  destruct (users (db w) !! (user_id, chat_id)) as [r|] eqn:Hrow; [|reflexivity].
  destruct (sqlite_int (warnings r + 1)); [|reflexivity].
  cbn [put_db fst db with_db users].
  destruct (decide ((user_id, chat_id) = key)) as [<- | Hne].
  - rewrite lookup_insert_eq, Hrow. reflexivity.
  - rewrite lookup_insert_ne by assumption. reflexivity.
Qed.

Ltac column_kept_step :=
  first
    [ apply column_kept_reply
    | apply warnings_kept_update_role
    | apply role_kept_update_warnings
    | match goal with |- keeps _ (if ?b then _ else _) => destruct b end
    | frame_step (@column_kept_refl Z warnings) (@column_kept_trans Z warnings)
        (@column_kept_sent Z warnings) (@column_kept_error Z warnings)
    | frame_step (@column_kept_refl string role) (@column_kept_trans string role)
        (@column_kept_sent string role) (@column_kept_error string role) ].

Ltac same_db_step :=
  first
    [ apply same_db_reply
    | match goal with |- keeps _ (if ?b then _ else _) => destruct b end
    | frame_step same_db_refl same_db_trans same_db_sent same_db_error ].

(** X3: /ban, /unban, /mute, /unmute and /lockdown leave the database
    exactly as it was; /warn changes no stored role; /promote and /demote
    change no warning count. *)
Theorem handlers_write_their_own_column op update context w :
  (op ∈ [Ban; Unban; Mute; Unmute; Lockdown] ->
     db (exec (handler op update context) w) = db w) /\
  (op = Warn ->
     forall key, role <$> users (db (exec (handler op update context) w)) !! key
                 = role <$> users (db w) !! key) /\
  (op ∈ [Promote; Demote] ->
     forall key, warnings <$> users (db (exec (handler op update context) w)) !! key
                 = warnings <$> users (db w) !! key).
Proof.
  split; [|split].
  - intros Hop.
    assert (keeps same_db (handler op update context)) as H; [|apply H].
    destruct op; cbn [handler];
      try (exfalso; repeat (apply elem_of_cons in Hop as [Hop | Hop]; [discriminate|]);
           apply not_elem_of_nil in Hop; exact Hop).
    all: match goal with |- keeps _ (?h _ _) => unfold h end; repeat same_db_step.
  - intros ->.
    assert (keeps (column_kept role) (cmd_warn update context)) as H; [|apply H].
    unfold cmd_warn. repeat column_kept_step.
  - intros Hop.
    assert (keeps (column_kept warnings) (handler op update context)) as H; [|apply H].
    destruct op; cbn [handler];
      try (exfalso; repeat (apply elem_of_cons in Hop as [Hop | Hop]; [discriminate|]);
           apply not_elem_of_nil in Hop; exact Hop).
    all: match goal with |- keeps _ (?h _ _) => unfold h end; repeat column_kept_step.
Qed.

Lemma handlers_write_their_own_column_witness :
  (Ban ∈ [Ban; Unban; Mute; Unmute; Lockdown]) /\
  db (exec (handler Ban actor_update (admin_context None ["2"]))
        (two_members "owner" "member" 0))
    = db (two_members "owner" "member" 0).
Proof.
  split; [repeat constructor|].
  apply (handlers_write_their_own_column Ban actor_update (admin_context None ["2"])
           (two_members "owner" "member" 0)).
  repeat constructor.
Defined.

(** ** Missing and malformed arguments *)

(** Runs the replies, log entries and returns that stand at the head of a
    computation. *)
Ltac run_world :=
  repeat (progress (rewrite ?bind_run;
                    cbn [fst snd reply_text logger_error sent with_db db requests
                         replies errors users mret M_ret raise])).


(** X4: /ban and /lockdown never raise: whatever the arguments, the
    database and the answers of the platform, the handler returns, every
    failure having been turned into a reply. *)
Theorem ban_and_lockdown_always_return update context w :
  snd (cmd_ban update context w) = Ret tt /\
  snd (cmd_lockdown update context w) = Ret tt.
Proof.
  split.
  - unfold cmd_ban. rewrite bind_run, check_admin_run.
    destruct (platform_admin update context w); cbn [negb]; [|reflexivity].
    unfold try_except. destruct (args context) as [|arg0 rest]; [reflexivity|].
    rewrite bind_run. unfold py_int. destruct (Py.int arg0); [|reflexivity].
    cbn [mret M_ret]. rewrite bind_run. unfold bot_call.
    destruct (enforce _ _ _); reflexivity.
  - unfold cmd_lockdown. rewrite bind_run, check_admin_run.
    destruct (platform_admin update context w); cbn [negb]; [|reflexivity].
    destruct (args context) as [|arg0 rest]; [reflexivity|].
    unfold try_except.
    destruct (Py.lower arg0 =? "on")%string;
      [|destruct (Py.lower arg0 =? "off")%string; [|reflexivity]];
      rewrite bind_run; unfold bot_call; destruct (enforce _ _ _); reflexivity.
Qed.



(** X6: a command without arguments, from an actor who passes the privilege
    check, is answered with the usage line of the command and does nothing
    else; so is /promote with a single argument. *)
Theorem missing_arguments_give_usage op update context w :
  platform_admin update context w = true ->
  args context = [] \/ (op = Promote /\ length (args context) = 1%nat) ->
  handler op update context w
  = reply_text (usage op) (checked update context w).
Proof.
  intros Hadmin [Hargs | [-> Hone]].
  - destruct op; cbn [handler usage];
      match goal with |- ?h _ _ _ = _ => unfold h end;
      rewrite (gate_pass _ _ _ _ Hadmin), Hargs; reflexivity.
  - cbn [handler usage]. unfold cmd_promote.
    rewrite (gate_pass _ _ _ _ Hadmin).
    destruct (args context) as [|arg0 [|arg1 rest]]; try discriminate. reflexivity.
Qed.

Lemma missing_arguments_give_usage_witness :
  replies (exec (handler Promote actor_update (admin_context None ["2"]))
             (two_members "owner" "member" 0))
  = ["Usage: /promote <user_id> <role>"].
Proof.
  unfold exec.
  rewrite (missing_arguments_give_usage Promote actor_update (admin_context None ["2"])
             (two_members "owner" "member" 0));
    [reflexivity | reflexivity | right; split; reflexivity].
Defined.

(** ** Enforcement does not look at the database *)

Lemma oblivious_ret {A} (a : A) : oblivious (mret a).
Proof. intros d w. reflexivity. Qed.

Lemma oblivious_raise {A} e : oblivious (@raise A e).
Proof. intros d w. reflexivity. Qed.

Lemma oblivious_reply text : oblivious (reply_text text).
Proof. intros d w. reflexivity. Qed.

Lemma oblivious_logger_error text : oblivious (logger_error text).
Proof. intros d w. reflexivity. Qed.

Lemma oblivious_py_int s : oblivious (py_int s).
Proof. unfold py_int. destruct (Py.int s); [apply oblivious_ret | apply oblivious_raise]. Qed.

Lemma oblivious_mute_until t m : oblivious (mute_until t m).
Proof.
  unfold mute_until. destruct (_ ≫= _); [apply oblivious_ret | apply oblivious_raise].
Qed.

Lemma oblivious_bot_call b rq : oblivious (bot_call b rq).
Proof. intros d w. unfold bot_call. cbn [requests with_db]. destruct (enforce _ _ _); reflexivity. Qed.

Lemma oblivious_bot_get_chat_member b c u : oblivious (bot_get_chat_member b c u).
Proof.
  intros d w. unfold bot_get_chat_member. cbn [requests with_db].
  destruct (member_status _ _ _ _); reflexivity.
Qed.

Lemma oblivious_bind {A B} (m : M A) (f : A -> M B) :
  oblivious m -> (forall a, oblivious (f a)) -> oblivious (m ≫= f).
Proof.
  intros Hm Hf d w. rewrite !bind_run, Hm.
  destruct (m w) as [w' [a | e |]]; cbn [fst snd]; [apply Hf | reflexivity..].
Qed.

Lemma oblivious_try {A} (body : M A) (handler : exception -> M A) :
  oblivious body -> (forall e, oblivious (handler e)) -> oblivious (try_except body handler).
Proof.
  intros Hb Hh d w. unfold try_except. rewrite Hb.
  destruct (body w) as [w' [a | e |]]; cbn [fst snd]; [reflexivity | apply Hh | reflexivity].
Qed.

Lemma oblivious_check_admin update context : oblivious (check_admin update context).
Proof.
  unfold check_admin. apply oblivious_try.
  - apply oblivious_bind; [apply oblivious_bot_get_chat_member | intros; apply oblivious_ret].
  - intros e. apply oblivious_bind; [apply oblivious_logger_error | intros; apply oblivious_ret].
Qed.

Ltac oblivious_step :=
  first
    [ apply oblivious_ret | apply oblivious_raise | apply oblivious_reply
    | apply oblivious_logger_error | apply oblivious_py_int | apply oblivious_mute_until
    | apply oblivious_bot_call | apply oblivious_check_admin
    | apply oblivious_bind; [|intros ?]
    | apply oblivious_try; [|intros ?]
    | match goal with
      | |- oblivious (match ?x with _ => _ end) => destruct x
      | |- oblivious (if ?b then _ else _) => destruct b
      | |- oblivious (let _ := _ in _) => cbv zeta
      end ].

(** X7: /ban, /unban, /mute, /unmute and /lockdown do not read the
    database: what they send, reply, log and return is the same whatever
    rows and roles it holds, so that none of them is checked against the
    stored role of the actor or of the target. *)
Theorem enforcement_ignores_database op update context d w :
  op ∈ [Ban; Unban; Mute; Unmute; Lockdown] ->
  handler op update context (with_db d w)
  = (with_db d (exec (handler op update context) w), snd (handler op update context w)).
Proof.
  intros Hop.
  assert (oblivious (handler op update context)) as H; [|apply H].
  destruct op; cbn [handler];
    try (exfalso; repeat (apply elem_of_cons in Hop as [Hop | Hop]; [discriminate|]);
         apply not_elem_of_nil in Hop; exact Hop).
  all: match goal with |- oblivious (?h _ _) => unfold h end; repeat oblivious_step.
Qed.

Lemma enforcement_ignores_database_witness :
  requests (exec (handler Ban actor_update (admin_context None ["1"]))
              (with_db (db (two_members "owner" "member" 0))
                 (two_members "member" "owner" 0)))
  = [get_chat_member 100 1; ban_chat_member 100 1].
Proof.
  unfold exec.
  rewrite (enforcement_ignores_database Ban actor_update (admin_context None ["1"])
             (db (two_members "owner" "member" 0)) (two_members "member" "owner" 0))
    by repeat constructor.
  vm_compute. reflexivity.
Defined.

(** X8: /ban with an integer user id, from an actor who passes the
    privilege check, asks the platform to ban that user in the chat of the
    command and nothing else; it answers that the user is banned, with the
    reason given or "No reason given", when the call returns, and answers
    with the failure and logs it when the call raises. *)
Theorem ban_reports_the_outcome update context w arg0 rest user_id :
  platform_admin update context w = true ->
  args context = arg0 :: rest ->
  Py.int arg0 = Some user_id ->
  let w1 := checked update context w in
  let call := ban_chat_member (effective_chat_id update) user_id in
  let w' := exec (cmd_ban update context) w in
  requests w' = (requests w1 ++ [call])%list /\
  match enforce (bot context) (requests w1) call with
  | None =>
      replies w' =
        (replies w ++ ["User " +:+ Py.str user_id +:+ " banned. Reason: "
                       +:+ ban_reason rest])%list /\
      errors w' = errors w1
  | Some msg =>
      replies w' = (replies w ++ ["Failed to ban user: " +:+ msg])%list /\
      errors w' = (errors w1 ++ ["Ban error: " +:+ msg])%list
  end.
Proof.
  intros Hadmin Hargs Hint w1 call w'. subst w1 call w'. unfold exec, cmd_ban.
  rewrite (gate_pass _ _ _ _ Hadmin), Hargs. unfold try_except.
  rewrite bind_run, (py_int_run _ _ _ Hint), bind_run. unfold bot_call.
  destruct (enforce _ _ _); run_world; rewrite checked_replies; auto.
Qed.

Lemma ban_reports_the_outcome_witness :
  replies (exec (cmd_ban actor_update (admin_context (Some "Forbidden") ["2"; "spam"; "links"]))
             (two_members "owner" "member" 0))
  = ["Failed to ban user: Forbidden"].
Proof.
  destruct (ban_reports_the_outcome actor_update
              (admin_context (Some "Forbidden") ["2"; "spam"; "links"])
              (two_members "owner" "member" 0) "2" ["spam"; "links"] 2
              eq_refl eq_refl eq_refl) as (_ & H).
  cbn in H. destruct H as (H & _). exact H.
Defined.

(** ** Lockdown *)



(** ** Bounds *)

(** X10: a mute whose end would lie outside the dates that [datetime] can
    hold raises [OverflowError] after the privilege check: no restriction
    is requested, nothing is replied and nothing is stored. *)
Theorem mute_beyond_calendar_raises update context w arg0 rest target minutes :
  platform_admin update context w = true ->
  args context = arg0 :: rest ->
  Py.int arg0 = Some target ->
  match rest with
  | arg1 :: _ => Py.int arg1 = Some minutes
  | [] => minutes = 10
  end ->
  Py.datetime_ok (now context + minutes * 60 * 1000000) = false ->
  exec (cmd_mute update context) w = checked update context w /\
  exists msg, snd (cmd_mute update context w) = Raise (Exception OverflowError msg).
Proof.
  intros Hadmin Hargs Hint Hminutes Hout. unfold exec, cmd_mute.
  rewrite (gate_pass _ _ _ _ Hadmin), Hargs.
  rewrite bind_run, (py_int_run _ _ _ Hint), bind_run.
  assert (match rest with
          | [] => mret 10
          | arg1 :: _ => py_int arg1
          end (checked update context w) = (checked update context w, Ret minutes)) as ->.
  { destruct rest as [|arg1 rest']; [subst minutes; reflexivity|].
    apply py_int_run, Hminutes. }
  rewrite bind_run. unfold mute_until, Py.timedelta_minutes.
  destruct (Z.abs (minutes `div` 1440) <=? 999999999); cbn.
  - unfold Py.datetime_add. rewrite Hout. cbn. eauto.
  - eauto.
Qed.

Lemma mute_beyond_calendar_raises_witness :
  Py.datetime_ok (new_year_2025 + 10000000000 * 60 * 1000000) = false /\
  requests (exec (cmd_mute actor_update (admin_context None ["2"; "10000000000"]))
              (two_members "owner" "member" 0))
  = [get_chat_member 100 1].
Proof.
  split; [reflexivity|].
  destruct (mute_beyond_calendar_raises actor_update
              (admin_context None ["2"; "10000000000"])
              (two_members "owner" "member" 0) "2" ["10000000000"] 2 10000000000
              eq_refl eq_refl eq_refl eq_refl eq_refl) as (H & _).
  rewrite H. reflexivity.
Defined.

(** X11: /warn with a user id that SQLite cannot hold (outside the 64-bit
    signed integers) raises [OverflowError] when the id is bound to the
    UPDATE: no warning is counted, nothing is replied and no ban is
    attempted. *)
Theorem warn_id_beyond_sqlite_raises update context w arg0 rest target :
  platform_admin update context w = true ->
  args context = arg0 :: rest ->
  Py.int arg0 = Some target ->
  sqlite_int target = false ->
  exec (cmd_warn update context) w = checked update context w /\
  db (exec (cmd_warn update context) w) = db w /\
  exists msg, snd (cmd_warn update context w) = Raise (Exception OverflowError msg).
Proof.
  intros Hadmin Hargs Hint Hbig.
  assert (cmd_warn update context w =
          (checked update context w,
           Raise (Exception OverflowError
                    "Python int too large to convert to SQLite INTEGER"))) as Hrun.
  { unfold cmd_warn. rewrite (gate_pass _ _ _ _ Hadmin), Hargs.
    rewrite bind_run, (py_int_run _ _ _ Hint), bind_run.
    unfold update_warnings. rewrite bind_run. unfold sql_bind. rewrite Hbig.
    reflexivity. }
  unfold exec. rewrite Hrun. cbn [fst snd]. rewrite checked_db. eauto.
Qed.

Lemma warn_id_beyond_sqlite_raises_witness :
  sqlite_int 9223372036854775808 = false /\
  replies (exec (cmd_warn actor_update (admin_context None ["9223372036854775808"]))
             (two_members "owner" "member" 0)) = [].
Proof.
  split; [reflexivity|].
  destruct (warn_id_beyond_sqlite_raises actor_update
              (admin_context None ["9223372036854775808"])
              (two_members "owner" "member" 0) "9223372036854775808" []
              9223372036854775808 eq_refl eq_refl eq_refl eq_refl) as (H & _).
  rewrite H. reflexivity.
Defined.

(** ** Demotion *)

Section DemoteRefusals.
Variables (update : Update) (context : Context) (w : World).
Variables (arg0 : string) (rest : list string) (target : Z).
Hypothesis Hadmin : platform_admin update context w = true.
Hypothesis Hargs : args context = arg0 :: rest.
Hypothesis Hint : Py.int arg0 = Some target.
Hypothesis Htarget : sqlite_int target = true.
Hypothesis Hactor : sqlite_int (effective_user_id update) = true.
Hypothesis Hchat : sqlite_int (effective_chat_id update) = true.

Local Abbreviation w1 := (checked update context w).
Local Abbreviation w2 := (exec (get_user_role update context) w1).

Lemma cmd_demote_unknown :
  users (db w) !! (target, effective_chat_id update) = None ->
  cmd_demote update context w = reply_text "User not found in the database." w2.
Proof.
  intros Hrow. unfold cmd_demote.
  rewrite (gate_pass _ _ _ _ Hadmin), Hargs.
  rewrite bind_run, (py_int_run _ _ _ Hint).
  rewrite bind_run, get_user_role_run by assumption.
  rewrite bind_run, select_user_run by assumption.
  rewrite get_user_role_db, checked_db, Hrow by assumption. reflexivity.
Qed.

Lemma cmd_demote_rank r :
  users (db w) !! (target, effective_chat_id update) = Some r ->
  get_role_priority (resolved_role update context w1) <= get_role_priority (role r) ->
  cmd_demote update context w =
  reply_text "You cannot demote a user with a role >= your own." w2.
Proof.
  intros Hrow Hrank. unfold cmd_demote.
  rewrite (gate_pass _ _ _ _ Hadmin), Hargs.
  rewrite bind_run, (py_int_run _ _ _ Hint).
  rewrite bind_run, get_user_role_run by assumption.
  rewrite bind_run, select_user_run by assumption.
  rewrite get_user_role_db, checked_db, Hrow by assumption.
  apply Z.leb_le in Hrank. rewrite Hrank. reflexivity.
Qed.
End DemoteRefusals.

Lemma demoted_role_one_level p :
  0 <= p <= 3 ->
  demoted_role (p - 1) = (if p =? 3 then "moderator" else "member") /\
  get_role_priority (demoted_role (p - 1)) = Z.max 1 (p - 1).
Proof.
  intros Hp. assert (p = 0 \/ p = 1 \/ p = 2 \/ p = 3) as H by lia.
  destruct H as [-> | [-> | [-> | ->]]]; split; reflexivity.
Qed.

(** X12: a demotion that is allowed takes the target down one level and not
    below member: a target of priority 3 (administrator, admin, superadmin)
    becomes moderator, and a target of priority 2, 1 or 0 becomes member, so
    that the new priority is the larger of 1 and the old priority less one.
    No other row changes, and the actor is told the new role. *)
Theorem demote_one_level update context w arg0 rest target r :
  platform_admin update context w = true ->
  args context = arg0 :: rest ->
  Py.int arg0 = Some target ->
  sqlite_int target = true ->
  sqlite_int (effective_user_id update) = true ->
  sqlite_int (effective_chat_id update) = true ->
  users (db w) !! (target, effective_chat_id update) = Some r ->
  get_role_priority (role r)
    < get_role_priority (resolved_role update context (checked update context w)) ->
  let chat := effective_chat_id update in
  let old_priority := get_role_priority (role r) in
  let new_role := if old_priority =? 3 then "moderator" else "member" in
  let w' := exec (cmd_demote update context) w in
  users (db w') !! (target, chat) = Some (set_role new_role r) /\
  get_role_priority new_role = Z.max 1 (old_priority - 1) /\
  (forall key, key <> (target, chat) -> users (db w') !! key = users (db w) !! key) /\
  replies w' =
    (replies w ++ ["User " +:+ Py.str target +:+ " has been demoted to "
                   +:+ new_role +:+ "."])%list.
Proof.
  intros Hadmin Hargs Hint Ht Ha Hc Hrow Hrank chat old_priority new_role w'.
  subst chat old_priority new_role w'. unfold exec.
  rewrite (cmd_demote_allowed _ _ _ _ _ _ _ Hadmin Hargs Hint Ht Ha Hc Hrow Hrank).
  pose proof (get_role_priority_range (role r)) as Hlow.
  pose proof (get_role_priority_range
                (resolved_role update context (checked update context w))) as Hhigh.
  destruct (demoted_role_one_level (get_role_priority (role r))) as (Hname & Hprio); [lia|].
  rewrite Hname in *.
  cbn [reply_text fst db users with_db replies].
  rewrite lookup_alter_eq, Hrow, get_user_role_replies, checked_replies by assumption.
  split; [reflexivity|]. split; [exact Hprio|]. split; [|reflexivity].
  intros key Hkey. apply lookup_alter_ne. congruence.
Qed.

Lemma demote_one_level_witness :
  get_role_priority "superadmin" = 3 /\
  (role <$>
     users (db (exec (cmd_demote actor_update (admin_context None ["2"]))
                  (two_members "owner" "superadmin" 0))) !! (2, 100)) = Some "moderator".
Proof.
  split; [reflexivity|].
  destruct (demote_one_level actor_update (admin_context None ["2"])
              (two_members "owner" "superadmin" 0) "2" [] 2 (row_with "bob" "superadmin" 0)
              eq_refl eq_refl eq_refl eq_refl eq_refl eq_refl eq_refl eq_refl)
    as (Hrow & _).
  change (effective_chat_id actor_update) with 100 in Hrow.
  rewrite Hrow. reflexivity.
Defined.

(** X13: /demote is refused, and changes no row, when the target has no
    membership row in the group ("User not found in the database.") and
    when the target's stored role has a priority at least that of the
    actor's resolved role. *)
Theorem demote_refusals update context w arg0 rest target :
  platform_admin update context w = true ->
  args context = arg0 :: rest ->
  Py.int arg0 = Some target ->
  sqlite_int target = true ->
  sqlite_int (effective_user_id update) = true ->
  sqlite_int (effective_chat_id update) = true ->
  let w' := exec (cmd_demote update context) w in
  match users (db w) !! (target, effective_chat_id update) with
  | None =>
      db w' = db w /\
      replies w' = (replies w ++ ["User not found in the database."])%list
  | Some r =>
      get_role_priority (resolved_role update context (checked update context w))
        <= get_role_priority (role r) ->
      db w' = db w /\
      replies w' =
        (replies w ++ ["You cannot demote a user with a role >= your own."])%list
  end.
Proof.
  intros Hadmin Hargs Hint Ht Ha Hc w'. subst w'. unfold exec.
  destruct (users (db w) !! _) as [r|] eqn:Hrow.
  - intros Hrank.
    rewrite (cmd_demote_rank _ _ _ _ _ _ Hadmin Hargs Hint Ht Ha Hc r Hrow Hrank).
    cbn. rewrite get_user_role_db, get_user_role_replies, checked_db, checked_replies
      by assumption.
    auto.
  - rewrite (cmd_demote_unknown _ _ _ _ _ _ Hadmin Hargs Hint Ht Ha Hc Hrow).
    cbn. rewrite get_user_role_db, get_user_role_replies, checked_db, checked_replies
      by assumption.
    auto.
Qed.

Lemma demote_refusals_witness :
  users (db (two_members "owner" "member" 0)) !! (7, 100) = None /\
  replies (exec (cmd_demote actor_update (admin_context None ["7"]))
             (two_members "owner" "member" 0))
  = ["User not found in the database."].
Proof.
  split; [reflexivity|].
  pose proof (demote_refusals actor_update (admin_context None ["7"])
                (two_members "owner" "member" 0) "7" [] 7
                eq_refl eq_refl eq_refl eq_refl eq_refl eq_refl) as H.
  cbv zeta in H.
  change (users (db (two_members "owner" "member" 0)) !! (7, effective_chat_id actor_update))
    with (@None user_row) in H.
  destruct H as (_ & H). exact H.
Defined.

(** X14: nobody can demote themself: when the actor has a membership row
    and names their own id, /demote is refused and no row changes. *)
Theorem self_demotion_refused update context w arg0 rest r :
  platform_admin update context w = true ->
  args context = arg0 :: rest ->
  Py.int arg0 = Some (effective_user_id update) ->
  sqlite_int (effective_user_id update) = true ->
  sqlite_int (effective_chat_id update) = true ->
  users (db w) !! (effective_user_id update, effective_chat_id update) = Some r ->
  db (exec (cmd_demote update context) w) = db w /\
  replies (exec (cmd_demote update context) w) =
    (replies w ++ ["You cannot demote a user with a role >= your own."])%list.
Proof.
  intros Hadmin Hargs Hint Ha Hc Hrow. unfold exec.
  rewrite (cmd_demote_rank _ _ _ _ _ _ Hadmin Hargs Hint Ha Ha Hc r Hrow).
  - cbn. rewrite get_user_role_db, get_user_role_replies, checked_db, checked_replies
      by assumption.
    auto.
  - unfold resolved_role. rewrite checked_db, Hrow. lia.
Qed.

Lemma self_demotion_refused_witness :
  replies (exec (cmd_demote actor_update (admin_context None ["1"]))
             (two_members "owner" "member" 0))
  = ["You cannot demote a user with a role >= your own."].
Proof.
  apply (self_demotion_refused actor_update (admin_context None ["1"])
           (two_members "owner" "member" 0) "1" [] (row_with "alice" "owner" 0));
    reflexivity.
Defined.

(** ** Promotion *)

Lemma valid_roles_at_least_member new_role :
  new_role ∈ valid_roles -> 1 <= get_role_priority new_role.
Proof.
  unfold valid_roles. intros H.
  repeat (apply elem_of_cons in H as [-> | H]; [vm_compute; discriminate|]).
  apply not_elem_of_nil in H. contradiction.
Qed.

(** X15: an actor whose resolved role has priority 1 or less (member,
    restricted, or a string that is no role name) cannot promote anyone to
    anything, even when the platform calls the actor an administrator:
    every role that /promote accepts is refused for rank, every other
    word as an invalid role, and no row changes. *)
Theorem low_rank_actor_cannot_promote update context w arg0 arg1 rest target :
  platform_admin update context w = true ->
  args context = arg0 :: arg1 :: rest ->
  Py.int arg0 = Some target ->
  sqlite_int (effective_user_id update) = true ->
  sqlite_int (effective_chat_id update) = true ->
  get_role_priority (resolved_role update context (checked update context w)) <= 1 ->
  db (exec (cmd_promote update context) w) = db w /\
  replies (exec (cmd_promote update context) w) =
    (replies w ++
       [if bool_decide (Py.lower arg1 ∈ valid_roles)
        then "Cannot promote to a role >= your own role."
        else "Invalid role. Valid roles: owner, administrator, moderator, member."])%list.
Proof.
  intros Hadmin Hargs Hint Ha Hc Hlow. unfold exec.
  destruct (bool_decide (Py.lower arg1 ∈ valid_roles)) eqn:Hvalid.
  - apply bool_decide_eq_true_1 in Hvalid.
    pose proof (valid_roles_at_least_member _ Hvalid) as Hone.
    rewrite (cmd_promote_rank _ _ _ _ _ _ _ Hadmin Hargs Hint Ha Hc Hvalid) by lia.
    cbn. rewrite get_user_role_db, get_user_role_replies, checked_db, checked_replies
      by assumption.
    auto.
  - apply bool_decide_eq_false_1 in Hvalid.
    rewrite (cmd_promote_invalid _ _ _ _ _ _ _ Hadmin Hargs Hint Hvalid).
    cbn. rewrite checked_db, checked_replies. auto.
Qed.

Lemma low_rank_actor_cannot_promote_witness :
  get_role_priority
    (resolved_role actor_update (admin_context None ["2"; "member"])
       (checked actor_update (admin_context None ["2"; "member"])
          (two_members "member" "restricted" 0))) <= 1 /\
  replies (exec (cmd_promote actor_update (admin_context None ["2"; "member"]))
             (two_members "member" "restricted" 0))
  = ["Cannot promote to a role >= your own role."].
Proof.
  split; [vm_compute; discriminate|].
  apply (low_rank_actor_cannot_promote actor_update (admin_context None ["2"; "member"])
           (two_members "member" "restricted" 0) "2" "member" [] 2);
    first [reflexivity | vm_compute; discriminate].
Defined.

(** X16: /promote reads the role name without regard to case and stores it
    in lower case, and it compares the requested role with the actor's
    role only: whatever role the target held, also one above the actor's,
    an allowed promotion replaces it, and the priority it leaves is below
    the actor's. *)
Theorem promote_overwrites_any_role update context w arg0 arg1 rest target r :
  platform_admin update context w = true ->
  args context = arg0 :: arg1 :: rest ->
  Py.int arg0 = Some target ->
  sqlite_int target = true ->
  sqlite_int (effective_user_id update) = true ->
  sqlite_int (effective_chat_id update) = true ->
  users (db w) !! (target, effective_chat_id update) = Some r ->
  Py.lower arg1 ∈ valid_roles ->
  get_role_priority (Py.lower arg1)
    < get_role_priority (resolved_role update context (checked update context w)) ->
  let w' := exec (cmd_promote update context) w in
  users (db w') !! (target, effective_chat_id update) = Some (set_role (Py.lower arg1) r) /\
  (forall r', users (db w') !! (target, effective_chat_id update) = Some r' ->
     get_role_priority (role r')
       < get_role_priority (resolved_role update context (checked update context w))) /\
  (forall key, key <> (target, effective_chat_id update) ->
     users (db w') !! key = users (db w) !! key).
Proof.
  intros Hadmin Hargs Hint Ht Ha Hc Hrow Hvalid Hrank w'. subst w'. unfold exec.
  rewrite (cmd_promote_allowed _ _ _ _ _ _ _ Hadmin Hargs Hint Ht Ha Hc Hvalid Hrank).
  cbn [reply_text fst db users with_db].
  rewrite lookup_alter_eq, Hrow. cbn [fmap option_fmap option_map].
  split; [reflexivity|]. split.
  - intros r' [= <-]. exact Hrank.
  - intros key Hkey. apply lookup_alter_ne. congruence.
Qed.

Lemma promote_overwrites_any_role_witness :
  (role <$> users (db (two_members "administrator" "owner" 0)) !! (2, 100)) = Some "owner" /\
  (Py.lower "MEMBER" ∈ valid_roles) /\
  (role <$>
     users (db (exec (cmd_promote actor_update (admin_context None ["2"; "MEMBER"]))
                  (two_members "administrator" "owner" 0))) !! (2, 100)) = Some "member".
Proof.
  split; [reflexivity|]. split; [decide_by_computation|].
  destruct (promote_overwrites_any_role actor_update (admin_context None ["2"; "MEMBER"])
              (two_members "administrator" "owner" 0) "2" "MEMBER" [] 2
              (row_with "bob" "owner" 0)
              eq_refl eq_refl eq_refl eq_refl eq_refl eq_refl eq_refl
              ltac:(decide_by_computation) eq_refl) as (Hrow & _).
  change (effective_chat_id actor_update) with 100 in Hrow.
  rewrite Hrow. reflexivity.
Defined.

(** ** Points *)

Lemma only_replies_refl w : only_replies w w.
Proof. unfold only_replies. auto. Qed.

Lemma only_replies_trans a b c : only_replies a b -> only_replies b c -> only_replies a c.
Proof. unfold only_replies. intros (? & ? & ?) (? & ? & ?). repeat split; congruence. Qed.

Lemma only_replies_reply text : keeps only_replies (reply_text text).
Proof. intros w. unfold only_replies. auto. Qed.

(** X17: /points is a read that anyone may make: it asks the platform
    nothing (there is no privilege check), logs nothing and leaves the
    database as it was.  It reports the points of the user named by the
    first argument, or of the sender when there is no argument, in the
    group of the command, and says so when that user has no row there. *)
Theorem points_is_a_free_read update context w :
  db (exec (cmd_points update context) w) = db w /\
  requests (exec (cmd_points update context) w) = requests w /\
  errors (exec (cmd_points update context) w) = errors w /\
  (forall user_id,
     match args context with
     | arg0 :: _ => Py.int arg0 = Some user_id
     | [] => user_id = effective_user_id update
     end ->
     sqlite_int user_id = true ->
     sqlite_int (effective_chat_id update) = true ->
     replies (exec (cmd_points update context) w) =
       (replies w ++
          [match users (db w) !! (user_id, effective_chat_id update) with
           | Some r => "User " +:+ Py.str user_id +:+ " has " +:+ Py.str (points r)
                       +:+ " points."
           | None => "User not found in the database."
           end])%list).
Proof.
  assert (keeps only_replies (cmd_points update context)) as Hquiet.
  { unfold cmd_points.
    repeat first
      [ apply only_replies_reply
      | frame_step only_replies_refl only_replies_trans only_replies_refl
          only_replies_refl ]. }
  destruct (Hquiet w) as (Hdb & Hrequests & Herrors).
  split; [exact Hdb|]. split; [exact Hrequests|]. split; [exact Herrors|].
  unfold exec, cmd_points. rewrite bind_run.
  intros user_id Hid Hu Hc.
  assert (match args context with
          | [] => mret (effective_user_id update)
          | arg0 :: _ => py_int arg0
          end w = (w, Ret user_id)) as ->.
  { destruct (args context) as [|arg0 rest]; [subst user_id; reflexivity|].
    apply py_int_run, Hid. }
  rewrite bind_run, select_user_run by assumption.
  destruct (users (db w) !! _); reflexivity.
Qed.

Lemma points_is_a_free_read_witness :
  replies (exec (cmd_points actor_update (status_context "member" None []))
             (two_members "owner" "member" 0))
  = ["User 1 has 0 points."].
Proof.
  destruct (points_is_a_free_read actor_update (status_context "member" None [])
              (two_members "owner" "member" 0)) as (_ & _ & _ & H).
  rewrite (H 1); reflexivity.
Defined.

(** ** Groups: registration, rules and welcome message *)

(** Reads the fields of a store that has been written out. *)
Ltac store_fields :=
  cbn [fst snd lift with_world with_groups with_polls with_poll_responses
       world groups polls poll_responses reply_text with_db db requests replies
       errors users].

Lemma bind_store_run {A B} (m : MS A) (f : A -> MS B) (s : Store) :
  (m ≫= f) s =
  match m s with
  | (s', Ret a) => f a s'
  | (s', Raise e) => (s', Raise e)
  | (s', OutOfModel) => (s', OutOfModel)
  end.
Proof. reflexivity. Qed.

Lemma lift_run {A} (m : M A) (s : Store) w' (a : result A) :
  m (world s) = (w', a) -> lift m s = (with_world w' s, a).
Proof. intros H. unfold lift. rewrite H. reflexivity. Qed.

Lemma with_world_same s : with_world (world s) s = s.
Proof. destruct s. reflexivity. Qed.

Lemma lift_sql_bind_run z s : sqlite_int z = true -> lift (sql_bind z) s = (s, Ret tt).
Proof.
  intros H. rewrite (lift_run _ _ _ _ (sql_bind_run _ _ H)), with_world_same. reflexivity.
Qed.

Lemma lift_py_int_run text n s : Py.int text = Some n -> lift (py_int text) s = (s, Ret n).
Proof.
  intros H. rewrite (lift_run _ _ _ _ (py_int_run _ _ _ H)), with_world_same. reflexivity.
Qed.

Lemma join_nonempty_cases (text : string) :
  text <> EmptyString -> exists c rest, text = String c rest.
Proof. destruct text as [|c rest]; [contradiction | eauto]. Qed.

Section Rules.
Variables (update : Update) (context : Context) (s : Store).
Hypothesis Hadmin : platform_admin update context (world s) = true.
Hypothesis Hargs : args context <> [].
Hypothesis Hchat : sqlite_int (effective_chat_id update) = true.

Lemma cmd_setrules_run :
  cmd_setrules update context s =
  (with_world (fst (reply_text "✅ Rules updated successfully."
                         (checked update context (world s))))
     (with_groups (alter (set_rules (Some (Py.join " " (args context))))
                     (effective_chat_id update) (groups s)) s), Ret tt).
Proof.
  unfold cmd_setrules. rewrite bind_store_run.
  rewrite (lift_run _ _ _ _ (check_admin_run update context (world s))), Hadmin.
  cbn [negb]. destruct (args context) as [|arg0 rest]; [contradiction|].
  rewrite bind_store_run, (lift_run _ _ _ _ (sql_bind_run _ _ Hchat)).
  reflexivity.
Qed.

Lemma cmd_setwelcome_run :
  cmd_setwelcome update context s =
  (with_world (fst (reply_text "✅ Welcome message updated."
                         (checked update context (world s))))
     (with_groups (alter (set_welcome_message (Some (Py.join " " (args context))))
                     (effective_chat_id update) (groups s)) s), Ret tt).
Proof.
  unfold cmd_setwelcome. rewrite bind_store_run.
  rewrite (lift_run _ _ _ _ (check_admin_run update context (world s))), Hadmin.
  cbn [negb]. destruct (args context) as [|arg0 rest]; [contradiction|].
  rewrite bind_store_run, (lift_run _ _ _ _ (sql_bind_run _ _ Hchat)).
  reflexivity.
Qed.
End Rules.

Lemma cmd_rules_run update context s :
  sqlite_int (effective_chat_id update) = true ->
  cmd_rules update context s =
  lift (reply_text
          match groups s !! effective_chat_id update ≫= rules with
          | Some (String c text) => "**Group Rules:**" +:+ nl +:+ String c text
          | _ => "No rules set. Use /setrules <rules> to add some."
          end) s.
Proof.
  intros Hchat. unfold cmd_rules.
  rewrite bind_store_run, lift_sql_bind_run by exact Hchat.
  rewrite bind_store_run. cbn [get_groups].
  destruct (groups s !! effective_chat_id update ≫= rules) as [[|c text]|]; reflexivity.
Qed.

(** X18: in a group that is registered, the rules that an administrator
    sets with /setrules are the rules that /rules shows afterwards to
    anyone in that group: the arguments joined by single spaces, after the
    heading.  The other columns of the group and the users are untouched. *)
Theorem setrules_then_rules update context reader context' s g :
  platform_admin update context (world s) = true ->
  args context <> [] ->
  Py.join " " (args context) <> EmptyString ->
  sqlite_int (effective_chat_id update) = true ->
  groups s !! effective_chat_id update = Some g ->
  effective_chat_id reader = effective_chat_id update ->
  let s1 := exec_store (cmd_setrules update context) s in
  let s2 := exec_store (cmd_rules reader context') s1 in
  groups s1 !! effective_chat_id update
    = Some (set_rules (Some (Py.join " " (args context))) g) /\
  db (world s1) = db (world s) /\
  replies (world s2) =
    (replies (world s) ++
       ["✅ Rules updated successfully.";
        "**Group Rules:**" +:+ nl +:+ Py.join " " (args context)])%list /\
  groups s2 = groups s1.
Proof.
  intros Hadmin Hargs Htext Hchat Hgroup Hsame s1 s2. subst s1 s2.
  unfold exec_store. rewrite (cmd_setrules_run _ _ _ Hadmin Hargs Hchat).
  cbn [fst]. rewrite cmd_rules_run by (rewrite Hsame; exact Hchat).
  rewrite Hsame. store_fields.
  rewrite lookup_alter_eq, Hgroup. cbn [fmap option_fmap option_map mbind option_bind rules set_rules].
  destruct (join_nonempty_cases _ Htext) as (c & text & ->).
  rewrite checked_db, checked_replies, <- app_assoc. auto.
Qed.

Lemma setrules_then_rules_witness :
  replies (world
     (exec_store (cmd_rules actor_update (status_context "member" None []))
        (exec_store (cmd_setrules actor_update (admin_context None ["Be"; "kind."]))
           (store_of (two_members "owner" "member" 0)
              {[ 100 := new_group_row "Club" 0 ]}))))
  = ["✅ Rules updated successfully."; "**Group Rules:**" +:+ nl +:+ "Be kind."].
Proof.
  destruct (setrules_then_rules actor_update (admin_context None ["Be"; "kind."])
              actor_update (status_context "member" None [])
              (store_of (two_members "owner" "member" 0)
                 {[ 100 := new_group_row "Club" 0 ]})
              (new_group_row "Club" 0)
              eq_refl ltac:(discriminate) ltac:(discriminate) eq_refl eq_refl eq_refl)
    as (_ & _ & H & _).
  exact H.
Defined.

(** X19: in a group that has no row in [groups], /setrules and /setwelcome
    answer that the text was updated although nothing is stored: the table
    is unchanged, and /rules still says that no rules are set. *)
Theorem setrules_without_group_is_lost update context reader context' s :
  platform_admin update context (world s) = true ->
  args context <> [] ->
  sqlite_int (effective_chat_id update) = true ->
  groups s !! effective_chat_id update = None ->
  effective_chat_id reader = effective_chat_id update ->
  let s1 := exec_store (cmd_setrules update context) s in
  let s2 := exec_store (cmd_rules reader context') s1 in
  groups s1 = groups s /\
  groups (exec_store (cmd_setwelcome update context) s) = groups s /\
  replies (world s2) =
    (replies (world s) ++
       ["✅ Rules updated successfully.";
        "No rules set. Use /setrules <rules> to add some."])%list.
Proof.
  intros Hadmin Hargs Hchat Hgroup Hsame s1 s2. subst s1 s2.
  unfold exec_store.
  rewrite (cmd_setrules_run _ _ _ Hadmin Hargs Hchat),
    (cmd_setwelcome_run _ _ _ Hadmin Hargs Hchat).
  cbn [fst]. rewrite cmd_rules_run by (rewrite Hsame; exact Hchat).
  rewrite Hsame. store_fields.
  assert (forall f, alter f (effective_chat_id update) (groups s) = groups s) as Hsame_groups.
  { intros f. apply map_eq. intros key.
    destruct (decide (effective_chat_id update = key)) as [<- | Hne].
    - rewrite lookup_alter_eq, Hgroup. reflexivity.
    - apply lookup_alter_ne. assumption. }
  rewrite !Hsame_groups, Hgroup. cbn [mbind option_bind].
  rewrite checked_replies, <- app_assoc. auto.
Qed.

Lemma setrules_without_group_is_lost_witness :
  replies (world
     (exec_store (cmd_rules actor_update (status_context "member" None []))
        (exec_store (cmd_setrules actor_update (admin_context None ["Be"; "kind."]))
           (store_of (two_members "owner" "member" 0) ∅))))
  = ["✅ Rules updated successfully.";
     "No rules set. Use /setrules <rules> to add some."].
Proof.
  destruct (setrules_without_group_is_lost actor_update (admin_context None ["Be"; "kind."])
              actor_update (status_context "member" None [])
              (store_of (two_members "owner" "member" 0) ∅)
              eq_refl ltac:(discriminate) eq_refl eq_refl eq_refl)
    as (_ & _ & H).
  exact H.
Defined.

Lemma insert_or_ignore_user_run user_id chat_id name joined w :
  sqlite_int user_id = true -> sqlite_int chat_id = true ->
  insert_or_ignore_user user_id chat_id name joined w =
  (with_db {| users := match users (db w) !! (user_id, chat_id) with
                       | Some _ => users (db w)
                       | None => <[(user_id, chat_id) := new_user_row name joined]>
                                   (users (db w))
                       end |} w, Ret tt).
Proof.
  intros Hu Hc. unfold insert_or_ignore_user.
  rewrite bind_run, (sql_bind_run _ _ Hu), bind_run, (sql_bind_run _ _ Hc).
  rewrite bind_run. cbn [get_db].
  destruct (users (db w) !! (user_id, chat_id)); [|reflexivity].
  destruct w as [[rows] rq rp er]. reflexivity.
Qed.

Lemma insert_or_ignore_group_run chat_id name created s :
  sqlite_int chat_id = true ->
  insert_or_ignore_group chat_id name created s =
  (with_groups match groups s !! chat_id with
               | Some _ => groups s
               | None => <[chat_id := new_group_row name created]> (groups s)
               end s, Ret tt).
Proof.
  intros Hc. unfold insert_or_ignore_group.
  rewrite bind_store_run, lift_sql_bind_run by exact Hc.
  rewrite bind_store_run. cbn [get_groups].
  destruct (groups s !! chat_id); [|reflexivity].
  destruct s. reflexivity.
Qed.

Lemma cmd_start_run update sender context joined s :
  sqlite_int (effective_user_id update) = true ->
  sqlite_int (effective_chat_id update) = true ->
  cmd_start update sender context joined s =
  (with_world
       (fst (reply_text welcome_text
               (with_db
                  {| users :=
                       match users (db (world s))
                               !! (effective_user_id update, effective_chat_id update) with
                       | Some _ => users (db (world s))
                       | None =>
                           <[(effective_user_id update, effective_chat_id update) :=
                               new_user_row (py_or (user_username sender) "NoUsername") joined]>
                             (users (db (world s)))
                       end |} (world s))))
       (with_groups
          match groups s !! effective_chat_id update with
          | Some _ => groups s
          | None =>
              <[effective_chat_id update :=
                  new_group_row (py_or (chat_title sender) "Unnamed Group") (now context)]>
                (groups s)
          end s), Ret tt).
Proof.
  intros Hu Hc. unfold cmd_start.
  rewrite bind_store_run, insert_or_ignore_group_run by exact Hc.
  rewrite bind_store_run.
  erewrite lift_run by (apply insert_or_ignore_user_run; assumption).
  reflexivity.
Qed.

(** X20: /start registers the group and the sender where they are missing
    and leaves them alone where they are there: a group row that exists
    keeps its title, rules and welcome message, and a membership row that
    exists keeps its role, warnings and points.  A new group has no rules
    and no welcome message, and a new member has the role member and no
    warnings.  No other group or member is touched, and the sender gets
    the welcome text. *)
Theorem start_registers_what_is_missing update sender context joined s :
  sqlite_int (effective_user_id update) = true ->
  sqlite_int (effective_chat_id update) = true ->
  let chat := effective_chat_id update in
  let user := effective_user_id update in
  let s' := exec_store (cmd_start update sender context joined) s in
  groups s' !! chat =
    Some (default (new_group_row (py_or (chat_title sender) "Unnamed Group") (now context))
            (groups s !! chat)) /\
  users (db (world s')) !! (user, chat) =
    Some (default (new_user_row (py_or (user_username sender) "NoUsername") joined)
            (users (db (world s)) !! (user, chat))) /\
  (forall other, other <> chat -> groups s' !! other = groups s !! other) /\
  (forall key, key <> (user, chat) ->
     users (db (world s')) !! key = users (db (world s)) !! key) /\
  replies (world s') = (replies (world s) ++ [welcome_text])%list /\
  snd (cmd_start update sender context joined s) = Ret tt.
Proof.
  intros Hu Hc chat user s'. subst chat user s'. unfold exec_store.
  rewrite (cmd_start_run _ _ _ _ _ Hu Hc).
  store_fields.
  split; [|split; [|split; [|split]]].
  - destruct (groups s !! effective_chat_id update) as [g|] eqn:Hg.
    + rewrite Hg. reflexivity.
    + rewrite lookup_insert_eq. reflexivity.
  - destruct (users (db (world s)) !! _) as [r|] eqn:Hr.
    + rewrite Hr. reflexivity.
    + rewrite lookup_insert_eq. reflexivity.
  - intros other Hother.
    destruct (groups s !! effective_chat_id update); [reflexivity|].
    apply lookup_insert_ne. congruence.
  - intros key Hkey.
    destruct (users (db (world s)) !! _); [reflexivity|].
    apply lookup_insert_ne. congruence.
  - auto.
Qed.

Lemma start_registers_what_is_missing_witness :
  (role <$>
     users (db (world
       (exec_store (cmd_start actor_update
                      {| chat_title := Some "Club"; user_username := None |}
                      (status_context "member" None []) 5)
          (store_of (two_members "moderator" "member" 0) ∅)))) !! (1, 100))
  = Some "moderator".
Proof.
  destruct (start_registers_what_is_missing actor_update
              {| chat_title := Some "Club"; user_username := None |}
              (status_context "member" None []) 5
              (store_of (two_members "moderator" "member" 0) ∅)
              eq_refl eq_refl) as (_ & H & _).
  change (effective_chat_id actor_update) with 100 in H.
  change (effective_user_id actor_update) with 1 in H.
  rewrite H. reflexivity.
Defined.

(** X21: /start is idempotent on the stored data: a second /start in the
    same chat by the same user, at any later time and under any other chat
    title or user name, leaves the groups and the users as the first one
    left them. *)
Theorem start_twice_is_start_once update sender sender' context context' joined joined' s :
  sqlite_int (effective_user_id update) = true ->
  sqlite_int (effective_chat_id update) = true ->
  let s1 := exec_store (cmd_start update sender context joined) s in
  let s2 := exec_store (cmd_start update sender' context' joined') s1 in
  groups s2 = groups s1 /\ db (world s2) = db (world s1).
Proof.
  intros Hu Hc s1 s2. subst s1 s2. unfold exec_store.
  rewrite (cmd_start_run update sender' context' joined' _ Hu Hc).
  rewrite (cmd_start_run update sender context joined s Hu Hc).
  store_fields.
  split.
  - destruct (groups s !! effective_chat_id update) as [g|] eqn:Hg.
    + rewrite Hg. reflexivity.
    + rewrite lookup_insert_eq. reflexivity.
  - destruct (users (db (world s)) !! _) as [r|] eqn:Hr.
    + rewrite Hr. reflexivity.
    + rewrite lookup_insert_eq. reflexivity.
Qed.

Lemma start_twice_is_start_once_witness :
  (title <$>
     groups (exec_store (cmd_start actor_update
                           {| chat_title := Some "Renamed"; user_username := Some "al" |}
                           (status_context "member" None []) 9)
               (exec_store (cmd_start actor_update
                              {| chat_title := Some "Club"; user_username := None |}
                              (status_context "member" None []) 5)
                  (store_of (world_of []) ∅))) !! 100)
  = Some (Some "Club").
Proof.
  destruct (start_twice_is_start_once actor_update
              {| chat_title := Some "Club"; user_username := None |}
              {| chat_title := Some "Renamed"; user_username := Some "al" |}
              (status_context "member" None []) (status_context "member" None []) 5 9
              (store_of (world_of []) ∅) eq_refl eq_refl) as (H & _).
  rewrite H. vm_compute. reflexivity.
Defined.

Section StoreFrame.
Variable R : Store -> Store -> Prop.
Hypothesis R_refl : forall s, R s s.
Hypothesis R_trans : forall a b c, R a b -> R b c -> R a c.
Hypothesis R_world : forall s w, db w = db (world s) -> R s (with_world w s).

Lemma keeps_store_ret {A} (a : A) : keeps_store R (mret a).
Proof. intros s. apply R_refl. Qed.

Lemma keeps_store_get_groups : keeps_store R get_groups.
Proof. intros s. apply R_refl. Qed.

Lemma keeps_store_bind {A B} (m : MS A) (f : A -> MS B) :
  keeps_store R m -> (forall a, keeps_store R (f a)) -> keeps_store R (m ≫= f).
Proof.
  intros Hm Hf s. rewrite bind_store_run. specialize (Hm s).
  destruct (m s) as [s' [a | e |]]; cbn [fst] in *; [|assumption..].
  eapply R_trans; [exact Hm | apply Hf].
Qed.

Lemma keeps_store_lift {A} (m : M A) : keeps same_db m -> keeps_store R (lift m).
Proof. intros Hm s. cbn [lift fst]. apply R_world, Hm. Qed.
End StoreFrame.

Lemma same_db_check_admin update context : keeps same_db (check_admin update context).
Proof.
  apply keeps_check_admin;
    [exact same_db_refl | exact same_db_trans | exact same_db_sent | exact same_db_error].
Qed.

Lemma same_db_sql_bind z : keeps same_db (sql_bind z).
Proof. apply keeps_sql_bind. exact same_db_refl. Qed.

Lemma groups_column_kept_refl {A} (col : group_row -> A) s : groups_column_kept col s s.
Proof. split; reflexivity. Qed.

Lemma groups_column_kept_trans {A} (col : group_row -> A) a b c :
  groups_column_kept col a b -> groups_column_kept col b c -> groups_column_kept col a c.
Proof.
  intros (Hdb1 & Hcol1) (Hdb2 & Hcol2). split; [congruence|].
  intros chat. rewrite Hcol2. apply Hcol1.
Qed.

Lemma groups_column_kept_world {A} (col : group_row -> A) s w :
  db w = db (world s) -> groups_column_kept col s (with_world w s).
Proof. intros H. split; [exact H | reflexivity]. Qed.

Lemma alter_keeps_column {A} (col : group_row -> A) (f : group_row -> group_row)
    (key other : Z) (g : gmap Z group_row) :
  (forall row, col (f row) = col row) ->
  col <$> alter f key g !! other = col <$> g !! other.
Proof.
  intros Hcol. destruct (decide (key = other)) as [<- | Hne].
  - rewrite lookup_alter_eq. destruct (g !! key); cbn; [rewrite Hcol|]; reflexivity.
  - rewrite lookup_alter_ne by assumption. reflexivity.
Qed.

Lemma update_group_keeps_column {A} (col : group_row -> A) (f : group_row -> group_row)
    (chat_id : Z) (k : MS unit) :
  (forall row, col (f row) = col row) ->
  keeps_store (groups_column_kept col) k ->
  keeps_store (groups_column_kept col)
    (g ← get_groups; put_groups (alter f chat_id g);; k).
Proof.
  intros Hcol Hk s. rewrite !bind_store_run. cbn [get_groups put_groups].
  eapply groups_column_kept_trans; [|apply Hk].
  split; [reflexivity|]. intros chat. cbn [groups with_groups].
  apply alter_keeps_column, Hcol.
Qed.

Lemma cmd_setrules_keeps {A} (col : group_row -> A) update context :
  (forall text row, col (set_rules text row) = col row) ->
  keeps_store (groups_column_kept col) (cmd_setrules update context).
Proof.
  intros Hcol. unfold cmd_setrules.
  apply keeps_store_bind; [exact (groups_column_kept_trans _) | |].
  { apply keeps_store_lift; [exact (groups_column_kept_world _) | apply same_db_check_admin]. }
  intros admin. destruct admin; cbn [negb].
  2: { apply keeps_store_lift; [exact (groups_column_kept_world _) | apply same_db_reply]. }
  destruct (args context) as [|arg0 rest].
  { apply keeps_store_lift; [exact (groups_column_kept_world _) | apply same_db_reply]. }
  cbv zeta. apply keeps_store_bind; [exact (groups_column_kept_trans _) | |].
  { apply keeps_store_lift; [exact (groups_column_kept_world _) | apply same_db_sql_bind]. }
  intros _. apply update_group_keeps_column; [apply Hcol|].
  apply keeps_store_lift; [exact (groups_column_kept_world _) | apply same_db_reply].
Qed.

Lemma cmd_setwelcome_keeps {A} (col : group_row -> A) update context :
  (forall text row, col (set_welcome_message text row) = col row) ->
  keeps_store (groups_column_kept col) (cmd_setwelcome update context).
Proof.
  intros Hcol. unfold cmd_setwelcome.
  apply keeps_store_bind; [exact (groups_column_kept_trans _) | |].
  { apply keeps_store_lift; [exact (groups_column_kept_world _) | apply same_db_check_admin]. }
  intros admin. destruct admin; cbn [negb].
  2: { apply keeps_store_lift; [exact (groups_column_kept_world _) | apply same_db_reply]. }
  destruct (args context) as [|arg0 rest].
  { apply keeps_store_lift; [exact (groups_column_kept_world _) | apply same_db_reply]. }
  cbv zeta. apply keeps_store_bind; [exact (groups_column_kept_trans _) | |].
  { apply keeps_store_lift; [exact (groups_column_kept_world _) | apply same_db_sql_bind]. }
  intros _. apply update_group_keeps_column; [apply Hcol|].
  apply keeps_store_lift; [exact (groups_column_kept_world _) | apply same_db_reply].
Qed.

Lemma refused_without_privilege update context s (text : string) (body : MS unit) :
  platform_admin update context (world s) = false ->
  (admin ← lift (check_admin update context);
   if negb admin then lift (reply_text text) else body) s
  = (with_world (fst (reply_text text (checked update context (world s)))) s, Ret tt).
Proof.
  intros Hadmin. rewrite bind_store_run.
  rewrite (lift_run _ _ _ _ (check_admin_run update context (world s))), Hadmin.
  reflexivity.
Qed.

(** X22: /setrules and /setwelcome write one column each.  Whatever the
    arguments and the answers of the platform, neither touches the users,
    adds or removes a group, or changes a title; /setrules leaves every
    welcome message and /setwelcome leaves every rules text as it was; and
    an actor whom the platform does not call an administrator or creator
    changes nothing at all. *)
Theorem setrules_and_setwelcome_write_one_column update context s :
  let s1 := exec_store (cmd_setrules update context) s in
  let s2 := exec_store (cmd_setwelcome update context) s in
  db (world s1) = db (world s) /\ db (world s2) = db (world s) /\
  (forall chat,
     title <$> groups s1 !! chat = title <$> groups s !! chat /\
     welcome_message <$> groups s1 !! chat = welcome_message <$> groups s !! chat /\
     title <$> groups s2 !! chat = title <$> groups s !! chat /\
     rules <$> groups s2 !! chat = rules <$> groups s !! chat) /\
  (platform_admin update context (world s) = false ->
     groups s1 = groups s /\ groups s2 = groups s /\
     replies (world s1) =
       (replies (world s) ++ ["❌ You must be an admin to use this command."])%list /\
     replies (world s2) = (replies (world s) ++ [privilege_denial])%list).
Proof.
  intros s1 s2. subst s1 s2. unfold exec_store.
  destruct (cmd_setrules_keeps title update context (fun _ _ => eq_refl) s) as (Hdb1 & Ht1).
  destruct (cmd_setrules_keeps welcome_message update context (fun _ _ => eq_refl) s)
    as (_ & Hw1).
  destruct (cmd_setwelcome_keeps title update context (fun _ _ => eq_refl) s) as (Hdb2 & Ht2).
  destruct (cmd_setwelcome_keeps rules update context (fun _ _ => eq_refl) s) as (_ & Hr2).
  split; [exact Hdb1|]. split; [exact Hdb2|]. split; [intros chat; auto|].
  intros Hadmin. unfold cmd_setrules, cmd_setwelcome.
  rewrite !(refused_without_privilege _ _ _ _ _ Hadmin). store_fields.
  rewrite checked_replies. auto.
Qed.

Lemma setrules_and_setwelcome_write_one_column_witness :
  platform_admin actor_update (status_context "member" None ["Anything"; "goes"])
    (two_members "owner" "member" 0) = false /\
  groups (exec_store (cmd_setrules actor_update
                        (status_context "member" None ["Anything"; "goes"]))
            (store_of (two_members "owner" "member" 0) {[ 100 := new_group_row "Club" 0 ]}))
  = {[ 100 := new_group_row "Club" 0 ]}.
Proof.
  split; [reflexivity|].
  destruct (setrules_and_setwelcome_write_one_column actor_update
              (status_context "member" None ["Anything"; "goes"])
              (store_of (two_members "owner" "member" 0)
                 {[ 100 := new_group_row "Club" 0 ]})) as (_ & _ & _ & H).
  destruct (H eq_refl) as (Hgroups & _). exact Hgroups.
Defined.

(** ** Polls: counting the votes *)

Lemma dict_get_set_same key value d : dict_get key (dict_set key value d) = Some value.
Proof.
  induction d as [|[k v] rest IH]; cbn.
  - rewrite String.eqb_refl. reflexivity.
  - destruct (String.eqb key k) eqn:E; cbn; rewrite E; [reflexivity | exact IH].
Qed.

Lemma dict_get_set_other key other value d :
  other <> key -> dict_get other (dict_set key value d) = dict_get other d.
Proof.
  intros Hne. induction d as [|[k v] rest IH]; cbn.
  - apply String.eqb_neq in Hne. rewrite Hne. reflexivity.
  - destruct (String.eqb key k) eqn:E; cbn.
    + apply String.eqb_eq in E. subst k.
      apply String.eqb_neq in Hne. rewrite Hne. reflexivity.
    + rewrite IH. reflexivity.
Qed.

Lemma zero_results_from d opt options_list :
  dict_get opt (foldl (fun d o => dict_set o 0 d) d options_list) =
  if bool_decide (opt ∈ options_list) then Some 0 else dict_get opt d.
Proof.
  revert d. induction options_list as [|o rest IH]; intros d; cbn [foldl].
  - rewrite bool_decide_eq_false_2 by apply not_elem_of_nil. reflexivity.
  - rewrite IH. destruct (bool_decide (opt ∈ rest)) eqn:Hrest.
    + apply bool_decide_eq_true_1 in Hrest.
      rewrite bool_decide_eq_true_2 by (apply elem_of_cons; right; exact Hrest).
      reflexivity.
    + apply bool_decide_eq_false_1 in Hrest.
      destruct (decide (opt = o)) as [-> | Hne].
      * rewrite bool_decide_eq_true_2 by (apply elem_of_cons; left; reflexivity).
        apply dict_get_set_same.
      * rewrite bool_decide_eq_false_2
          by (rewrite elem_of_cons; intros [? | ?]; contradiction).
        apply dict_get_set_other. exact Hne.
Qed.

Lemma tally_from d opt votes :
  dict_get opt (tally d votes) = (fun n => n + count_votes opt votes) <$> dict_get opt d.
Proof.
  unfold tally, count_votes. revert d.
  induction votes as [|selected rest IH]; intros d; cbn [foldl List.filter].
  - destruct (dict_get opt d); cbn; [f_equal; lia | reflexivity].
  - rewrite IH. destruct (String.eqb opt selected) eqn:E.
    + apply String.eqb_eq in E. subst selected.
      destruct (dict_get opt d) as [n|] eqn:Hget.
      * rewrite dict_get_set_same. cbn [fmap option_fmap option_map length]. f_equal. lia.
      * rewrite Hget. reflexivity.
    + apply String.eqb_neq in E.
      destruct (dict_get selected d) as [n|]; [|reflexivity].
      rewrite dict_get_set_other by exact E. reflexivity.
Qed.

(** X23: the count that /stoppoll reports.  For an option of the poll the
    result is the number of recorded responses to that poll that chose it,
    so that two votes of one user count twice and votes on other polls do
    not count; a word that is no option of the poll has no result. *)
Theorem stoppoll_counts_each_option poll_id options_list responses opt :
  dict_get opt (tally (zero_results options_list) (votes_of poll_id responses)) =
  if bool_decide (opt ∈ options_list)
  then Some (Z.of_nat
               (length (List.filter
                          (fun r => (response_poll_id r =? poll_id)
                                    && String.eqb opt (selected_option r))
                          responses)))
  else None.
Proof.
  rewrite tally_from. unfold zero_results. rewrite zero_results_from.
  destruct (bool_decide (opt ∈ options_list)); [|reflexivity].
  cbn [fmap option_fmap option_map dict_get]. f_equal.
  rewrite Z.add_0_l. unfold count_votes, votes_of. f_equal.
  induction responses as [|r rest IH]; [reflexivity|].
  cbn [List.filter]. destruct (response_poll_id r =? poll_id); cbn [andb].
  - cbn [fmap list_fmap List.filter].
    destruct (String.eqb opt (selected_option r)); cbn [length]; rewrite <- IH; reflexivity.
  - exact IH.
Qed.

(** ** Polls: creating, voting, stopping *)

Lemma select_poll_run poll_id s :
  sqlite_int poll_id = true ->
  select_poll poll_id s = (s, Ret (find_poll poll_id (polls s))).
Proof.
  intros H. unfold select_poll. rewrite bind_store_run, lift_sql_bind_run by exact H.
  reflexivity.
Qed.

Lemma insert_response_run poll_id user_id selected s :
  sqlite_int poll_id = true -> sqlite_int user_id = true ->
  insert_response poll_id user_id selected s =
  (with_poll_responses
     (poll_responses s ++ [{| response_poll_id := poll_id; response_user_id := user_id;
                              selected_option := selected |}]) s, Ret tt).
Proof.
  intros Hp Hu. unfold insert_response.
  rewrite bind_store_run, lift_sql_bind_run by exact Hp.
  rewrite bind_store_run, lift_sql_bind_run by exact Hu.
  reflexivity.
Qed.

Lemma insert_poll_run chat_id text opts created s :
  sqlite_int chat_id = true ->
  insert_poll chat_id text opts created s =
  (with_polls (polls s ++ [{| poll_group_id := chat_id; question := text;
                              options := opts; poll_created_at := created;
                              is_active := 1 |}]) s,
   Ret (Z.of_nat (length (polls s)) + 1)).
Proof.
  intros Hc. unfold insert_poll.
  rewrite bind_store_run, lift_sql_bind_run by exact Hc.
  reflexivity.
Qed.

Lemma deactivate_poll_run poll_id s :
  sqlite_int poll_id = true ->
  deactivate_poll poll_id s =
  (with_polls (if 1 <=? poll_id
               then alter set_inactive (Z.to_nat (poll_id - 1)) (polls s)
               else polls s) s, Ret tt).
Proof.
  intros Hp. unfold deactivate_poll.
  rewrite bind_store_run, lift_sql_bind_run by exact Hp.
  reflexivity.
Qed.

Lemma find_poll_Some poll_id l p :
  find_poll poll_id l = Some p ->
  1 <= poll_id /\ l !! Z.to_nat (poll_id - 1) = Some p.
Proof.
  unfold find_poll. destruct (1 <=? poll_id) eqn:E; [|discriminate].
  apply Z.leb_le in E. auto.
Qed.

Lemma find_poll_app poll_id l more p :
  find_poll poll_id l = Some p -> find_poll poll_id (l ++ more) = Some p.
Proof.
  unfold find_poll. destruct (1 <=? poll_id); [|discriminate].
  apply lookup_app_l_Some.
Qed.

Lemma find_poll_new l row :
  find_poll (Z.of_nat (length l) + 1) (l ++ [row]) = Some row.
Proof.
  unfold find_poll. rewrite (proj2 (Z.leb_le _ _)) by lia.
  replace (Z.to_nat (Z.of_nat (length l) + 1 - 1)) with (length l + 0)%nat by lia.
  rewrite lookup_app_r by lia.
  replace (length l + 0 - length l)%nat with 0%nat by lia. reflexivity.
Qed.

Lemma find_poll_deactivated poll_id other l :
  1 <= poll_id ->
  find_poll other (alter set_inactive (Z.to_nat (poll_id - 1)) l) =
  if other =? poll_id then set_inactive <$> find_poll other l else find_poll other l.
Proof.
  intros Hid. unfold find_poll. destruct (other =? poll_id) eqn:E.
  - apply Z.eqb_eq in E. subst other.
    destruct (1 <=? poll_id); [apply list_lookup_alter_eq | reflexivity].
  - apply Z.eqb_neq in E.
    destruct (1 <=? other) eqn:Hother; [|reflexivity].
    apply Z.leb_le in Hother. apply list_lookup_alter_ne. lia.
Qed.

Section Vote.
Variables (update : Update) (context : Context) (s : Store).
Variables (arg0 arg1 : string) (more : list string) (poll_id : Z).
Hypothesis Hargs : args context = arg0 :: arg1 :: more.
Hypothesis Hint : Py.int arg0 = Some poll_id.
Hypothesis Hpoll : sqlite_int poll_id = true.
Hypothesis Huser : sqlite_int (effective_user_id update) = true.

Lemma cmd_vote_run :
  cmd_vote update context s =
  match find_poll poll_id (polls s) with
  | None => lift (reply_text "No such poll found.") s
  | Some p =>
      if is_active p =? 0 then lift (reply_text "Poll is not active.") s
      else if bool_decide (Py.join " " (arg1 :: more) ∈ options p) then
        lift (reply_text ("Vote recorded for poll " +:+ Py.str poll_id +:+ "."))
          (with_poll_responses
             (poll_responses s ++
                [{| response_poll_id := poll_id;
                    response_user_id := effective_user_id update;
                    selected_option := Py.join " " (arg1 :: more) |}]) s)
      else lift (reply_text "Invalid option. Check poll options.") s
  end.
Proof.
  unfold cmd_vote. rewrite Hargs.
  rewrite bind_store_run, (lift_py_int_run _ _ _ Hint).
  rewrite bind_store_run, select_poll_run by exact Hpoll.
  destruct (find_poll poll_id (polls s)) as [p|]; [|reflexivity].
  destruct (is_active p =? 0); [reflexivity|].
  destruct (bool_decide (_ ∈ options p)); cbn [negb]; [|reflexivity].
  rewrite bind_store_run, insert_response_run by assumption.
  reflexivity.
Qed.
End Vote.

(** X24: what /vote does with a poll id and an option (the arguments after
    the id, joined by single spaces).  A poll that does not exist, a poll
    that has been stopped and an option that the poll does not list are
    each refused with their own message and nothing is recorded; otherwise
    one response is appended for the sender and confirmed.  The handler
    asks neither who the sender is, nor whether the sender has voted
    before, nor in which group the poll was created. *)
Theorem vote_outcomes update context s arg0 arg1 more poll_id :
  args context = arg0 :: arg1 :: more ->
  Py.int arg0 = Some poll_id ->
  sqlite_int poll_id = true ->
  sqlite_int (effective_user_id update) = true ->
  let selected := Py.join " " (arg1 :: more) in
  let s' := exec_store (cmd_vote update context) s in
  polls s' = polls s /\
  requests (world s') = requests (world s) /\
  match find_poll poll_id (polls s) with
  | None =>
      poll_responses s' = poll_responses s /\
      replies (world s') = (replies (world s) ++ ["No such poll found."])%list
  | Some p =>
      if is_active p =? 0 then
        poll_responses s' = poll_responses s /\
        replies (world s') = (replies (world s) ++ ["Poll is not active."])%list
      else if bool_decide (selected ∈ options p) then
        poll_responses s' =
          (poll_responses s ++
             [{| response_poll_id := poll_id;
                 response_user_id := effective_user_id update;
                 selected_option := selected |}])%list /\
        replies (world s') =
          (replies (world s)
             ++ ["Vote recorded for poll " +:+ Py.str poll_id +:+ "."])%list
      else
        poll_responses s' = poll_responses s /\
        replies (world s') =
          (replies (world s) ++ ["Invalid option. Check poll options."])%list
  end.
Proof.
  intros Hargs Hint Hpoll Huser selected s'. subst selected s'. unfold exec_store.
  rewrite (cmd_vote_run _ _ _ _ _ _ _ Hargs Hint Hpoll Huser).
  destruct (find_poll poll_id (polls s)) as [p|]; [|cbn; auto].
  destruct (is_active p =? 0); [cbn; auto|].
  destruct (bool_decide (_ ∈ options p)); cbn; auto.
Qed.

Lemma vote_outcomes_witness :
  poll_responses
    (exec_store (cmd_vote outsider_update (status_context "member" None ["1"; "rice"; "bowl"]))
       (lunch_store [{| response_poll_id := 1; response_user_id := 1;
                        selected_option := "rice bowl" |}]))
  = [ {| response_poll_id := 1; response_user_id := 1; selected_option := "rice bowl" |};
      {| response_poll_id := 1; response_user_id := 1; selected_option := "rice bowl" |} ].
Proof.
  destruct (vote_outcomes outsider_update (status_context "member" None ["1"; "rice"; "bowl"])
              (lunch_store [{| response_poll_id := 1; response_user_id := 1;
                               selected_option := "rice bowl" |}])
              "1" "rice" ["bowl"] 1 eq_refl eq_refl eq_refl eq_refl) as (_ & _ & H).
  cbn in H. destruct H as (H & _). exact H.
Defined.

Section StopPoll.
Variables (update : Update) (context : Context) (s : Store).
Variable refusal : string -> option string.
Variables (arg0 : string) (rest : list string) (poll_id : Z) (p : poll_row).
Hypothesis Hadmin : platform_admin update context (world s) = true.
Hypothesis Hargs : args context = arg0 :: rest.
Hypothesis Hint : Py.int arg0 = Some poll_id.
Hypothesis Hpoll : sqlite_int poll_id = true.
Hypothesis Hrow : find_poll poll_id (polls s) = Some p.

Lemma cmd_stoppoll_run :
  cmd_stoppoll update context refusal s =
  lift (reply_markdown refusal
          (results_text poll_id
             (tally (zero_results (options p)) (votes_of poll_id (poll_responses s)))))
    (with_polls (alter set_inactive (Z.to_nat (poll_id - 1)) (polls s))
       (with_world (checked update context (world s)) s)).
Proof.
  unfold cmd_stoppoll. rewrite bind_store_run.
  rewrite (lift_run _ _ _ _ (check_admin_run update context (world s))), Hadmin.
  cbn [negb]. rewrite Hargs.
  rewrite bind_store_run, (lift_py_int_run _ _ _ Hint).
  rewrite bind_store_run, select_poll_run by exact Hpoll.
  cbn [polls with_world]. rewrite Hrow.
  rewrite bind_store_run, deactivate_poll_run by exact Hpoll.
  destruct (find_poll_Some _ _ _ Hrow) as (Hone & _).
  apply Z.leb_le in Hone. rewrite Hone.
  rewrite bind_store_run, lift_sql_bind_run by exact Hpoll.
  reflexivity.
Qed.
End StopPoll.

(** X25: /stoppoll by an actor who passes the privilege check closes the
    poll for good.  The poll is marked inactive and no other poll and no
    response changes, whether or not the platform accepts the report: the
    update is committed before the report is sent.  A report that the
    platform sends is the heading with one line per option and its count;
    one that it refuses as Markdown makes the handler raise the error of
    the platform, with no answer.  After either, every /vote on the poll,
    by anyone, is refused as not active and records nothing. *)
Theorem stoppoll_closes_the_poll update context refusal s arg0 rest poll_id p
    voter context' vote0 vote1 more :
  platform_admin update context (world s) = true ->
  args context = arg0 :: rest ->
  Py.int arg0 = Some poll_id ->
  sqlite_int poll_id = true ->
  find_poll poll_id (polls s) = Some p ->
  args context' = vote0 :: vote1 :: more ->
  Py.int vote0 = Some poll_id ->
  sqlite_int (effective_user_id voter) = true ->
  let report := results_text poll_id
                  (tally (zero_results (options p))
                     (votes_of poll_id (poll_responses s))) in
  let s1 := exec_store (cmd_stoppoll update context refusal) s in
  let s2 := exec_store (cmd_vote voter context') s1 in
  find_poll poll_id (polls s1) = Some (set_inactive p) /\
  (forall other, other <> poll_id -> find_poll other (polls s1) = find_poll other (polls s)) /\
  poll_responses s1 = poll_responses s /\
  (refusal report = None ->
     snd (cmd_stoppoll update context refusal s) = Ret tt /\
     replies (world s1) = (replies (world s) ++ [report])%list) /\
  (forall msg, refusal report = Some msg ->
     snd (cmd_stoppoll update context refusal s) = Raise (Exception TelegramError msg) /\
     replies (world s1) = replies (world s)) /\
  poll_responses s2 = poll_responses s /\
  replies (world s2) = (replies (world s1) ++ ["Poll is not active."])%list.
Proof.
  intros Hadmin Hargs Hint Hpoll Hrow Hargs' Hint' Hvoter report s1 s2. subst s1 s2.
  unfold exec_store.
  rewrite (cmd_vote_run _ _ _ _ _ _ _ Hargs' Hint' Hpoll Hvoter).
  rewrite (cmd_stoppoll_run _ _ _ _ _ _ _ _ Hadmin Hargs Hint Hpoll Hrow).
  fold report.
  destruct (find_poll_Some _ _ _ Hrow) as (Hone & _).
  assert (Hclosed : forall w,
            find_poll poll_id
              (polls (lift (reply_markdown refusal report)
                        (with_polls (alter set_inactive (Z.to_nat (poll_id - 1)) (polls s))
                           (with_world w s))).1) = Some (set_inactive p)).
  { intros w. store_fields. rewrite find_poll_deactivated by exact Hone.
    rewrite Z.eqb_refl, Hrow. reflexivity. }
  rewrite Hclosed. cbn [is_active set_inactive Z.eqb].
  split; [reflexivity|].
  split.
  { intros other Hother. store_fields. rewrite find_poll_deactivated by exact Hone.
    apply Z.eqb_neq in Hother. rewrite Hother. reflexivity. }
  split; [reflexivity|].
  split.
  { intros Hsent. unfold reply_markdown. rewrite Hsent. store_fields.
    rewrite checked_replies. auto. }
  split.
  { intros msg Hrefused. unfold reply_markdown. rewrite Hrefused. store_fields.
    cbn [raise fst snd replies]. rewrite checked_replies. auto. }
  split; reflexivity.
Qed.

Lemma stoppoll_closes_the_poll_witness :
  replies (world
     (exec_store (cmd_vote outsider_update (status_context "member" None ["1"; "pizza"]))
        (exec_store (cmd_stoppoll actor_update (admin_context None ["1"]) (fun _ => None))
           (lunch_store [{| response_poll_id := 1; response_user_id := 2;
                            selected_option := "pizza" |}]))))
  = [ "**Poll 1 Results:**" +:+ nl +:+ "pizza: 1 votes" +:+ nl
      +:+ "rice bowl: 0 votes" +:+ nl;
      "Poll is not active." ].
Proof.
  destruct (stoppoll_closes_the_poll actor_update (admin_context None ["1"]) (fun _ => None)
              (lunch_store [{| response_poll_id := 1; response_user_id := 2;
                               selected_option := "pizza" |}])
              "1" [] 1 lunch_poll
              outsider_update (status_context "member" None ["1"; "pizza"]) "1" "pizza" []
              eq_refl eq_refl eq_refl eq_refl eq_refl eq_refl eq_refl eq_refl)
    as (_ & _ & _ & H1 & _ & _ & H2).
  destruct (H1 eq_refl) as (_ & Hsent).
  rewrite H2, Hsent. vm_compute. reflexivity.
Defined.

(** ** Polls: every response is for a poll and one of its options *)

Lemma polls_grow_same s s' :
  polls s' = polls s -> poll_responses s' = poll_responses s -> polls_grow s s'.
Proof.
  intros Hp Hr. split.
  - intros poll_id p H. rewrite Hp. eauto.
  - intros r H. rewrite Hr in H. auto.
Qed.

Lemma responses_valid_step s s' :
  responses_valid s -> polls_grow s s' -> responses_valid s'.
Proof.
  intros Hvalid (Hpolls & Hresponses) r Hr.
  destruct (Hresponses r Hr) as [Hold | (p & Hp & Hopt)].
  - destruct (Hvalid r Hold) as (p & Hp & Hopt).
    destruct (Hpolls _ _ Hp) as (p' & Hp' & Hsame). exists p'. rewrite Hsame. auto.
  - destruct (Hpolls _ _ Hp) as (p' & Hp' & Hsame). exists p'. rewrite Hsame. auto.
Qed.

Lemma polls_grow_refl s : polls_grow s s.
Proof. apply polls_grow_same; reflexivity. Qed.

Lemma polls_grow_deactivated s s' poll_id :
  polls s' = (if 1 <=? poll_id
              then alter set_inactive (Z.to_nat (poll_id - 1)) (polls s)
              else polls s) ->
  poll_responses s' = poll_responses s -> polls_grow s s'.
Proof.
  intros Hp Hr. destruct (1 <=? poll_id) eqn:Hid; [|apply polls_grow_same; assumption].
  apply Z.leb_le in Hid. split.
  - intros other p Hfind. rewrite Hp, find_poll_deactivated by exact Hid.
    destruct (other =? poll_id); rewrite Hfind; cbn; eauto.
  - intros r H. rewrite Hr in H. auto.
Qed.

Lemma polls_grow_voted s s' poll_id user_id selected p :
  find_poll poll_id (polls s) = Some p -> selected ∈ options p ->
  polls s' = polls s ->
  poll_responses s' =
    (poll_responses s ++ [{| response_poll_id := poll_id; response_user_id := user_id;
                             selected_option := selected |}])%list ->
  polls_grow s s'.
Proof.
  intros Hfind Hopt Hp Hr. split.
  - intros other q H. rewrite Hp. eauto.
  - intros r H. rewrite Hr in H. apply elem_of_app in H as [H | H]; [left; exact H|].
    apply list_elem_of_singleton in H. subst r. right. exists p. auto.
Qed.

Lemma polls_grow_asked s s' row :
  polls s' = (polls s ++ [row])%list -> poll_responses s' = poll_responses s ->
  polls_grow s s'.
Proof.
  intros Hp Hr. split.
  - intros other p H. rewrite Hp. exists p. split; [apply find_poll_app; exact H | reflexivity].
  - intros r H. rewrite Hr in H. auto.
Qed.

(** The steps of a handler, seen from the polls and the responses: a step
    on the world leaves them alone whether it returns or raises. *)
Section Grow.
Context {B : Type}.
Variables (s0 s : Store).
Hypothesis Hnow : polls_grow s0 s.

Lemma grow_lift_end {A} (m : M A) : polls_grow s0 (lift m s).1.
Proof. unfold lift. destruct (m (world s)) as [w r]. exact Hnow. Qed.

Lemma grow_lift {A} (m : M A) (f : A -> MS B) :
  (forall a w, polls_grow s0 (f a (with_world w s)).1) ->
  polls_grow s0 ((lift m ≫= f) s).1.
Proof.
  intros H. rewrite bind_store_run. unfold lift.
  destruct (m (world s)) as [w [a | e |]]; [apply H | exact Hnow | exact Hnow].
Qed.

Lemma grow_select_poll poll_id (f : option poll_row -> MS B) :
  (forall w, polls_grow s0 (f (find_poll poll_id (polls s)) (with_world w s)).1) ->
  polls_grow s0 ((select_poll poll_id ≫= f) s).1.
Proof.
  intros H. rewrite bind_store_run. unfold select_poll. rewrite bind_store_run.
  unfold lift. destruct (sql_bind poll_id (world s)) as [w [[] | e |]];
    [apply H | exact Hnow | exact Hnow].
Qed.

Lemma grow_insert_response poll_id user_id selected (f : unit -> MS B) :
  (forall w,
     polls_grow s0
       (f tt (with_poll_responses
                (poll_responses s ++
                   [{| response_poll_id := poll_id; response_user_id := user_id;
                       selected_option := selected |}]) (with_world w s))).1) ->
  polls_grow s0 ((insert_response poll_id user_id selected ≫= f) s).1.
Proof.
  intros H. rewrite bind_store_run. unfold insert_response. rewrite bind_store_run.
  unfold lift at 1. destruct (sql_bind poll_id (world s)) as [w [[] | e |]];
    [| exact Hnow | exact Hnow].
  rewrite bind_store_run. unfold lift. cbn [fst snd world with_world].
  destruct (sql_bind user_id w) as [w' [[] | e |]];
    [apply H | exact Hnow | exact Hnow].
Qed.

Lemma grow_insert_poll chat_id text opts created (f : Z -> MS B) :
  (forall w,
     polls_grow s0
       (f (Z.of_nat (length (polls s)) + 1)
          (with_polls (polls s ++ [{| poll_group_id := chat_id; question := text;
                                      options := opts; poll_created_at := created;
                                      is_active := 1 |}]) (with_world w s))).1) ->
  polls_grow s0 ((insert_poll chat_id text opts created ≫= f) s).1.
Proof.
  intros H. rewrite bind_store_run. unfold insert_poll. rewrite bind_store_run.
  unfold lift. destruct (sql_bind chat_id (world s)) as [w [[] | e |]];
    [apply H | exact Hnow | exact Hnow].
Qed.

Lemma grow_deactivate_poll poll_id (f : unit -> MS B) :
  (forall w,
     polls_grow s0
       (f tt (with_polls (if 1 <=? poll_id
                          then alter set_inactive (Z.to_nat (poll_id - 1)) (polls s)
                          else polls s) (with_world w s))).1) ->
  polls_grow s0 ((deactivate_poll poll_id ≫= f) s).1.
Proof.
  intros H. rewrite bind_store_run. unfold deactivate_poll. rewrite bind_store_run.
  unfold lift. destruct (sql_bind poll_id (world s)) as [w [[] | e |]];
    [apply H | exact Hnow | exact Hnow].
Qed.

End Grow.

Lemma cmd_vote_polls_grow update context s :
  polls_grow s (exec_store (cmd_vote update context) s).
Proof.
  pose proof (polls_grow_refl s) as Hrefl.
  unfold exec_store, cmd_vote.
  destruct (args context) as [|arg0 [|arg1 more]];
    try (apply grow_lift_end; exact Hrefl).
  apply grow_lift; [exact Hrefl | intros poll_id w].
  apply grow_select_poll; [exact Hrefl | intros w'].
  cbn [polls with_world].
  destruct (find_poll poll_id (polls s)) as [p|] eqn:Hrow;
    [|apply grow_lift_end; exact Hrefl].
  destruct (is_active p =? 0); [apply grow_lift_end; exact Hrefl|].
  destruct (bool_decide (Py.join " " (arg1 :: more) ∈ options p)) eqn:Hopt;
    cbn [negb]; [|apply grow_lift_end; exact Hrefl].
  apply bool_decide_eq_true_1 in Hopt.
  apply grow_insert_response; [exact Hrefl | intros w''].
  apply grow_lift_end.
  eapply polls_grow_voted; [exact Hrow | exact Hopt | reflexivity | reflexivity].
Qed.

Lemma cmd_poll_polls_grow update context s :
  polls_grow s (exec_store (cmd_poll update context) s).
Proof.
  pose proof (polls_grow_refl s) as Hrefl.
  unfold exec_store, cmd_poll.
  destruct (args context) as [|arg0 rest]; [apply grow_lift_end; exact Hrefl|].
  destruct (py_split "|" (Py.join " " (arg0 :: rest))) as [|asked [|option1 more]];
    try (apply grow_lift_end; exact Hrefl).
  apply grow_insert_poll; [exact Hrefl | intros w].
  apply grow_lift_end. eapply polls_grow_asked; reflexivity.
Qed.

Lemma cmd_stoppoll_polls_grow update context refusal s :
  polls_grow s (exec_store (cmd_stoppoll update context refusal) s).
Proof.
  pose proof (polls_grow_refl s) as Hrefl.
  unfold exec_store, cmd_stoppoll.
  apply grow_lift; [exact Hrefl | intros admin w].
  destruct admin; cbn [negb]; [|apply grow_lift_end; exact Hrefl].
  destruct (args context) as [|arg0 rest]; [apply grow_lift_end; exact Hrefl|].
  apply grow_lift; [exact Hrefl | intros poll_id w'].
  apply grow_select_poll; [exact Hrefl | intros w''].
  cbn [polls with_world].
  destruct (find_poll poll_id (polls s)) as [p|] eqn:Hrow;
    [|apply grow_lift_end; exact Hrefl].
  assert (Hstopped : forall v,
             polls_grow s
               (with_polls (if 1 <=? poll_id
                            then alter set_inactive (Z.to_nat (poll_id - 1)) (polls s)
                            else polls s) (with_world v s)))
    by (intros v; eapply polls_grow_deactivated; reflexivity).
  apply grow_deactivate_poll; [exact Hrefl | intros v].
  apply grow_lift; [exact (Hstopped v) | intros [] v'].
  apply grow_lift_end. exact (Hstopped v).
Qed.

(** X26: the responses stay sound.  If every recorded response names a poll
    that exists and an option that this poll lists, that is still so after
    /poll, /vote and /stoppoll, whatever their arguments, whoever sends
    them and whatever the platform answers: polls are never removed, their
    options never change, and no vote is recorded for a poll that is
    missing or for a word that is not among its options. *)
Theorem responses_stay_valid update context refusal s :
  responses_valid s ->
  responses_valid (exec_store (cmd_poll update context) s) /\
  responses_valid (exec_store (cmd_vote update context) s) /\
  responses_valid (exec_store (cmd_stoppoll update context refusal) s).
Proof.
  intros Hvalid. repeat split; eapply responses_valid_step; try exact Hvalid.
  - apply cmd_poll_polls_grow.
  - apply cmd_vote_polls_grow.
  - apply cmd_stoppoll_polls_grow.
Qed.

Lemma responses_stay_valid_witness :
  let before := lunch_store [{| response_poll_id := 1; response_user_id := 2;
                                selected_option := "rice bowl" |}] in
  responses_valid before /\
  responses_valid
    (exec_store (cmd_vote outsider_update (status_context "member" None ["1"; "pizza"]))
       before).
Proof.
  intros before.
  assert (Hvalid : responses_valid before).
  { intros r Hr. apply list_elem_of_singleton in Hr. subst r.
    exists lunch_poll. split; [reflexivity | decide_by_computation]. }
  split; [exact Hvalid|].
  exact (proj1 (proj2 (responses_stay_valid outsider_update
                         (status_context "member" None ["1"; "pizza"]) (fun _ => None)
                         before Hvalid))).
Defined.

Lemma py_split_not_nil sep text : py_split sep text <> [].
Proof.
  destruct text as [|c rest]; cbn; [discriminate|].
  destruct (Ascii.eqb c sep); [discriminate|].
  destruct (py_split sep rest); discriminate.
Qed.

Lemma py_split_without_separator sep text :
  Py.contains sep text = false -> py_split sep text = [text].
Proof.
  induction text as [|c rest IH]; cbn; [reflexivity|].
  intros H. apply orb_false_iff in H as [Hc Hrest].
  rewrite Ascii.eqb_sym, Hc, (IH Hrest). reflexivity.
Qed.

Lemma py_split_with_separator sep text :
  Py.contains sep text = true ->
  exists first second more, py_split sep text = first :: second :: more.
Proof.
  induction text as [|c rest IH]; cbn; [discriminate|].
  intros H. rewrite (Ascii.eqb_sym sep c) in H. destruct (Ascii.eqb c sep).
  - pose proof (py_split_not_nil sep rest) as Hnil.
    destruct (py_split sep rest) as [|second more]; [contradiction | eauto].
  - cbn in H. destruct (IH H) as (first & second & more & ->). eauto.
Qed.

(** X27: /poll makes a poll exactly when its text, the arguments joined by
    single spaces, holds a '|'.  Without one it is refused and nothing is
    stored.  With one, the text before the first '|' is the question and
    the pieces between the later ones are the options; the poll is added
    as an active poll of the chat under the next id, which the answer
    names; the polls that were there keep their ids and their rows, and no
    response is touched.  Anyone may do this: the platform is not asked. *)
Theorem poll_needs_a_separator update context s :
  args context <> [] ->
  sqlite_int (effective_chat_id update) = true ->
  let text := Py.join " " (args context) in
  let s' := exec_store (cmd_poll update context) s in
  requests (world s') = requests (world s) /\
  poll_responses s' = poll_responses s /\
  (Py.contains "|" text = false ->
     polls s' = polls s /\
     replies (world s') =
       (replies (world s) ++ ["Provide a question and at least one option."])%list) /\
  (Py.contains "|" text = true ->
     exists asked option1 more,
       py_split "|" text = asked :: option1 :: more /\
       let row := {| poll_group_id := effective_chat_id update; question := asked;
                     options := option1 :: more; poll_created_at := now context;
                     is_active := 1 |} in
       let poll_id := Z.of_nat (length (polls s)) + 1 in
       polls s' = (polls s ++ [row])%list /\
       find_poll poll_id (polls s') = Some row /\
       (forall other p, find_poll other (polls s) = Some p ->
          find_poll other (polls s') = Some p) /\
       replies (world s') =
         (replies (world s) ++
            ["Poll created (ID: " +:+ Py.str poll_id +:+ "): " +:+ asked +:+ nl
             +:+ "Options:" +:+ nl
             +:+ Py.join nl (List.map (fun opt => "- " +:+ opt) (option1 :: more))
             +:+ nl +:+ "Use /vote <poll_id> <option> to vote."])%list).
Proof.
  intros Hargs Hchat text s'. subst text s'. unfold exec_store, cmd_poll.
  destruct (args context) as [|arg0 rest] eqn:Hlist; [contradiction|].
  destruct (Py.contains "|" (Py.join " " (arg0 :: rest))) eqn:Hsep.
  - destruct (py_split_with_separator _ _ Hsep) as (asked & option1 & more & Hsplit).
    rewrite Hsplit.
    rewrite bind_store_run, insert_poll_run by exact Hchat.
    store_fields.
    split; [reflexivity|]. split; [reflexivity|]. split; [discriminate|].
    intros _. exists asked, option1, more. split; [reflexivity|].
    cbv zeta. split; [reflexivity|]. split; [apply find_poll_new|].
    split; [|reflexivity]. intros other p Hp. apply find_poll_app. exact Hp.
  - rewrite (py_split_without_separator _ _ Hsep).
    store_fields.
    split; [reflexivity|]. split; [reflexivity|]. split; [auto | discriminate].
Qed.

Lemma poll_needs_a_separator_witness :
  Py.contains "|" (Py.join " " ["Lunch?|pizza|rice"; "bowl"]) = true /\
  polls (exec_store (cmd_poll actor_update
                       (status_context "member" None ["Lunch?|pizza|rice"; "bowl"]))
           (store_of (two_members "owner" "member" 0) ∅))
  = [lunch_poll].
Proof.
  split; [reflexivity|].
  destruct (poll_needs_a_separator actor_update
              (status_context "member" None ["Lunch?|pizza|rice"; "bowl"])
              (store_of (two_members "owner" "member" 0) ∅)
              ltac:(discriminate) eq_refl) as (_ & _ & _ & H).
  destruct (H eq_refl) as (asked & option1 & more & Hsplit & Hpolls & _).
  rewrite Hpolls. vm_compute in Hsplit. injection Hsplit as <- <- <-. reflexivity.
Defined.
